(** * iori-nav: the config API handler and the homepage renderer

    A shallow embedding of [functions/api/config/index.js] (the list and
    create operations of the config API) and of [functions/index.js] (the
    server-rendered homepage), followed by the properties of these handlers.

    Conventions of the embedding.
    - A JavaScript string is a [string]: the sequence of the bytes of its
      UTF-8 encoding. The literals of the source are written as they are.
    - A JavaScript number read from the store or counted (sort orders,
      lengths, ids) is an integer of [Z]. A number parsed from the request
      and what the handlers compute from it (page numbers, offsets, totals,
      the wallpaper index) is a [JS.number]: an integer that a double holds
      exactly, an infinity or [NaN], with the rounding of the arithmetic of
      doubles.
    - A nullable text column is an [option string]; [x || d] on such a value
      is [js_or]. A property of a JSON body is a [JS.value], which may be
      of any JSON type.
    - The store (Cloudflare D1) is a record of tables, each a list of rows in
      storage order; a query is a function of the store. A statement fails
      when a bound LIMIT or OFFSET is not an integer of the store, and the
      handlers then answer 500; the other failures of the store (an
      unreachable database, a missing table) are outside the model.
    - The platform functions whose behaviour is not code of this repository
      (the URL constructor, the Unicode case mapping of [toUpperCase], the
      collator behind [localeCompare], the LIKE operator and the column
      comparison of the store, the outbound [fetch], the authentication
      middleware) are parameters. *)

From Stdlib Require Import ZArith String Ascii List Bool Lia DecimalString.
From Stdlib Require Import Sorting.Sorted Sorting.Permutation.
From Stdlib Require DecimalPos.
From stdpp Require Import base gmap strings.
Import ListNotations.

Open Scope string_scope.
Open Scope Z_scope.

(** ** JavaScript built-ins used by the handlers *)

Module JS.

(** Truthiness of a string: every string but the empty one. *)
Definition truthy (s : string) : bool := negb (s =? "")%string.

(** [x || d] for a string [x]. *)
Definition or_str (x d : string) : string := if truthy x then x else d.

(** [x || d] for a value that is [null]/[undefined] or a string. *)
Definition js_or (x : option string) (d : string) : string :=
  match x with
  | Some s => or_str s d
  | None => d
  end.

(** A value of a parsed JSON body as the handlers read it: a missing
    property, [null], a boolean, an integer, a string, or another truthy
    value (an object, an array, a number that is not an integer). *)
Inductive value :=
  | Undefined
  | Null
  | Bool (b : bool)
  | Number (z : Z)
  | Text (s : string)
  | Other.

(** Truthiness of a value. *)
Definition truthy_value (v : value) : bool :=
  match v with
  | Undefined | Null => false
  | Bool b => b
  | Number z => negb (z =? 0)
  | Text s => truthy s
  | Other => true
  end.

(** The string that a value is, if it is one. *)
Definition text_of (v : value) : option string :=
  match v with
  | Text s => Some s
  | _ => None
  end.

Definition byte (c : ascii) : N := N_of_ascii c.

(** Number of bytes of the WhiteSpace or LineTerminator character that
    starts [s], [0%nat] when [s] does not start with one. The characters
    are U+0009..U+000D, U+0020, U+00A0, U+1680, U+2000..U+200A, U+2028,
    U+2029, U+202F, U+205F, U+3000 and U+FEFF. *)
Definition ws_len (s : string) : nat :=
  match s with
  | EmptyString => 0%nat
  | String c1 r1 =>
    let b1 := byte c1 in
    if ((9 <=? b1) && (b1 <=? 13) || (b1 =? 32))%N then 1%nat
    else match r1 with
    | EmptyString => 0%nat
    | String c2 r2 =>
      let b2 := byte c2 in
      if ((b1 =? 194) && (b2 =? 160))%N then 2%nat
      else match r2 with
      | EmptyString => 0%nat
      | String c3 _ =>
        let b3 := byte c3 in
        if ((b1 =? 225) && (b2 =? 154) && (b3 =? 128)
            || (b1 =? 226) && (b2 =? 128)
               && ((128 <=? b3) && (b3 <=? 138) || (b3 =? 168)
                   || (b3 =? 169) || (b3 =? 175))
            || (b1 =? 226) && (b2 =? 129) && (b3 =? 159)
            || (b1 =? 227) && (b2 =? 128) && (b3 =? 128)
            || (b1 =? 239) && (b2 =? 187) && (b3 =? 191))%N
        then 3%nat else 0%nat
      end
    end
  end.

(** The same for the character that ends a string, read on the reversed
    string: the last byte when it is one of the one-byte characters, else
    the last two bytes when they are U+00A0, else the last three bytes when
    they are one of the three-byte characters. *)
Definition ws_len_rev (s : string) : nat :=
  match s with
  | EmptyString => 0%nat
  | String c1 r1 =>
    if (ws_len (String c1 EmptyString) =? 1)%nat then 1%nat
    else
      match r1 with
      | EmptyString => 0%nat
      | String c2 r2 =>
        if (ws_len (String c2 (String c1 EmptyString)) =? 2)%nat then 2%nat
        else
          match r2 with
          | EmptyString => 0%nat
          | String c3 _ =>
            if (ws_len (String c3 (String c2 (String c1 EmptyString))) =? 3)%nat
            then 3%nat else 0%nat
          end
      end
  end.

Fixpoint drop (n : nat) (s : string) : string :=
  match n, s with
  | S n', String _ r => drop n' r
  | _, _ => s
  end.

Fixpoint strip (len : string -> nat) (fuel : nat) (s : string) : string :=
  match fuel with
  | O => s
  | S fuel' =>
    match len s with
    | O => s
    | n => strip len fuel' (drop n s)
    end
  end.

Definition trimStart (s : string) : string :=
  strip ws_len (String.length s) s.

(** [String.prototype.trim]. *)
Definition trim (s : string) : string :=
  let t := trimStart s in
  String.rev (strip ws_len_rev (String.length t) (String.rev t)).

(** [(x || '').trim()] for a value [x] of a JSON body: [None] when the call
    throws, [x] being truthy and not a string. *)
Definition trimmed (x : value) : option string :=
  match x with
  | Text s => Some (trim s)
  | _ => if truthy_value x then None else Some ""
  end.

Definition lower_ascii (c : ascii) : ascii :=
  let b := byte c in
  if ((65 <=? b) && (b <=? 90))%N then ascii_of_N (b + 32) else c.

(** [String.prototype.toLowerCase] on the ASCII letters. The handlers only
    compare its result with ['all'] and with the scheme prefixes, and no
    character outside ASCII has [a], [l], [h], [t], [p] or [s] as its
    lower case. *)
Fixpoint toLowerCase (s : string) : string :=
  match s with
  | EmptyString => EmptyString
  | String c r => String (lower_ascii c) (toLowerCase r)
  end.

(** [String.prototype.startsWith]. *)
Definition startsWith (s p : string) : bool := String.prefix p s.

(** [Array.prototype.includes] on an array of strings. *)
Definition includes (l : list string) (x : string) : bool :=
  existsb (String.eqb x) l.

Definition is_digit (c : ascii) : bool :=
  ((48 <=? byte c) && (byte c <=? 57))%N.

(** The longest prefix of decimal digits of [s], and what follows it. *)
Fixpoint span_digits (s : string) : string * string :=
  match s with
  | String c r =>
    if is_digit c
    then let '(d, rest) := span_digits r in (String c d, rest)
    else (EmptyString, s)
  | EmptyString => (EmptyString, EmptyString)
  end.

(** Value of a string of decimal digits, read from the left. *)
Fixpoint digits_value (acc : Z) (s : string) : Z :=
  match s with
  | String c r => digits_value (10 * acc + Z.of_N (byte c - 48)) r
  | EmptyString => acc
  end.

(** A number that the handlers compute with: an integer that a double
    holds exactly, an infinity, or [NaN]. The two zeros are not told apart:
    nothing that the handlers do with a number distinguishes them. *)
Inductive number :=
  | Num (z : Z)
  | Infinity
  | NegInfinity
  | NaN.

(** The nonnegative integer [z] rounded to 53 significant bits, to the
    nearest and on a tie to the even one. *)
Definition round_to_53 (z : Z) : Z :=
  let e := Z.log2 z - 52 in
  if e <=? 0 then z
  else
    let q := Z.shiftr z e in
    let r := z - Z.shiftl q e in
    let half := Z.shiftl 1 (e - 1) in
    let q' :=
      if r <? half then q
      else if half <? r then q + 1
      else if Z.even q then q else q + 1 in
    Z.shiftl q' e.

(** The double nearest to the integer [z]: an infinity from [2 ^ 1024]
    on. *)
Definition of_integer (z : Z) : number :=
  let m := round_to_53 (Z.abs z) in
  if 2 ^ 1024 <=? m then (if z <? 0 then NegInfinity else Infinity)
  else Num (Z.sgn z * m).

(** [a + b]. *)
Definition add (a b : number) : number :=
  match a, b with
  | NaN, _ | _, NaN => NaN
  | Num x, Num y => of_integer (x + y)
  | Infinity, NegInfinity | NegInfinity, Infinity => NaN
  | Infinity, _ | _, Infinity => Infinity
  | NegInfinity, _ | _, NegInfinity => NegInfinity
  end.

(** [a - b]. *)
Definition sub (a b : number) : number :=
  match a, b with
  | NaN, _ | _, NaN => NaN
  | Num x, Num y => of_integer (x - y)
  | Infinity, Infinity | NegInfinity, NegInfinity => NaN
  | Infinity, _ | _, NegInfinity => Infinity
  | NegInfinity, _ | _, Infinity => NegInfinity
  end.

(** The sign of a number that is not [NaN]. *)
Definition sign (a : number) : Z :=
  match a with
  | Num x => Z.sgn x
  | Infinity => 1
  | NegInfinity => -1
  | NaN => 0
  end.

(** [a * b]. *)
Definition mul (a b : number) : number :=
  match a, b with
  | NaN, _ | _, NaN => NaN
  | Num x, Num y => of_integer (x * y)
  | _, _ =>
    if sign a * sign b =? 0 then NaN
    else if 0 <? sign a * sign b then Infinity else NegInfinity
  end.

(** [a % b]: the remainder has the sign of the dividend, and is exact. *)
Definition rem (a b : number) : number :=
  match a, b with
  | Num x, Num y => if y =? 0 then NaN else Num (Z.rem x y)
  | Num x, (Infinity | NegInfinity) => Num x
  | _, _ => NaN
  end.

(** [parseInt(s, 10)]: leading white space, an optional sign, then the
    longest run of digits, whose value is rounded to the nearest double (as
    V8 does; the standard lets an engine approximate beyond the twentieth
    digit). Without a digit the result is [NaN]. [parseInt(s)] is the same
    on a string of digits. *)
Definition parseInt (s : string) : number :=
  let t := trimStart s in
  let '(neg, body) :=
    match t with
    | String c r =>
      if (c =? "-")%char then (true, r)
      else if (c =? "+")%char then (false, r)
      else (false, t)
    | EmptyString => (false, t)
    end in
  match fst (span_digits body) with
  | EmptyString => NaN
  | d => of_integer (if neg then - digits_value 0 d else digits_value 0 d)
  end.

(** Decimal rendering of an integer, as a template literal prints it
    (below [10 ^ 21], from where on a number is printed with an exponent). *)
Definition toString (z : Z) : string := NilEmpty.string_of_int (Z.to_int z).

(** The same for a number. *)
Definition number_toString (n : number) : string :=
  match n with
  | Num z => toString z
  | Infinity => "Infinity"
  | NegInfinity => "-Infinity"
  | NaN => "NaN"
  end.

(** [array[i]] for a number [i]: [undefined] ([None]) unless [i] is an
    index of the array. *)
Definition at_index {A : Type} (l : list A) (i : number) : option A :=
  match i with
  | Num z => if z <? 0 then None else nth_error l (Z.to_nat z)
  | _ => None
  end.

(** [s.replace(/c/g, r)] for a one-character pattern [c]. *)
Fixpoint replaceAll (c : ascii) (r : string) (s : string) : string :=
  match s with
  | EmptyString => EmptyString
  | String d rest =>
    if Ascii.eqb d c then r ++ replaceAll c r rest
    else String d (replaceAll c r rest)
  end.

(** [s.split('/')[0]]: what precedes the first slash. *)
Fixpoint before_slash (s : string) : string :=
  match s with
  | EmptyString => EmptyString
  | String c r => if Ascii.eqb c "/" then EmptyString else String c (before_slash r)
  end.

Section Sort.
Context {A : Type}.
Variable cmp : A -> A -> Z.

(** [Array.prototype.sort(cmp)]: the sort is stable, and [cmp a b > 0]
    puts [b] first. Insertion from the right keeps equal elements in
    their order. *)
Fixpoint insert_sorted (x : A) (l : list A) : list A :=
  match l with
  | [] => [x]
  | y :: l' => if cmp x y <=? 0 then x :: l else y :: insert_sorted x l'
  end.

Fixpoint sort (l : list A) : list A :=
  match l with
  | [] => []
  | x :: l' => insert_sorted x (sort l')
  end.
(** A comparator is consistent when the order it induces is total and
    transitive. On a consistent comparator every stable sort gives the same
    array. *)
Definition consistent : Prop :=
  (forall a b, 0 < cmp a b -> cmp b a <= 0)
  /\ (forall a b c, cmp a b <= 0 -> cmp b c <= 0 -> cmp a c <= 0).

(** [a] may stand before [b]. *)
Definition before (a b : A) : Prop := cmp a b <= 0.

End Sort.

End JS.

(** ** The relational store *)

Module Store.

(** A value read where the handlers apply [Number(...)], and the value of
    a [sort_order] column: [null], a missing property, an integer, or a
    value that [Number] maps to [NaN] or to an infinity (a text that is not
    numeric, an object, a blob). The store orders the values of the last
    kind among themselves by their content; [rank] is the place of the
    value in that order. A sort order that is a number is an integer. *)
Inductive numval :=
  | VNull
  | VUndefined
  | VInt (z : Z)
  | VOther (rank : Z).

(** [Number(v)], [None] when the result is not finite. *)
Definition to_number (v : numval) : option Z :=
  match v with
  | VNull => Some 0
  | VInt z => Some z
  | VUndefined | VOther _ => None
  end.

(** A row of [sites]. [s_create_time] is the instant of creation on the
    store's clock. *)
Record site := {
  s_id : Z;
  s_name : string;
  s_url : string;
  s_logo : option string;
  s_desc : option string;
  s_catelog_id : Z;
  s_catelog_name : option string;
  s_sort_order : numval;
  s_is_private : option Z;
  s_create_time : Z
}.

(** A row of [category]. *)
Record category := {
  c_id : Z;
  c_catelog : string;
  c_is_private : option Z;
  c_sort_order : numval
}.

(** A row of [settings]. *)
Record setting := {
  key : string;
  value : string
}.

Record db := {
  sites : list site;
  categories : list category;
  settings : list setting
}.

(** [(s.is_private = 0 OR ? = 1)]: a NULL flag compares as unknown, and the
    row passes only through the second disjunct. *)
Definition visible (includePrivate : Z) (s : site) : bool :=
  match s_is_private s with
  | Some 0 => true
  | _ => includePrivate =? 1
  end.

(** Class of a value in [ORDER BY]: NULL first, then the numbers, then the
    texts and blobs. *)
Definition order_rank (v : numval) : Z :=
  match v with
  | VNull | VUndefined => 0
  | VInt _ => 1
  | VOther _ => 2
  end.

(** Place of a value within its class. *)
Definition order_num (v : numval) : Z :=
  match v with
  | VInt z => z
  | VOther rank => rank
  | VNull | VUndefined => 0
  end.

(** [ORDER BY sort_order ASC, create_time DESC] as a comparator. *)
Definition by_sort_then_time (a b : site) : Z :=
  if negb (order_rank (s_sort_order a) =? order_rank (s_sort_order b))
  then order_rank (s_sort_order a) - order_rank (s_sort_order b)
  else if negb (order_num (s_sort_order a) =? order_num (s_sort_order b))
  then order_num (s_sort_order a) - order_num (s_sort_order b)
  else s_create_time b - s_create_time a.

Definition order_by (l : list site) : list site :=
  JS.sort by_sort_then_time l.

(** [LIMIT ? OFFSET ?]: a negative limit is no limit, a negative offset is
    no offset. *)
Definition limit_offset {A : Type} (limit offset : Z) (l : list A) : list A :=
  let rest := skipn (Z.to_nat offset) l in
  if limit <? 0 then rest else firstn (Z.to_nat limit) rest.

(** [SELECT id FROM sites WHERE url = ?], first row. *)
Definition find_by_url (u : string) (l : list site) : option site :=
  find (fun s => (s_url s =? u)%string) l.

(** [SELECT catelog, is_private FROM category WHERE id = ?], first row. *)
Definition find_category (cid : Z) (l : list category) : option category :=
  find (fun c => c_id c =? cid) l.

(** The row id the store gives to the next inserted site. *)
Definition next_id (l : list site) : Z :=
  1 + fold_right (fun s m => Z.max (s_id s) m) 0 l.

End Store.

(** ** The helpers imported from [_middleware] *)

Module Middleware.

Import Store.

(** What a handler of the config API answers with. [CaughtBody prefix] is
    the error body of a [catch] block: its message is [prefix] followed by
    the message of the exception, which the platform words. *)
Inductive body :=
  | ErrorBody (message : string)
  | CaughtBody (prefix : string)
  | ListBody (code : Z) (data : list site) (total : JS.number) (page pageSize : Z)
  | CreatedBody (code : Z) (message : string).

Record response := {
  status : Z;
  payload : body
}.

(** Modelled from the spec: [errorResponse] is declared in [_middleware],
    which is not part of the sources; the interface section gives the
    status and an error body. *)
Definition errorResponse (message : string) (st : Z) : response :=
  {| status := st; payload := ErrorBody message |}.

(** [errorResponse(`${prefix}${e.message}`, 500)] in a [catch] block. *)
Definition caughtResponse (prefix : string) : response :=
  {| status := 500; payload := CaughtBody prefix |}.

(** Modelled from the spec: [jsonResponse] is declared in [_middleware];
    the status is the one passed, 200 when none is. *)
Definition jsonResponse (b : body) (st : option Z) : response :=
  {| status := match st with Some n => n | None => 200 end; payload := b |}.

(** Modelled from the spec: [normalizeSortOrder] of [_middleware] is taken
    to be the function of the same name of [functions/index.js]:
    [Number(val)] when it is finite, 9999 otherwise. *)
Definition normalizeSortOrder (val : numval) : Z :=
  match to_number val with
  | Some num => num
  | None => 9999
  end.

(** The rows and the total of a list answer. *)
Definition data_of (r : response) : list site :=
  match payload r with
  | ListBody _ data _ _ _ => data
  | _ => []
  end.

Definition total_of (r : response) : JS.number :=
  match payload r with
  | ListBody _ _ total _ _ => total
  | _ => JS.Num 0
  end.

End Middleware.

(** ** [functions/api/config/index.js] *)

Module ConfigApi.

Import Store Middleware.

(** The search parameters of a GET request, each as
    [url.searchParams.get] returns it. *)
Record get_request := {
  q_catalog : option string;
  q_catalogId : option string;
  q_page : option string;
  q_pageSize : option string;
  q_keyword : option string
}.

(** The JSON body of a POST request once [request.json()] has given a
    value that has properties. [b_sort_order] is the property as
    [Number(...)] reads it. [b_catelogId] is an integer or is missing: an
    id of another JSON type is outside the model. *)
Record post_body := {
  b_name : JS.value;
  b_url : JS.value;
  b_logo : JS.value;
  b_desc : JS.value;
  b_catelogId : option Z;   (* a missing id and the id 0 are both falsy *)
  b_sort_order : numval;
  b_is_private : JS.value
}.

(** What [request.json()] gives: it rejects (the body is not JSON) or gives
    [null], whose properties cannot be read, or it gives a value with
    properties. *)
Inductive json_outcome :=
  | JsonThrows
  | JsonObject (config : post_body).

Record environment := {
  ICON_API : option string
}.

(** Truthiness of a value that is [null]/[undefined] or a string. *)
Definition given (x : option string) : bool := JS.truthy (JS.js_or x "").

Section Engine.

(** [sql_like text pattern] is the store's [text LIKE pattern];
    [sql_id_eq id v] is its comparison of the integer column
    [catelog_id] with the bound text [v]. *)
Variable sql_like : string -> string -> bool.
Variable sql_id_eq : Z -> string -> bool.

Definition like_opt (text : option string) (pattern : string) : bool :=
  match text with
  | Some t => sql_like t pattern
  | None => false
  end.

(** The shared WHERE clause [queryBase] with its bound parameters. *)
Definition queryBase (includePrivate : Z)
    (catalogId catalog keyword : option string) (s : site) : bool :=
  visible includePrivate s
  && (if given catalogId then sql_id_eq (s_catelog_id s) (JS.js_or catalogId "")
      else if given catalog
      then match s_catelog_name s with
           | Some n => (n =? JS.js_or catalog "")%string
           | None => false
           end
      else true)
  && (if given keyword
      then let pattern := "%" ++ JS.js_or keyword "" ++ "%" in
           sql_like (s_name s) pattern || sql_like (s_url s) pattern
           || like_opt (s_catelog_name s) pattern
           || like_opt (s_desc s) pattern
      else true).

(** [query]: the page of rows. *)
Definition query (includePrivate : Z) (catalogId catalog keyword : option string)
    (pageSize offset : Z) (d : db) : list site :=
  limit_offset pageSize offset
    (order_by (List.filter (queryBase includePrivate catalogId catalog keyword) (sites d))).

(** [countQuery]: [COUNT( * )] over the same clause. *)
Definition countQuery (includePrivate : Z) (catalogId catalog keyword : option string)
    (d : db) : Z :=
  Z.of_nat (length (List.filter (queryBase includePrivate catalogId catalog keyword) (sites d))).

(** Lines 82-88: the reported total. [count] is only read below 1000. *)
Definition reported_total (pageSize offset : Z) (results : list site) (count : Z)
    : JS.number :=
  if pageSize >=? 1000
  then JS.add (JS.Num (Z.of_nat (length results))) (JS.Num offset)
  else JS.Num count.

(** Lines 52-96 once [page], [pageSize] and [offset] are integers that the
    store takes: the two statements and the answer. *)
Definition list_page (isAuthenticated : bool)
    (catalog catalogId keyword : option string) (page pageSize offset : Z) (d : db)
    : response :=
  let includePrivate := if isAuthenticated then 1 else 0 in
  let results := query includePrivate catalogId catalog keyword pageSize offset d in
  let total :=
    reported_total pageSize offset results
      (countQuery includePrivate catalogId catalog keyword d) in
  jsonResponse (ListBody 200 results total page pageSize) None.

(** The list operation for a [page] and a [pageSize] whose product
    [(page - 1) * pageSize] a double holds exactly: the offset is that
    product. *)
Definition list_sites (isAuthenticated : bool)
    (catalog catalogId keyword : option string) (page pageSize : Z) (d : db)
    : response :=
  list_page isAuthenticated catalog catalogId keyword page pageSize
    ((page - 1) * pageSize) d.

(** Whether the store takes a bound number for LIMIT or OFFSET. SQLite
    needs an integer there and converts a double only when it lies strictly
    between [- 2 ^ 63] and [2 ^ 63]; otherwise the statement fails with a
    datatype mismatch. *)
Definition store_integer (z : Z) : bool :=
  (- 2 ^ 63 <? z) && (z <? 2 ^ 63).

(** [onRequestGet]. [isAuthenticated] is the answer of
    [isAdminAuthenticated]. The result is [None] when [page], [pageSize] or
    [offset] is [NaN] or an infinity: what the binding of such a value does
    is not fixed by the sources. When the store refuses [pageSize] or
    [offset], the [catch] block of lines 97-99 answers. The schema
    bootstrap of lines 10-42 (two indexes, the columns [is_private] and
    [catelog_name] when they are missing) precedes the query; the rows of
    the model have these columns. *)
Definition onRequestGet (isAuthenticated : bool) (req : get_request) (d : db)
    : option response :=
  let page := JS.parseInt (JS.js_or (q_page req) "1") in
  let pageSize := JS.parseInt (JS.js_or (q_pageSize req) "10") in
  let offset := JS.mul (JS.sub page (JS.Num 1)) pageSize in
  match page, pageSize, offset with
  | JS.Num page, JS.Num pageSize, JS.Num offset =>
    if store_integer pageSize && store_integer offset
    then Some (list_page isAuthenticated (q_catalog req) (q_catalogId req)
                 (q_keyword req) page pageSize offset d)
    else Some (caughtResponse "Failed to fetch config data: ")
  | _, _, _ => None
  end.

End Engine.

(** Lines 131-140: the logo derived from the url when none is given. *)
Definition default_logo (env : environment) (logo url : option string)
    (sanitizedLogo : option string) : option string :=
  if negb (given logo) && given url then
    let u := JS.js_or url "" in
    if JS.startsWith u "https://" || JS.startsWith u "http://" then
      let stripped :=
        if JS.startsWith u "https://" then JS.drop 8 u else JS.drop 7 u in
      let domain := JS.before_slash stripped in
      let iconAPI := JS.js_or (ICON_API env) "https://favicon.im/" in
      Some (if given (ICON_API env) then iconAPI ++ domain
            else iconAPI ++ domain ++ "?larger=true")
    else sanitizedLogo
  else sanitizedLogo.

(** The value that [is_private ? 1 : 0] gives for the body. *)
Definition requested_private (config : post_body) : Z :=
  if JS.truthy_value (b_is_private config) then 1 else 0.

(** [t || null]. *)
Definition or_null (t : string) : option string :=
  if JS.truthy t then Some t else None.

(** [onRequestPost] from line 111 on, for the value [config] that
    [request.json()] has given. [now] is the store's clock, which stamps
    [create_time]. The result is the response and the store after the
    request. A [trim] called on a value that is not a string throws, and
    the [catch] block of lines 164-166 answers. *)
Definition onRequestPost (isAuthenticated : bool) (env : environment)
    (config : post_body) (now : Z) (d : db) : response * db :=
  if negb isAuthenticated then (errorResponse "Unauthorized" 401, d)
  else
    match JS.trimmed (b_name config), JS.trimmed (b_url config),
          JS.trimmed (b_logo config), JS.trimmed (b_desc config) with
    | Some sanitizedName, Some sanitizedUrl, Some trimmedLogo, Some trimmedDesc =>
      let sanitizedLogo := or_null trimmedLogo in
      let sanitizedDesc := or_null trimmedDesc in
      let sortOrderValue := normalizeSortOrder (b_sort_order config) in
      let isPrivateValue := requested_private config in
      let catelogId := match b_catelogId config with Some c => c | None => 0 end in
      if negb (JS.truthy sanitizedName) || negb (JS.truthy sanitizedUrl)
         || (catelogId =? 0)
      then (errorResponse "Name, URL and Catelog are required" 400, d)
      else
        match find_by_url sanitizedUrl (sites d) with
        | Some _ => (errorResponse "该 URL 已存在，请勿重复添加" 409, d)
        | None =>
          let sanitizedLogo' :=
            default_logo env (JS.text_of (b_logo config)) (JS.text_of (b_url config))
              sanitizedLogo in
          match find_category catelogId (categories d) with
          | None => (errorResponse "Category not found." 400, d)
          | Some categoryResult =>
            let finalIsPrivate :=
              match c_is_private categoryResult with
              | Some 1 => 1
              | _ => isPrivateValue
              end in
            let row := {|
              s_id := next_id (sites d);
              s_name := sanitizedName;
              s_url := sanitizedUrl;
              s_logo := sanitizedLogo';
              s_desc := sanitizedDesc;
              s_catelog_id := catelogId;
              s_catelog_name := Some (c_catelog categoryResult);
              s_sort_order := VInt sortOrderValue;
              s_is_private := Some finalIsPrivate;
              s_create_time := now |} in
            (jsonResponse (CreatedBody 201 "Config created successfully") (Some 201),
             {| sites := sites d ++ [row];
                categories := categories d;
                settings := settings d |})
          end
        end
    | _, _, _, _ => (caughtResponse "Failed to create config: ", d)
    end.

(** [onRequestPost] on a request: the authentication check of lines
    105-107 precedes the reading of the body. *)
Definition onRequestPost_request (isAuthenticated : bool) (env : environment)
    (body : json_outcome) (now : Z) (d : db) : response * db :=
  match body with
  | JsonObject config => onRequestPost isAuthenticated env config now d
  | JsonThrows =>
    if negb isAuthenticated then (errorResponse "Unauthorized" 401, d)
    else (caughtResponse "Failed to create config: ", d)
  end.

End ConfigApi.

(** ** [functions/index.js] *)

Module Home.

Import Store.

Definition quot : ascii := ascii_of_N 34.
Definition apos : ascii := ascii_of_N 39.

(** [escapeHTML]. *)
Definition escapeHTML (str : string) : string :=
  if negb (JS.truthy str) then ""
  else
    JS.replaceAll apos "&#39;"
      (JS.replaceAll quot "&quot;"
        (JS.replaceAll ">" "&gt;"
          (JS.replaceAll "<" "&lt;"
            (JS.replaceAll "&" "&amp;" str)))).

(** What [new URL(s)] exposes to [sanitizeUrl]. *)
Record URL := {
  protocol : string;
  href : string
}.

(** [/^https?:\/\//i.test(s)]. Without the [u] flag a character outside
    ASCII never matches an ASCII letter. *)
Definition http_prefix (s : string) : bool :=
  let l := JS.toLowerCase s in
  JS.startsWith l "http://" || JS.startsWith l "https://".

(** [normalizeSortOrder]. *)
Definition normalizeSortOrder (val : numval) : Z :=
  match to_number val with
  | Some num => num
  | None => 9999
  end.

(** A row of the data load: the site and the joined [c.catelog]. *)
Record row := {
  r_site : site;
  catelog : string
}.

Definition by_sort_then_time_row (a b : row) : Z :=
  by_sort_then_time (r_site a) (r_site b).

(** The data load: [sites INNER JOIN category ON s.catelog_id = c.id],
    restricted by [(s.is_private = 0 OR ? = 1)], in the order of
    [ORDER BY s.sort_order ASC, s.create_time DESC]. *)
Definition load_sites (includePrivate : Z) (d : db) : list row :=
  JS.sort by_sort_then_time_row
    (flat_map
      (fun s =>
        if visible includePrivate s
        then map (fun c => {| r_site := s; catelog := c_catelog c |})
                 (List.filter (fun c => s_catelog_id s =? c_id c) (categories d))
        else [])
      (sites d)).

(** [(site.catelog || '').trim() || '未分类']. *)
Definition categoryName_of (site : row) : string :=
  JS.or_str (JS.trim (JS.or_str (catelog site) "")) "未分类".

(** The three collections that the loop over the sites fills.
    [categorySet] keeps its members in insertion order, as a [Set]
    iterates. *)
Record categories_seen := {
  categoryMinSort : gmap string Z;
  categorySet : list string;
  categoryIdMap : gmap string Z
}.

Definition no_categories : categories_seen :=
  {| categoryMinSort := ∅; categorySet := []; categoryIdMap := ∅ |}.

(** [Number(site.sort_order)] when finite, 9999 otherwise. *)
Definition normalized_sort (site : row) : Z :=
  match to_number (s_sort_order (r_site site)) with
  | Some rawSort => rawSort
  | None => 9999
  end.

(** The body of [sites.forEach]. *)
Definition see_site (acc : categories_seen) (site : row) : categories_seen :=
  let categoryName := categoryName_of site in
  let normalized := normalized_sort site in
  {| categorySet :=
       if JS.includes (categorySet acc) categoryName then categorySet acc
       else categorySet acc ++ [categoryName];
     categoryIdMap :=
       if negb (s_catelog_id (r_site site) =? 0)
          && negb (bool_decide (is_Some (categoryIdMap acc !! categoryName)))
       then <[categoryName := s_catelog_id (r_site site)]> (categoryIdMap acc)
       else categoryIdMap acc;
     categoryMinSort :=
       match categoryMinSort acc !! categoryName with
       | None => <[categoryName := normalized]> (categoryMinSort acc)
       | Some m =>
         if normalized <? m
         then <[categoryName := normalized]> (categoryMinSort acc)
         else categoryMinSort acc
       end |}.

Definition see_sites (sites : list row) : categories_seen :=
  fold_left see_site sites no_categories.

(** [categoryOrderMap]: the declared order of every row of [category], a
    later row of the same name replacing an earlier one. *)
Definition categoryOrderMap_of (orderRows : list category) : gmap string Z :=
  fold_left
    (fun m row => <[c_catelog row := normalizeSortOrder (c_sort_order row)]> m)
    orderRows ∅.

Record catalog_meta := {
  name : string;
  order : Z;
  fallback : Z;
  id : option Z
}.


(** The callback of [Array.from(categorySet).map]. *)
Definition meta_of (seen : categories_seen) (categoryOrderMap : gmap string Z)
    (name : string) : catalog_meta :=
  let fallbackSort :=
    match categoryMinSort seen !! name with
    | Some m => normalizeSortOrder (VInt m)
    | None => 9999
    end in
  let order :=
    match categoryOrderMap !! name with
    | Some o => o
    | None => fallbackSort
    end in
  {| name := name; order := order; fallback := fallbackSort;
     id := categoryIdMap seen !! name |}.

Section Collation.

(** [a.localeCompare(b, 'zh-Hans-CN', { sensitivity: 'base' })]. *)
Variable localeCompare : string -> string -> Z.

(** The comparator given to [catalogsWithMeta.sort]. *)
Definition compare_meta (a b : catalog_meta) : Z :=
  if negb (order a =? order b) then order a - order b
  else if negb (fallback a =? fallback b) then fallback a - fallback b
  else localeCompare (name a) (name b).

(** [catalogsWithMeta] as [Array.from(categorySet).map] builds it. *)
Definition catalogsWithMeta_built (sites : list row) (orderRows : list category)
    : list catalog_meta :=
  let seen := see_sites sites in
  map (meta_of seen (categoryOrderMap_of orderRows)) (categorySet seen).

(** [catalogsWithMeta] after the sort. *)
Definition catalogsWithMeta (sites : list row) (orderRows : list category)
    : list catalog_meta :=
  JS.sort compare_meta (catalogsWithMeta_built sites orderRows).


End Collation.

Record environment := {
  DISPLAY_CATEGORY : option string;
  ENABLE_PUBLIC_SUBMISSION : option string;
  SITE_NAME : option string;
  SITE_DESCRIPTION : option string;
  FOOTER_TEXT : option string
}.

Definition given (x : option string) : bool := JS.truthy (JS.js_or x "").

(** Lines 281-295: the catalog name the request resolves to. *)
Definition requestedCatalog_of (catalog : option string) (env : environment)
    (catalogs : list string) : string :=
  let requested := JS.trim (JS.js_or catalog "") in
  let explicitAll := (JS.toLowerCase requested =? "all")%string in
  let requested := if explicitAll then "" else requested in
  if negb (JS.truthy requested) && negb explicitAll && given (DISPLAY_CATEGORY env)
  then
    let defaultCat := JS.trim (JS.js_or (DISPLAY_CATEGORY env) "") in
    if JS.includes catalogs defaultCat then defaultCat else requested
  else requested.

(** Lines 297-304. [currentCatalog] is [None] when [catalogs[0]] is read
    on an empty array. *)
Record selection := {
  catalogExists : bool;
  currentCatalog : option string;
  currentSites : list row
}.

Definition select (requestedCatalog : string) (catalogs : list string)
    (sites : list row) : selection :=
  let catalogExists :=
    JS.truthy requestedCatalog && JS.includes catalogs requestedCatalog in
  let currentCatalog :=
    if catalogExists then Some requestedCatalog else head catalogs in
  {| catalogExists := catalogExists;
     currentCatalog := currentCatalog;
     currentSites :=
       if catalogExists
       then List.filter
              (fun s => bool_decide (Some (categoryName_of s) = currentCatalog))
              sites
       else sites |}.

(** The layout settings, with the defaults of lines 307-320. *)
Record layout := {
  layoutHideDesc : bool;
  layoutHideLinks : bool;
  layoutHideCategory : bool;
  layoutHideTitle : bool;
  layoutHideSubtitle : bool;
  layoutGridCols : string;
  layoutCustomWallpaper : string;
  layoutMenuLayout : string;
  layoutRandomWallpaper : bool;
  bingCountry : string;
  layoutEnableFrostedGlass : bool;
  layoutFrostedGlassIntensity : string;
  layoutEnableBgBlur : bool;
  layoutBgBlurIntensity : string
}.

Definition default_layout : layout :=
  {| layoutHideDesc := false; layoutHideLinks := false;
     layoutHideCategory := false; layoutHideTitle := false;
     layoutHideSubtitle := false; layoutGridCols := "4";
     layoutCustomWallpaper := ""; layoutMenuLayout := "horizontal";
     layoutRandomWallpaper := false; bingCountry := "";
     layoutEnableFrostedGlass := false; layoutFrostedGlassIntensity := "15";
     layoutEnableBgBlur := false; layoutBgBlurIntensity := "0" |}.

(** The body of [results.forEach] over the rows of [settings]. *)
Definition apply_setting (l : layout) (row : setting) : layout :=
  let k := key row in
  let v := value row in
  let is_true := (v =? "true")%string in
  {| layoutHideDesc := if (k =? "layout_hide_desc")%string then is_true else layoutHideDesc l;
     layoutHideLinks := if (k =? "layout_hide_links")%string then is_true else layoutHideLinks l;
     layoutHideCategory := if (k =? "layout_hide_category")%string then is_true else layoutHideCategory l;
     layoutHideTitle := if (k =? "layout_hide_title")%string then is_true else layoutHideTitle l;
     layoutHideSubtitle := if (k =? "layout_hide_subtitle")%string then is_true else layoutHideSubtitle l;
     layoutGridCols := if (k =? "layout_grid_cols")%string then v else layoutGridCols l;
     layoutCustomWallpaper := if (k =? "layout_custom_wallpaper")%string then v else layoutCustomWallpaper l;
     layoutMenuLayout := if (k =? "layout_menu_layout")%string then v else layoutMenuLayout l;
     layoutRandomWallpaper := if (k =? "layout_random_wallpaper")%string then is_true else layoutRandomWallpaper l;
     bingCountry := if (k =? "bing_country")%string then v else bingCountry l;
     layoutEnableFrostedGlass := if (k =? "layout_enable_frosted_glass")%string then is_true else layoutEnableFrostedGlass l;
     layoutFrostedGlassIntensity := if (k =? "layout_frosted_glass_intensity")%string then v else layoutFrostedGlassIntensity l;
     layoutEnableBgBlur := if (k =? "layout_enable_bg_blur")%string then is_true else layoutEnableBgBlur l;
     layoutBgBlurIntensity := if (k =? "layout_bg_blur_intensity")%string then v else layoutBgBlurIntensity l |}.

Definition load_layout (d : db) : layout :=
  fold_left apply_setting (settings d) default_layout.

(** *** The wallpaper rotation *)

(** An entry of the feed: [null]/[undefined], on which reading a property
    throws, or a value with its [fullUrl] and [url] properties. *)
Inductive feed_item :=
  | ItemNullish
  | ItemObject (fullUrl url : option string).

(** What [res.json()] gives: it throws, or the value is not an array, or
    it is the array [data]. *)
Inductive feed_body :=
  | BodyNotJson
  | BodyNotArray
  | BodyArray (data : list feed_item).

(** What [fetch(bingUrl)] gives: it rejects, or it answers with [res.ok]
    and a body. *)
Inductive fetch_outcome :=
  | FetchRejected
  | FetchResponse (ok : bool) (body : feed_body).

(** [cookies.match(/wallpaper_index=(\d+)/)]: the leftmost place where the
    name is followed by a digit; the result is [match[1]], the run of
    digits there. *)
Fixpoint cookie_match (cookies : string) : option string :=
  match cookies with
  | EmptyString => None
  | String _ rest =>
    if JS.startsWith cookies "wallpaper_index=" then
      match fst (JS.span_digits (JS.drop 16 cookies)) with
      | EmptyString => cookie_match rest
      | digits => Some digits
      end
    else cookie_match rest
  end.

(** The outcomes that leave the rotation without a feed: the fetch rejects,
    the status is not ok, or the body is not JSON, not an array, or an
    empty array. *)
Definition feed_unusable (o : fetch_outcome) : bool :=
  match o with
  | FetchResponse true (BodyArray (_ :: _)) => false
  | _ => true
  end.

Definition bingUrl_of (bingCountry : string) : string :=
  if (bingCountry =? "spotlight")%string
  then "https://peapix.com/spotlight/feed?n=7"
  else "https://peapix.com/bing/feed?n=7&country=" ++ bingCountry.

(** [currentWallpaperIndex]: [parseInt(match[1])], -1 without a match. *)
Definition currentWallpaperIndex_of (cookieHeader : option string) : JS.number :=
  let cookies := JS.js_or cookieHeader "" in
  match cookie_match cookies with
  | Some digits => JS.parseInt digits
  | None => JS.Num (-1)
  end.

Section Rotation.

Variable fetch : string -> fetch_outcome.

(** Lines 346-380. The result is [nextWallpaperIndex] and
    [layoutCustomWallpaper] after the block. *)
Definition rotate_wallpaper (l : layout) (cookieHeader : option string)
    : JS.number * string :=
  if layoutRandomWallpaper l then
    let currentWallpaperIndex := currentWallpaperIndex_of cookieHeader in
    match fetch (bingUrl_of (bingCountry l)) with
    | FetchResponse true (BodyArray data) =>
      if 0 <? Z.of_nat (length data) then
        let nextWallpaperIndex :=
          JS.rem (JS.add currentWallpaperIndex (JS.Num 1))
            (JS.Num (Z.of_nat (length data))) in
        match JS.at_index data nextWallpaperIndex with
        | Some (ItemObject fullUrl url) =>
          let targetUrl := JS.js_or fullUrl (JS.js_or url "") in
          (nextWallpaperIndex,
           if JS.truthy targetUrl then targetUrl else layoutCustomWallpaper l)
        | Some ItemNullish | None =>
          (* the property read throws after the index is assigned *)
          (nextWallpaperIndex, layoutCustomWallpaper l)
        end
      else (JS.Num 0, layoutCustomWallpaper l)
    | _ => (JS.Num 0, layoutCustomWallpaper l)
    end
  else (JS.Num 0, layoutCustomWallpaper l).

End Rotation.

Definition content_type : string * string :=
  ("Content-Type", "text/html; charset=utf-8").

(** Lines 717-719: the [Set-Cookie] header. *)
Definition wallpaper_cookie (nextWallpaperIndex : JS.number) : string :=
  "wallpaper_index=" ++ JS.number_toString nextWallpaperIndex
    ++ "; Path=/; Max-Age=31536000; SameSite=Lax".

(** *** The site cards *)

(** The icon of a card: the [img] tag with its [src] and [alt], or the
    [div] that shows [cardInitial]. *)
Inductive icon :=
  | IconImg (src alt : string)
  | IconInitial (cardInitial : string).

(** [linksHtml] when it is not hidden: the shown url, and the copy button
    with its [data-url] and its [disabled] attribute. *)
Record links := {
  safeDisplayUrl : string;
  copy_data_url : string;
  copy_disabled : bool
}.

(** The values that the template of a card interpolates. [new_tab] tells
    whether the anchor carries [target="_blank" rel="noopener noreferrer"]. *)
Record card := {
  data_id : Z;
  data_name : string;
  data_url : string;
  data_catalog : string;
  hrefValue : string;
  new_tab : bool;
  card_icon : icon;
  safeName : string;
  categoryHtml : option string;
  descHtml : option string;
  linksHtml : option links
}.

(** Number of bytes of the character that starts with the byte [c]. *)
Definition char_len (c : ascii) : nat :=
  let b := JS.byte c in
  if (b <? 192)%N then 1%nat
  else if (b <? 224)%N then 2%nat
  else if (b <? 240)%N then 3%nat
  else 4%nat.

Section Rendering.

(** [URL_parse s] is [new URL(s)]: [None] when the constructor throws.
    [toUpperCase s] is [s.toUpperCase()]. *)
Variable URL_parse : string -> option URL.
Variable toUpperCase : string -> string.

(** [(s.charAt(0) || '站').toUpperCase()]. [charAt(0)] is the first UTF-16
    unit of [s]: the first character when it takes at most three bytes, and
    otherwise half of a surrogate pair, which no case mapping changes and
    which the response body carries as U+FFFD. *)
Definition initial_of (s : string) : string :=
  match s with
  | EmptyString => toUpperCase "站"
  | String c r =>
    if (char_len c =? 4)%nat then "�"
    else toUpperCase (String c (substring 0 (char_len c - 1) r))
  end.

(** [sanitizeUrl]. *)
Definition sanitizeUrl (url : string) : string :=
  if negb (JS.truthy url) then ""
  else
    let trimmed := JS.trim url in
    if negb (JS.truthy trimmed) then ""
    else
      match URL_parse trimmed with
      | Some parsed =>
        if negb (protocol parsed =? "http:")%string
           && negb (protocol parsed =? "https:")%string
        then ""
        else href parsed
      | None =>
        if http_prefix trimmed then trimmed else ""
      end.

(** [url] is a well-formed absolute http or https URL: the constructor
accepts it (trimmed) and reports one of the two protocols. *)
Definition well_formed_http (url : string) : Prop :=
  exists parsed,
    URL_parse (JS.trim url) = Some parsed
    /\ (protocol parsed = "http:" \/ protocol parsed = "https:").

(** The callback of [currentSites.map] that builds a card. *)
Definition render_card (l : layout) (site : row) : card :=
  let s := r_site site in
  let rawName := JS.or_str (s_name s) "未命名" in
  let rawCatalog := JS.or_str (catelog site) "未分类" in
  let rawDesc := JS.js_or (s_desc s) "暂无描述" in
  let normalizedUrl := sanitizeUrl (s_url s) in
  let hrefValue := escapeHTML (JS.or_str normalizedUrl "#") in
  let displayUrlText := JS.or_str normalizedUrl (JS.or_str (s_url s) "") in
  let safeDisplayUrl :=
    if JS.truthy displayUrlText then escapeHTML displayUrlText else "未提供链接" in
  let dataUrlAttr := escapeHTML (JS.or_str normalizedUrl "") in
  let logoUrl := sanitizeUrl (JS.js_or (s_logo s) "") in
  let cardInitial := escapeHTML (initial_of (JS.trim rawName)) in
  let safeName := escapeHTML rawName in
  let safeCatalog := escapeHTML rawCatalog in
  let safeDesc := escapeHTML rawDesc in
  let hasValidUrl := JS.truthy normalizedUrl in
  {| data_id := s_id s;
     data_name := escapeHTML (JS.or_str (s_name s) "");
     data_url := dataUrlAttr;
     data_catalog := escapeHTML (JS.or_str (catelog site) "");
     hrefValue := hrefValue;
     new_tab := hasValidUrl;
     card_icon :=
       if JS.truthy logoUrl then IconImg (escapeHTML logoUrl) safeName
       else IconInitial cardInitial;
     safeName := safeName;
     categoryHtml := if layoutHideCategory l then None else Some safeCatalog;
     descHtml := if layoutHideDesc l then None else Some safeDesc;
     linksHtml :=
       if layoutHideLinks l then None
       else Some {| safeDisplayUrl := safeDisplayUrl;
                    copy_data_url := dataUrlAttr;
                    copy_disabled := negb hasValidUrl |} |}.

End Rendering.

(** *** The page *)

(** An entry of the category menu. The sidebar menu and the horizontal menu
    are built from the same list with the same [isActive]; they differ in
    their CSS classes only. *)
Record catalog_link := {
  safeCat : string;
  catId : option Z;
  isActive : bool
}.

(** The values substituted into the template. The template itself is a
    static asset; the CSS class strings chosen from [isCustomWallpaper] and
    the menu layout are left out. *)
Record page := {
  catalogLinks : list catalog_link;
  allLinkActive : bool;
  sitesGridMarkup : list card;
  datalistOptions : list string;
  headingText : string;
  headingDefaultAttr : string;
  headingActiveAttr : string;
  CATALOG_EXISTS : string;
  TOTAL_SITES : Z;
  CATALOG_COUNT : Z;
  siteName : string;
  siteDescription : string;
  footerText : string;
  submissionClass : string;
  isCustomWallpaper : bool;
  safeWallpaperUrl : string;
  gridClass : string
}.

Record response := {
  status : Z;
  headers : list (string * string);
  html : page
}.

(** The request: the [catalog] search parameter and the [Cookie] header. *)
Record request := {
  catalog : option string;
  Cookie : option string
}.

Definition link_of (sel : selection) (catObj : catalog_meta) : catalog_link :=
  {| safeCat := escapeHTML (name catObj);
     catId := id catObj;
     isActive :=
       catalogExists sel
       && bool_decide (Some (name catObj) = currentCatalog sel) |}.

Definition headingPlainText (sel : selection) (sites : list row) : string :=
  if catalogExists sel
  then JS.js_or (currentCatalog sel) "" ++ " · "
         ++ JS.toString (Z.of_nat (length (currentSites sel))) ++ " 个网站"
  else "全部收藏 · " ++ JS.toString (Z.of_nat (length sites)) ++ " 个网站".

Section Selection.

Variable localeCompare : string -> string -> Z.

(** The loaded sites, the menu and the selection of a request. *)
Definition sites_of (isAuthenticated : bool) (d : db) : list row :=
  load_sites (if isAuthenticated then 1 else 0) d.

Definition menu_of (isAuthenticated : bool) (d : db) : list catalog_meta :=
  catalogsWithMeta localeCompare (sites_of isAuthenticated d) (categories d).

Definition resolved_of (isAuthenticated : bool) (env : environment)
    (req : request) (d : db) : string :=
  requestedCatalog_of (catalog req) env (map name (menu_of isAuthenticated d)).

Definition selection_of (isAuthenticated : bool) (env : environment)
    (req : request) (d : db) : selection :=
  select (resolved_of isAuthenticated env req d)
    (map name (menu_of isAuthenticated d)) (sites_of isAuthenticated d).

End Selection.

Section Handler.

Variable localeCompare : string -> string -> Z.
Variable fetch : string -> fetch_outcome.
Variable URL_parse : string -> option URL.
Variable toUpperCase : string -> string.

(** [onRequest]. [isAuthenticated] is the answer of
    [isAdminAuthenticated]. *)
Definition onRequest (isAuthenticated : bool) (env : environment)
    (req : request) (d : db) : response :=
  let includePrivate := if isAuthenticated then 1 else 0 in
  let sites := load_sites includePrivate d in
  let totalSites := Z.of_nat (length sites) in
  let metas := catalogsWithMeta localeCompare sites (categories d) in
  let catalogs := map name metas in
  let sel := select (requestedCatalog_of (catalog req) env catalogs) catalogs sites in
  let l := load_layout d in
  let '(nextWallpaperIndex, customWallpaper) :=
    rotate_wallpaper fetch l (Cookie req) in
  let heading := escapeHTML (headingPlainText sel sites) in
  let body :=
    {| catalogLinks := map (link_of sel) metas;
       allLinkActive := negb (catalogExists sel);
       sitesGridMarkup := map (render_card URL_parse toUpperCase l) (currentSites sel);
       datalistOptions := map escapeHTML catalogs;
       headingText := heading;
       headingDefaultAttr := heading;
       headingActiveAttr :=
         if catalogExists sel
         then escapeHTML (JS.js_or (currentCatalog sel) "") else "";
       CATALOG_EXISTS := if catalogExists sel then "true" else "false";
       TOTAL_SITES := totalSites;
       CATALOG_COUNT := Z.of_nat (length catalogs);
       siteName := escapeHTML (JS.js_or (SITE_NAME env) "灰色轨迹");
       siteDescription :=
         escapeHTML (JS.js_or (SITE_DESCRIPTION env)
           "一个优雅、快速、易于部署的书签（网址）收藏与分享平台，完全基于 Cloudflare 全家桶构建");
       footerText := escapeHTML (JS.js_or (FOOTER_TEXT env) "曾梦想仗剑走天涯");
       submissionClass :=
         if (match ENABLE_PUBLIC_SUBMISSION env with
             | Some v => v
             | None => "undefined"
             end =? "true")%string
         then "" else "hidden";
       isCustomWallpaper := JS.truthy customWallpaper;
       safeWallpaperUrl := sanitizeUrl URL_parse customWallpaper;
       gridClass :=
         if (layoutGridCols l =? "5")%string
         then "grid grid-cols-2 md:grid-cols-3 lg:grid-cols-4 xl:grid-cols-5 gap-3 sm:gap-6"
         else "grid grid-cols-2 md:grid-cols-3 lg:grid-cols-4 gap-3 sm:gap-6" |} in
  {| status := 200;
     headers :=
       content_type
       :: (if layoutRandomWallpaper l
           then [("Set-Cookie", wallpaper_cookie nextWallpaperIndex)]
           else []);
     html := body |}.

End Handler.

End Home.

(** ** Sample instances of the platform parameters

    The statements below hold for every URL constructor, collator, LIKE
    operator and feed. Where a statement is evaluated on a concrete request,
    the parameters are these. *)

Module Sample.

Import Home.

(** The URL constructor on the inputs that the examples use:
    [new URL("javascript:alert(1)")] succeeds with the protocol
    [javascript:], [new URL("https://example.com")] succeeds and
    normalises the path, a tab inside the string is dropped, and
    [new URL("http://")], which has no host, throws, as do [http://a b]
    and a string without a scheme. *)
Definition tab : string := String (ascii_of_N 9) EmptyString.

Definition URL_parse (s : string) : option URL :=
  if (s =? "javascript:alert(1)")%string
  then Some {| protocol := "javascript:"; href := "javascript:alert(1)" |}
  else if (s =? "http:" ++ tab ++ "ab")%string
  then Some {| protocol := "http:"; href := "http://ab/" |}
  else if (s =? "https://example.com")%string
  then Some {| protocol := "https:"; href := "https://example.com/" |}
  else if (s =? "https://example.com/logo.png")%string
  then Some {| protocol := "https:"; href := "https://example.com/logo.png" |}
  else None.

Definition upper_ascii (c : ascii) : ascii :=
  let b := JS.byte c in
  if ((97 <=? b) && (b <=? 122))%N then ascii_of_N (b - 32) else c.

(** A case mapping that changes the ASCII letters only. *)
Fixpoint toUpperCase (s : string) : string :=
  match s with
  | EmptyString => EmptyString
  | String c r => String (upper_ascii c) (toUpperCase r)
  end.

(** Comparison of two strings byte by byte. *)
Fixpoint lex_compare (a b : string) : Z :=
  match a, b with
  | EmptyString, EmptyString => 0
  | EmptyString, String _ _ => -1
  | String _ _, EmptyString => 1
  | String x a', String y b' =>
    if (JS.byte x <? JS.byte y)%N then -1
    else if (JS.byte y <? JS.byte x)%N then 1
    else lex_compare a' b'
  end.

(** A collator that ignores case: the names are compared byte by byte
    after lower-casing their ASCII letters. *)
Definition localeCompare (a b : string) : Z :=
  lex_compare (JS.toLowerCase a) (JS.toLowerCase b).

Fixpoint contains (text sub : string) : bool :=
  String.prefix sub text
  || match text with
     | EmptyString => false
     | String _ rest => contains rest sub
     end.

(** [text LIKE '%k%'] as the search for [k] in [text]. *)
Definition sql_like (text pattern : string) : bool :=
  contains text (substring 1 (String.length pattern - 2) pattern).

(** The comparison of an integer column with a bound text holding a
    decimal number. *)
Definition sql_id_eq (n : Z) (v : string) : bool :=
  match JS.parseInt v with
  | JS.Num m => n =? m
  | _ => false
  end.

Definition item (u : string) : feed_item := ItemObject (Some u) None.

(** A feed of three images. *)
Definition feed3 (_ : string) : fetch_outcome :=
  FetchResponse true
    (BodyArray [item "https://img.example/0.jpg";
                item "https://img.example/1.jpg";
                item "https://img.example/2.jpg"]).

(** A feed that cannot be reached. *)
Definition feed_down (_ : string) : fetch_outcome := FetchRejected.

Import Store.

Definition site1 : site :=
  {| s_id := 1; s_name := "one"; s_url := "https://example.com";
     s_logo := Some "https://example.com/logo.png"; s_desc := None;
     s_catelog_id := 1; s_catelog_name := Some "A"; s_sort_order := VInt 5;
     s_is_private := Some 0; s_create_time := 10 |}.

Definition site2 : site :=
  {| s_id := 2; s_name := "two"; s_url := "javascript:alert(1)";
     s_logo := Some "javascript:alert(1)"; s_desc := Some "a <b> site";
     s_catelog_id := 2; s_catelog_name := Some "B"; s_sort_order := VInt 3;
     s_is_private := Some 0; s_create_time := 11 |}.

Definition site3 : site :=
  {| s_id := 3; s_name := "three"; s_url := "http://";
     s_logo := None; s_desc := None;
     s_catelog_id := 1; s_catelog_name := Some "A"; s_sort_order := VInt 1;
     s_is_private := Some 1; s_create_time := 12 |}.

Definition catA : category :=
  {| c_id := 1; c_catelog := "A"; c_is_private := Some 0; c_sort_order := VInt 2 |}.

Definition catB : category :=
  {| c_id := 2; c_catelog := "B"; c_is_private := Some 0; c_sort_order := VInt 1 |}.

Definition catVault : category :=
  {| c_id := 3; c_catelog := "Vault"; c_is_private := Some 1; c_sort_order := VInt 3 |}.

(** A store with two public sites and a private one, and the rotation of
    the wallpaper switched on. *)
Definition store : db :=
  {| sites := [site1; site2; site3];
     categories := [catA; catB; catVault];
     settings :=
       [ {| key := "layout_random_wallpaper"; value := "true" |};
         {| key := "layout_custom_wallpaper"; value := "https://example.com" |} ] |}.

(** The sites joined with their categories. *)
Definition row1 : row := {| r_site := site1; Home.catelog := "A" |}.
Definition row2 : row := {| r_site := site2; Home.catelog := "B" |}.
Definition row3 : row := {| r_site := site3; Home.catelog := "A" |}.

(** A visitor who asks for a catalog that does not exist, and one who sends
    the cookie of a previous visit. *)
Definition ask_unknown : request := {| catalog := Some "Zed"; Cookie := None |}.
Definition returning : request :=
  {| catalog := None; Cookie := Some "theme=dark; wallpaper_index=1" |}.

Definition env : environment :=
  {| DISPLAY_CATEGORY := Some "A"; ENABLE_PUBLIC_SUBMISSION := None;
     SITE_NAME := None; SITE_DESCRIPTION := None; FOOTER_TEXT := None |}.

Definition api_env : ConfigApi.environment := {| ConfigApi.ICON_API := None |}.

(** A body that asks for a public site in the private category. *)
Definition new_in_vault : ConfigApi.post_body :=
  {| ConfigApi.b_name := JS.Text " four ";
     ConfigApi.b_url := JS.Text "https://four.example/x";
     ConfigApi.b_logo := JS.Undefined; ConfigApi.b_desc := JS.Undefined;
     ConfigApi.b_catelogId := Some 3; ConfigApi.b_sort_order := VUndefined;
     ConfigApi.b_is_private := JS.Bool false |}.

(** A body whose url is the one of [site1]. *)
Definition duplicate_of_site1 : ConfigApi.post_body :=
  {| ConfigApi.b_name := JS.Text "again";
     ConfigApi.b_url := JS.Text " https://example.com ";
     ConfigApi.b_logo := JS.Undefined; ConfigApi.b_desc := JS.Undefined;
     ConfigApi.b_catelogId := Some 1; ConfigApi.b_sort_order := VInt 7;
     ConfigApi.b_is_private := JS.Undefined |}.

End Sample.

(** ** The schema bootstrap of [onRequestGet] (lines 4-42) *)

Module Bootstrap.

Import Store.

(** What the bootstrap probes and patches: whether [sites] has the columns
    [is_private] and [catelog_name], and the indexes that exist. The fields
    [s_is_private] and [s_catelog_name] of a row are read only when the
    table has the column. *)
Record schema := {
  has_is_private : bool;
  has_catelog_name : bool;
  indexes : list string
}.

(** [CREATE INDEX IF NOT EXISTS name ...]. *)
Definition create_index (name : string) (l : list string) : list string :=
  if JS.includes l name then l else (l ++ [name])%list.

(** A row after [ALTER TABLE sites ADD COLUMN is_private INTEGER DEFAULT 0]. *)
Definition add_is_private (s : site) : site :=
  {| s_id := s_id s; s_name := s_name s; s_url := s_url s; s_logo := s_logo s;
     s_desc := s_desc s; s_catelog_id := s_catelog_id s;
     s_catelog_name := s_catelog_name s; s_sort_order := s_sort_order s;
     s_is_private := Some 0; s_create_time := s_create_time s |}.

Definition set_catelog_name (n : option string) (s : site) : site :=
  {| s_id := s_id s; s_name := s_name s; s_url := s_url s; s_logo := s_logo s;
     s_desc := s_desc s; s_catelog_id := s_catelog_id s;
     s_catelog_name := n; s_sort_order := s_sort_order s;
     s_is_private := s_is_private s; s_create_time := s_create_time s |}.

(** A row after [ALTER TABLE sites ADD COLUMN catelog_name TEXT]. *)
Definition add_catelog_name (s : site) : site := set_catelog_name None s.

(** [UPDATE sites SET catelog_name = (SELECT catelog FROM category WHERE
    category.id = sites.catelog_id) WHERE catelog_name IS NULL] on a row: the
    scalar subquery is the first matching category, NULL without one. *)
Definition backfill (cats : list category) (s : site) : site :=
  match s_catelog_name s with
  | None =>
    set_catelog_name
      (match find_category (s_catelog_id s) cats with
       | Some c => Some (c_catelog c)
       | None => None
       end) s
  | Some _ => s
  end.

Definition map_sites (f : site -> site) (d : db) : db :=
  {| sites := map f (sites d); categories := categories d; settings := settings d |}.

(** The block guarded by [indexesChecked]. The result is the flag, the
    schema and the store after it. Each probe throws exactly when the
    column is missing; the other failures of the store are not modelled. *)
Definition ensure_schema (indexesChecked : bool) (sch : schema) (d : db)
    : bool * schema * db :=
  if indexesChecked then (true, sch, d)
  else
    let idx :=
      create_index "idx_sites_sort_order"
        (create_index "idx_sites_catelog_id" (indexes sch)) in
    let d1 := if has_is_private sch then d else map_sites add_is_private d in
    let d2 :=
      if has_catelog_name sch then d1
      else map_sites (backfill (categories d1)) (map_sites add_catelog_name d1) in
    (true,
     {| has_is_private := true; has_catelog_name := true; indexes := idx |},
     d2).

(** [onRequestGet] with its bootstrap: the answer, and the flag, the schema
    and the store that the request leaves. *)
Definition onRequestGet_on_instance
    (sql_like : string -> string -> bool) (sql_id_eq : Z -> string -> bool)
    (indexesChecked : bool) (sch : schema)
    (isAuthenticated : bool) (req : ConfigApi.get_request) (d : db)
    : option Middleware.response * (bool * schema * db) :=
  let '(checked, sch', d') := ensure_schema indexesChecked sch d in
  (ConfigApi.onRequestGet sql_like sql_id_eq isAuthenticated req d',
   (checked, sch', d')).

End Bootstrap.

(** ** Invariants of the store *)

Module Invariants.

Import Store.

(** No two sites have the same url. *)
Definition urls_unique (d : db) : Prop := List.NoDup (map s_url (sites d)).

(** A site of a private category is private. *)
Definition private_inherited (d : db) : Prop :=
  forall s c,
    In s (sites d) ->
    find_category (s_catelog_id s) (categories d) = Some c ->
    c_is_private c = Some 1 ->
    s_is_private s = Some 1.

(** No two categories have the same id. *)
Definition category_ids_unique (d : db) : Prop := List.NoDup (map c_id (categories d)).

(** [catelog_name] is the name of the category of the site. *)
Definition names_in_sync (d : db) : Prop :=
  forall s c,
    In s (sites d) ->
    find_category (s_catelog_id s) (categories d) = Some c ->
    s_catelog_name s = Some (c_catelog c).

(** The rows that satisfy the WHERE clause of the list operation, in the
    order of the query, before [LIMIT] and [OFFSET]. *)
Definition matching (sql_like : string -> string -> bool)
    (sql_id_eq : Z -> string -> bool) (includePrivate : Z)
    (catalogId catalog keyword : option string) (d : db) : list site :=
  order_by
    (List.filter
       (ConfigApi.queryBase sql_like sql_id_eq includePrivate catalogId catalog keyword)
       (sites d)).

(** The row that [onRequestPost] binds to its INSERT for a body whose name
    and url are the strings [name] and [url], and the category
    [categoryResult] of id [catelogId]. *)
Definition created_row (env : ConfigApi.environment) (config : ConfigApi.post_body)
    (name url : string) (now : Z) (d : db) (catelogId : Z) (categoryResult : category)
    : site :=
  {| s_id := next_id (sites d);
     s_name := JS.trim name;
     s_url := JS.trim url;
     s_logo :=
       ConfigApi.default_logo env (JS.text_of (ConfigApi.b_logo config)) (Some url)
         (match JS.trimmed (ConfigApi.b_logo config) with
          | Some t => ConfigApi.or_null t
          | None => None
          end);
     s_desc :=
       match JS.trimmed (ConfigApi.b_desc config) with
       | Some t => ConfigApi.or_null t
       | None => None
       end;
     s_catelog_id := catelogId;
     s_catelog_name := Some (c_catelog categoryResult);
     s_sort_order := VInt (Middleware.normalizeSortOrder (ConfigApi.b_sort_order config));
     s_is_private :=
       Some (match c_is_private categoryResult with
             | Some 1 => 1
             | _ => if JS.truthy_value (ConfigApi.b_is_private config) then 1 else 0
             end);
     s_create_time := now |}.

(** The characters that [escapeHTML] removes from a text. *)
Definition markup_char (c : ascii) : bool :=
  (c =? "<")%char || (c =? ">")%char
  || (c =? Home.quot)%char || (c =? Home.apos)%char.


(** No character of [s] satisfies [p]. *)
Fixpoint free_of (p : ascii -> bool) (s : string) : bool :=
  match s with
  | EmptyString => true
  | String c r => negb (p c) && free_of p r
  end.

(** The characters that [escapeHTML] rewrites. *)
Definition escaped_char (c : ascii) : bool := (c =? "&")%char || markup_char c.

(** The keys of [settings] that the homepage reads (line 323). *)
Definition recognized_keys : list string :=
  ["layout_hide_desc"; "layout_hide_links"; "layout_hide_category";
   "layout_hide_title"; "layout_hide_subtitle"; "layout_grid_cols";
   "layout_custom_wallpaper"; "layout_menu_layout"; "layout_random_wallpaper";
   "bing_country"; "layout_enable_frosted_glass";
   "layout_frosted_glass_intensity"; "layout_enable_bg_blur";
   "layout_bg_blur_intensity"].



(** The texts that the template of a card interpolates. *)
Definition card_texts (c : Home.card) : list string :=
  [Home.data_name c; Home.data_url c; Home.data_catalog c; Home.hrefValue c;
   Home.safeName c;
   match Home.card_icon c with
   | Home.IconImg src alt => (src ++ alt)%string
   | Home.IconInitial i => i
   end;
   match Home.categoryHtml c with Some t => t | None => "" end;
   match Home.descHtml c with Some t => t | None => "" end;
   match Home.linksHtml c with
   | Some lk => (Home.safeDisplayUrl lk ++ Home.copy_data_url lk)%string
   | None => ""
   end].

End Invariants.

(** ** More concrete inputs *)

Module Cases.

Import Store Home.

(** A site whose category row does not exist. *)
Definition site_orphan : site :=
  {| s_id := 4; s_name := "lost"; s_url := "https://lost.example";
     s_logo := None; s_desc := None;
     s_catelog_id := 9; s_catelog_name := None; s_sort_order := VInt 2;
     s_is_private := Some 0; s_create_time := 13 |}.

Definition store_with_orphan : db :=
  {| sites := [Sample.site1; Sample.site2; Sample.site3; site_orphan];
     categories := categories Sample.store;
     settings := settings Sample.store |}.

(** A table as it was before the columns [is_private] and [catelog_name]
    were introduced. *)
Definition legacy_schema : Bootstrap.schema :=
  {| Bootstrap.has_is_private := false;
     Bootstrap.has_catelog_name := false;
     Bootstrap.indexes := [] |}.

(** A feed whose second entry is null and whose third has no url. *)
Definition feed_with_gaps (_ : string) : fetch_outcome :=
  FetchResponse true
    (BodyArray [Sample.item "https://img.example/0.jpg"; ItemNullish;
                ItemObject None None]).

(** The sample store after an admin has created a site in the private
    category. *)
Definition store_with_vault_site : db :=
  snd (ConfigApi.onRequestPost true Sample.api_env Sample.new_in_vault 99 Sample.store).

Definition ask_everything : ConfigApi.get_request :=
  {| ConfigApi.q_catalog := None; ConfigApi.q_catalogId := None;
     ConfigApi.q_page := None; ConfigApi.q_pageSize := Some "50";
     ConfigApi.q_keyword := None |}.

(** The body of [Sample.duplicate_of_site1] without a name, and with a
    name that is a number. *)
Definition duplicate_without_name : ConfigApi.post_body :=
  {| ConfigApi.b_name := JS.Undefined;
     ConfigApi.b_url := JS.Text " https://example.com ";
     ConfigApi.b_logo := JS.Undefined; ConfigApi.b_desc := JS.Undefined;
     ConfigApi.b_catelogId := Some 1; ConfigApi.b_sort_order := VInt 7;
     ConfigApi.b_is_private := JS.Undefined |}.

Definition duplicate_with_number_name : ConfigApi.post_body :=
  {| ConfigApi.b_name := JS.Number 5;
     ConfigApi.b_url := JS.Text " https://example.com ";
     ConfigApi.b_logo := JS.Undefined; ConfigApi.b_desc := JS.Undefined;
     ConfigApi.b_catelogId := Some 1; ConfigApi.b_sort_order := VInt 7;
     ConfigApi.b_is_private := JS.Undefined |}.

(** A body that asks for a private site, by a truthy value that is not a
    boolean, in a category that is not private. *)
Definition new_private_in_A : ConfigApi.post_body :=
  {| ConfigApi.b_name := JS.Text "five";
     ConfigApi.b_url := JS.Text "https://five.example";
     ConfigApi.b_logo := JS.Text "https://five.example/logo.png";
     ConfigApi.b_desc := JS.Text " the fifth ";
     ConfigApi.b_catelogId := Some 1; ConfigApi.b_sort_order := VInt 4;
     ConfigApi.b_is_private := JS.Text "yes" |}.






(** A url with a space inside, which starts like the url of [Sample.site1]. *)
Definition new_with_space : ConfigApi.post_body :=
  {| ConfigApi.b_name := JS.Text "six";
     ConfigApi.b_url := JS.Text "https://example.com x";
     ConfigApi.b_logo := JS.Undefined; ConfigApi.b_desc := JS.Undefined;
     ConfigApi.b_catelogId := Some 1; ConfigApi.b_sort_order := VInt 4;
     ConfigApi.b_is_private := JS.Undefined |}.

Definition ask_page (page pageSize : string) : ConfigApi.get_request :=
  {| ConfigApi.q_catalog := None; ConfigApi.q_catalogId := None;
     ConfigApi.q_page := Some page; ConfigApi.q_pageSize := Some pageSize;
     ConfigApi.q_keyword := None |}.

(** A run of [n] digits 9. *)
Fixpoint nines (n : nat) : string :=
  match n with
  | O => EmptyString
  | S n' => String "9" (nines n')
  end.

(** The second page of a list of pages of a thousand rows. *)
Definition ask_second_thousand : ConfigApi.get_request :=
  {| ConfigApi.q_catalog := None; ConfigApi.q_catalogId := None;
     ConfigApi.q_page := Some "2"; ConfigApi.q_pageSize := Some "1000";
     ConfigApi.q_keyword := None |}.

Definition ask_B : request := {| Home.catalog := Some " B "; Cookie := None |}.
Definition ask_nothing : request := {| Home.catalog := None; Cookie := None |}.
Definition ask_ALL : request := {| Home.catalog := Some " ALL "; Cookie := None |}.

Definition hide_desc_on : setting := {| key := "layout_hide_desc"; value := "true" |}.
Definition hide_desc_off : setting := {| key := "layout_hide_desc"; value := "false" |}.

End Cases.

(** * Properties *)

(** ** The built-ins on small inputs *)

Example trim_ascii_space : JS.trim "  all  " = "all".
Proof. reflexivity. Qed.

Example trim_ideographic_space : JS.trim "　未 分类　" = "未 分类".
Proof. reflexivity. Qed.

Example trim_keeps_inner_space : JS.trim " Plan B " = "Plan B".
Proof. reflexivity. Qed.

Example trim_keeps_last_word :
  JS.trim "Web 3" = "Web 3" /\ JS.trim "all x" = "all x"
  /\ JS.trim "https://x.example/a b" = "https://x.example/a b".
Proof. repeat split. Qed.

Example trim_no_break_space : JS.trim " a  b  " = "a  b".
Proof. reflexivity. Qed.

Example parseInt_stops_at_letter : JS.parseInt " 12px" = JS.Num 12.
Proof. reflexivity. Qed.

Example parseInt_without_digit : JS.parseInt "px" = JS.NaN.
Proof. reflexivity. Qed.

Example parseInt_rounds_to_even :
  JS.parseInt "9007199254740993" = JS.Num 9007199254740992
  /\ JS.parseInt "9007199254740995" = JS.Num 9007199254740996.
Proof. split; vm_compute; reflexivity. Qed.

Example add_rounds :
  JS.add (JS.Num 9007199254740992) (JS.Num 1) = JS.Num 9007199254740992.
Proof. vm_compute. reflexivity. Qed.

Example mul_rounds :
  JS.mul (JS.Num 3) (JS.Num 9007199254740991) = JS.Num 27021597764222972.
Proof. vm_compute. reflexivity. Qed.

Example of_integer_largest :
  JS.of_integer (2 ^ 1024 - 2 ^ 970 - 1) = JS.Num (2 ^ 1024 - 2 ^ 971)
  /\ JS.of_integer (2 ^ 1024 - 2 ^ 970) = JS.Infinity
  /\ JS.of_integer (- 2 ^ 1024) = JS.NegInfinity.
Proof. repeat split; vm_compute; reflexivity. Qed.

Example rem_of_infinity :
  JS.rem (JS.add JS.Infinity (JS.Num 1)) (JS.Num 3) = JS.NaN.
Proof. reflexivity. Qed.

Example sort_keeps_ties_in_order :
  JS.sort (fun a b : Z * string => fst a - fst b)
    [(2, "x"); (1, "y"); (2, "z"); (1, "w")]
  = [(1, "y"); (1, "w"); (2, "x"); (2, "z")].
Proof. reflexivity. Qed.

Example escapeHTML_markup :
  Home.escapeHTML "<a href='x'>&</a>" = "&lt;a href=&#39;x&#39;&gt;&amp;&lt;/a&gt;".
Proof. reflexivity. Qed.

Example cookie_match_leftmost :
  Home.cookie_match "theme=dark; wallpaper_index=12; wallpaper_index=3" = Some "12".
Proof. reflexivity. Qed.

Example cookie_match_needs_a_digit :
  Home.cookie_match "wallpaper_index=x; wallpaper_index=7" = Some "7".
Proof. reflexivity. Qed.

Example normalizeSortOrder_null : Home.normalizeSortOrder Store.VNull = 0.
Proof. reflexivity. Qed.

Example normalizeSortOrder_text : Home.normalizeSortOrder (Store.VOther 0) = 9999.
Proof. reflexivity. Qed.

(** ** What [trim] removes *)

(** The scan of the end of a string fires on a white space character
    only. *)
Lemma ws_len_rev_sound (s : string) (n : nat) :
  JS.ws_len_rev s = n -> n <> 0%nat ->
  JS.ws_len (String.rev (substring 0 n s)) = n.
Proof.
  unfold JS.ws_len_rev. intros H Hn.
  destruct s as [|c1 r1]; [congruence |].
  destruct (Nat.eqb_spec (JS.ws_len (String c1 EmptyString)) 1) as [E1 | _].
  { subst n. destruct r1; exact E1. }
  destruct r1 as [|c2 r2]; [congruence |].
  destruct (Nat.eqb_spec (JS.ws_len (String c2 (String c1 EmptyString))) 2) as [E2 | _].
  { subst n. destruct r2; exact E2. }
  destruct r2 as [|c3 r3]; [congruence |].
  destruct (Nat.eqb_spec (JS.ws_len (String c3 (String c2 (String c1 EmptyString)))) 3)
    as [E3 | _]; [| congruence].
  subst n. destruct r3; exact E3.
Qed.

Lemma strip_fixed (len : string -> nat) (fuel : nat) (s : string) :
  len s = 0%nat -> JS.strip len fuel s = s.
Proof. intros H. destruct fuel; simpl; [reflexivity |]. rewrite H. reflexivity. Qed.

Lemma rev_app_rev_app (s acc t : string) :
  String.rev_app (String.rev_app s acc) t = String.rev_app acc (s ++ t)%string.
Proof.
  revert acc. induction s as [|a s IH]; intros acc; [reflexivity |].
  change (String.rev_app (String.rev_app s (String a acc)) t
          = String.rev_app (String a acc) (s ++ t)%string).
  apply IH.
Qed.

Lemma append_empty (s : string) : (s ++ "")%string = s.
Proof.
  induction s as [|a s IH]; [reflexivity |].
  change (String a (s ++ "")%string = String a s). f_equal. exact IH.
Qed.

Lemma rev_rev (s : string) : String.rev (String.rev s) = s.
Proof.
  unfold String.rev. rewrite rev_app_rev_app. apply append_empty.
Qed.

(** A string that neither starts nor ends with a white space character is
    left as it is. *)
Lemma trim_fixed (s : string) :
  JS.ws_len s = 0%nat -> JS.ws_len_rev (String.rev s) = 0%nat -> JS.trim s = s.
Proof.
  intros H1 H2. unfold JS.trim, JS.trimStart.
  rewrite (strip_fixed JS.ws_len _ s H1), (strip_fixed JS.ws_len_rev _ _ H2).
  apply rev_rev.
Qed.

(** ** The handlers on inputs at the edges *)

Example category_names_keep_inner_space :
  Home.categoryName_of {| Home.r_site := Sample.site1; Home.catelog := " Web 3 " |}
  = "Web 3"
  /\ Home.requestedCatalog_of (Some "all x") Sample.env ["A"; "all x"] = "all x".
Proof. split; reflexivity. Qed.

Example sanitizeUrl_space_and_tab :
  Home.sanitizeUrl Sample.URL_parse "http://a b" = "http://a b"
  /\ Home.sanitizeUrl Sample.URL_parse ("http:" ++ Sample.tab ++ "ab") = "http://ab/".
Proof. split; reflexivity. Qed.

Example initial_of_first_character :
  Home.initial_of Sample.toUpperCase "one" = "O"
  /\ Home.initial_of Sample.toUpperCase "" = "站"
  /\ Home.initial_of Sample.toUpperCase "站点" = "站".
Proof. repeat split. Qed.

Example url_with_space_is_new :
  Middleware.status
    (fst (ConfigApi.onRequestPost true Sample.api_env Cases.new_with_space 99
            Sample.store)) = 201.
Proof. reflexivity. Qed.

Example cookie_beyond_safe_integers :
  Home.currentWallpaperIndex_of (Some "wallpaper_index=9007199254740993")
  = JS.Num 9007199254740992
  /\ fst (Home.rotate_wallpaper Sample.feed3 (Home.load_layout Sample.store)
            (Some "wallpaper_index=9007199254740993")) = JS.Num 2.
Proof. split; vm_compute; reflexivity. Qed.

Example cookie_of_400_digits :
  Home.currentWallpaperIndex_of (Some ("wallpaper_index=" ++ Cases.nines 400))
  = JS.Infinity
  /\ Home.rotate_wallpaper Sample.feed3 (Home.load_layout Sample.store)
       (Some ("wallpaper_index=" ++ Cases.nines 400))
     = (JS.NaN, "https://example.com")
  /\ Home.wallpaper_cookie JS.NaN
     = "wallpaper_index=NaN; Path=/; Max-Age=31536000; SameSite=Lax".
Proof. repeat split; vm_compute; reflexivity. Qed.

Example page_beyond_safe_integers :
  ConfigApi.onRequestGet Sample.sql_like Sample.sql_id_eq true
    (Cases.ask_page "9007199254740993" "0") Sample.store
  = Some (Middleware.jsonResponse
            (Middleware.ListBody 200 [] (JS.Num 3) 9007199254740992 0) None).
Proof. vm_compute. reflexivity. Qed.

Example page_size_that_the_store_refuses :
  ConfigApi.onRequestGet Sample.sql_like Sample.sql_id_eq true
    (Cases.ask_page "1" "9223372036854775808") Sample.store
  = Some (Middleware.caughtResponse "Failed to fetch config data: ").
Proof. vm_compute. reflexivity. Qed.

(** ** The stable sort *)

Section SortFacts.

Context {A : Type}.
Variable cmp : A -> A -> Z.

Lemma insert_sorted_perm (x : A) (l : list A) :
  Permutation (JS.insert_sorted cmp x l) (x :: l).
Proof.
    induction l as [|y l IH]; simpl.
    - apply Permutation_refl.
    - destruct (cmp x y <=? 0).
      + apply Permutation_refl.
      + apply perm_trans with (y :: x :: l).
        * apply perm_skip. exact IH.
        * apply perm_swap.
Qed.

Lemma sort_perm (l : list A) : Permutation (JS.sort cmp l) l.
Proof.
    induction l as [|x l IH]; simpl.
    - apply perm_nil.
    - apply perm_trans with (x :: JS.sort cmp l).
      + apply insert_sorted_perm.
      + apply perm_skip. exact IH.
Qed.

Lemma sort_In (x : A) (l : list A) : In x (JS.sort cmp l) <-> In x l.
Proof.
    split; apply Permutation_in.
    - apply sort_perm.
    - apply Permutation_sym, sort_perm.
Qed.

Lemma sort_length (l : list A) : length (JS.sort cmp l) = length l.
Proof. apply Permutation_length, sort_perm. Qed.

Lemma insert_sorted_strongly (x : A) (l : list A) :
  JS.consistent cmp ->
  StronglySorted (JS.before cmp) l ->
  StronglySorted (JS.before cmp) (JS.insert_sorted cmp x l).
Proof.
    intros [Htot Htrans] Hl.
    induction Hl as [|y l Hl IH Hy]; simpl.
    - constructor; [constructor | constructor].
    - destruct (Z.leb_spec (cmp x y) 0) as [Hle | Hgt].
      + constructor.
        * constructor; assumption.
        * constructor; [exact Hle |].
          rewrite !List.Forall_forall in *.
          intros z Hz. apply Htrans with y; [exact Hle | apply Hy, Hz].
      + constructor; [exact IH |].
        rewrite !List.Forall_forall in *.
        intros z Hz.
        apply (Permutation_in _ (insert_sorted_perm x l)) in Hz.
        destruct Hz as [<- | Hz].
        * apply Htot, Hgt.
        * apply Hy, Hz.
Qed.

Lemma sort_strongly (l : list A) :
  JS.consistent cmp -> StronglySorted (JS.before cmp) (JS.sort cmp l).
Proof.
    intros Hc. induction l as [|x l IH]; simpl.
    - constructor.
    - apply insert_sorted_strongly; assumption.
Qed.

End SortFacts.

(** ** The arithmetic of doubles on the integers that they hold exactly *)

Section NumberFacts.

Lemma round_to_53_small (z : Z) : 0 <= z <= 2 ^ 53 -> JS.round_to_53 z = z.
Proof.
  intros [H0 H1]. unfold JS.round_to_53.
  destruct (Z.eq_dec z (2 ^ 53)) as [-> | Hne]; [vm_compute; reflexivity |].
  assert (Hlog : Z.log2 z < 53).
  { destruct (Z.eq_dec z 0) as [-> | Hz]; [vm_compute; reflexivity |].
    apply Z.log2_lt_pow2; lia. }
  destruct (Z.leb_spec (Z.log2 z - 52) 0); [reflexivity | lia].
Qed.

(** An integer of at most 53 bits is a double. *)
Lemma of_integer_exact (z : Z) : Z.abs z <= 2 ^ 53 -> JS.of_integer z = JS.Num z.
Proof.
  intros H. unfold JS.of_integer.
  rewrite round_to_53_small by lia.
  assert (Hbig : 2 ^ 53 < 2 ^ 1024) by (vm_compute; reflexivity).
  destruct (Z.leb_spec (2 ^ 1024) (Z.abs z)) as [Hge | _]; [lia |].
  f_equal. destruct z; reflexivity.
Qed.

Lemma add_exact (x y : Z) :
  Z.abs (x + y) <= 2 ^ 53 -> JS.add (JS.Num x) (JS.Num y) = JS.Num (x + y).
Proof. apply of_integer_exact. Qed.

Lemma sub_exact (x y : Z) :
  Z.abs (x - y) <= 2 ^ 53 -> JS.sub (JS.Num x) (JS.Num y) = JS.Num (x - y).
Proof. apply of_integer_exact. Qed.

Lemma mul_exact (x y : Z) :
  Z.abs (x * y) <= 2 ^ 53 -> JS.mul (JS.Num x) (JS.Num y) = JS.Num (x * y).
Proof. apply of_integer_exact. Qed.

End NumberFacts.

(** ** The config API: visibility, totals, creation *)

Section ConfigApiFacts.

Import Store Middleware ConfigApi.

Variable sql_like : string -> string -> bool.
Variable sql_id_eq : Z -> string -> bool.




Lemma limit_offset_all {B : Type} (limit : Z) (l : list B) :
  Z.of_nat (length l) <= limit -> limit_offset limit 0 l = l.
Proof.
    intros H. unfold limit_offset. simpl.
    destruct (limit <? 0); [reflexivity |].
    apply firstn_all2. lia.
Qed.

Lemma visible_public (s : site) : visible 0 s = true -> s_is_private s = Some 0.
Proof.
    unfold visible. destruct (s_is_private s) as [[| |]|]; simpl; congruence.
Qed.

Lemma visible_admin (s : site) : visible 1 s = true.
Proof. unfold visible. destruct (s_is_private s) as [[| |]|]; reflexivity. Qed.



Lemma load_sites_In includePrivate d r :
  In r (Home.load_sites includePrivate d) <->
  In (Home.r_site r) (sites d)
  /\ visible includePrivate (Home.r_site r) = true
  /\ exists c, In c (categories d)
       /\ s_catelog_id (Home.r_site r) = c_id c /\ Home.catelog r = c_catelog c.
Proof.
  unfold Home.load_sites. rewrite sort_In, in_flat_map. split.
  - intros (s & Hs & Hr).
    destruct (visible includePrivate s) eqn:Hv; [| destruct Hr].
    apply in_map_iff in Hr as (c & <- & Hc). apply filter_In in Hc as [Hc Hid].
    simpl. repeat split; try assumption.
    exists c. repeat split; [assumption | lia].
  - intros (Hs & Hv & c & Hc & Hid & Hn).
    exists (Home.r_site r). split; [assumption |].
    rewrite Hv. apply in_map_iff. exists c. split.
    + destruct r as [s n]. simpl in *. congruence.
    + apply filter_In. split; [assumption | lia].
Qed.




(** What the handler answers when the parsed numbers are finite and the
    store takes them. *)
Lemma onRequestGet_runs isAuthenticated req d page pageSize offset :
  JS.parseInt (JS.js_or (q_page req) "1") = JS.Num page ->
  JS.parseInt (JS.js_or (q_pageSize req) "10") = JS.Num pageSize ->
  JS.mul (JS.sub (JS.Num page) (JS.Num 1)) (JS.Num pageSize) = JS.Num offset ->
  store_integer pageSize = true -> store_integer offset = true ->
  onRequestGet sql_like sql_id_eq isAuthenticated req d
  = Some (list_page sql_like sql_id_eq isAuthenticated (q_catalog req)
            (q_catalogId req) (q_keyword req) page pageSize offset d).
Proof.
  intros Hpage Hsize Hoff Hps Ho. unfold onRequestGet.
  rewrite Hpage, Hsize, Hoff, Hps, Ho. reflexivity.
Qed.

(** In the range where the arithmetic of doubles is exact, the handler
    answers as [list_sites] does. *)
Lemma onRequestGet_exact isAuthenticated req d page pageSize :
  JS.parseInt (JS.js_or (q_page req) "1") = JS.Num page ->
  JS.parseInt (JS.js_or (q_pageSize req) "10") = JS.Num pageSize ->
  Z.abs (page - 1) <= 2 ^ 53 -> Z.abs ((page - 1) * pageSize) <= 2 ^ 53 ->
  Z.abs pageSize < 2 ^ 63 ->
  onRequestGet sql_like sql_id_eq isAuthenticated req d
  = Some (list_sites sql_like sql_id_eq isAuthenticated (q_catalog req)
            (q_catalogId req) (q_keyword req) page pageSize d).
Proof.
  intros Hpage Hsize Hp Ho Hps.
  assert (H63 : 2 ^ 53 < 2 ^ 63) by (vm_compute; reflexivity).
  apply onRequestGet_runs; try assumption.
  - rewrite sub_exact by exact Hp. apply mul_exact, Ho.
  - unfold store_integer. apply andb_true_iff. split; apply Z.ltb_lt; lia.
  - unfold store_integer. apply andb_true_iff. split; apply Z.ltb_lt; lia.
Qed.


(** C6. For every GET list request whose page and page size parse to
    finite numbers that the store takes: from a page size of 1000 on, the
    reported total is the number of rows returned plus the offset, in the
    arithmetic of doubles, which is the exact sum up to [2 ^ 53]; it is the
    same for every store on which the page returns as many rows, whatever
    the count of that store is. Below 1000 the total is the count of the
    rows that satisfy the same WHERE clause. The offset is
    [(page - 1) * pageSize], exact up to [2 ^ 53]. With [pageSize = 1000],
    an offset of 20 and 5 rows returned, lines 82-88 give the total 25. *)
Theorem total_skips_count_from_1000
    (isAuthenticated : bool) (req : get_request) (d : db)
    (page pageSize offset : Z) :
  JS.parseInt (JS.js_or (q_page req) "1") = JS.Num page ->
  JS.parseInt (JS.js_or (q_pageSize req) "10") = JS.Num pageSize ->
  JS.mul (JS.sub (JS.Num page) (JS.Num 1)) (JS.Num pageSize) = JS.Num offset ->
  store_integer pageSize = true -> store_integer offset = true ->
  let includePrivate := if isAuthenticated then 1 else 0 in
  (exists resp,
     onRequestGet sql_like sql_id_eq isAuthenticated req d = Some resp
     /\ status resp = 200
     /\ data_of resp
        = limit_offset pageSize offset
            (order_by (List.filter
               (queryBase sql_like sql_id_eq includePrivate (q_catalogId req)
                  (q_catalog req) (q_keyword req)) (sites d)))
     /\ (1000 <= pageSize ->
           total_of resp
           = JS.add (JS.Num (Z.of_nat (length (data_of resp)))) (JS.Num offset)
           /\ (Z.abs (Z.of_nat (length (data_of resp)) + offset) <= 2 ^ 53 ->
               total_of resp = JS.Num (Z.of_nat (length (data_of resp)) + offset))
           /\ (forall d' resp',
                 onRequestGet sql_like sql_id_eq isAuthenticated req d' = Some resp' ->
                 length (data_of resp') = length (data_of resp) ->
                 total_of resp' = total_of resp))
     /\ (pageSize < 1000 ->
           total_of resp
           = JS.Num (Z.of_nat (length (List.filter
               (queryBase sql_like sql_id_eq includePrivate (q_catalogId req)
                  (q_catalog req) (q_keyword req)) (sites d))))))
  /\ (Z.abs (page - 1) <= 2 ^ 53 -> Z.abs ((page - 1) * pageSize) <= 2 ^ 53 ->
      offset = (page - 1) * pageSize)
  /\ (forall results count,
        length results = 5%nat -> reported_total 1000 20 results count = JS.Num 25).
Proof.
  intros Hpage Hsize Hoff Hps Ho. cbn zeta. split; [| split].
  - eexists. split; [apply onRequestGet_runs; eassumption |].
    split; [reflexivity |]. split; [reflexivity |]. split.
    + intros Hbig.
      assert (Hge : (pageSize >=? 1000) = true) by (apply Z.geb_le; lia).
      assert (Htotal : forall d0,
                total_of (list_page sql_like sql_id_eq isAuthenticated (q_catalog req)
                            (q_catalogId req) (q_keyword req) page pageSize offset d0)
                = JS.add
                    (JS.Num (Z.of_nat (length (data_of
                       (list_page sql_like sql_id_eq isAuthenticated (q_catalog req)
                          (q_catalogId req) (q_keyword req) page pageSize offset d0)))))
                    (JS.Num offset)).
      { intros d0. unfold list_page, total_of, data_of, jsonResponse, reported_total.
        simpl. rewrite Hge. reflexivity. }
      split; [apply Htotal |]. split.
      * intros Hexact. rewrite Htotal. apply add_exact, Hexact.
      * intros d' resp' Hresp' Hlen.
        rewrite (onRequestGet_runs isAuthenticated req d' page pageSize offset
                   Hpage Hsize Hoff Hps Ho) in Hresp'.
        injection Hresp' as <-. rewrite !Htotal, Hlen. reflexivity.
    + intros Hsmall.
      assert (Hlt : (pageSize >=? 1000) = false).
      { destruct (pageSize >=? 1000) eqn:E; [apply Z.geb_le in E; lia | reflexivity]. }
      unfold list_page, total_of, jsonResponse, reported_total, countQuery. simpl.
      rewrite Hlt. reflexivity.
  - intros Hp Hexact. rewrite sub_exact, mul_exact in Hoff by assumption.
    congruence.
  - intros results count Hlen. unfold reported_total. simpl. rewrite Hlen. reflexivity.
Qed.

End ConfigApiFacts.

(** ** The create operation *)

Section CreateFacts.

Import Store Middleware ConfigApi.

Lemma truthy_true (s : string) : s <> "" -> JS.truthy s = true.
Proof.
  intros H. unfold JS.truthy. destruct (String.eqb_spec s ""); [contradiction | reflexivity].
Qed.

Lemma truthy_false (s : string) : JS.truthy s = false -> s = "".
Proof.
  unfold JS.truthy. destruct (String.eqb_spec s ""); [auto | discriminate].
Qed.

Import Invariants.

Lemma trimmed_truthy (v : JS.value) (t : string) :
  JS.trimmed v = Some t -> JS.truthy t = true ->
  exists s, v = JS.Text s /\ t = JS.trim s.
Proof.
  destruct v as [| |b|z|s|]; simpl; intros H Ht;
    try (destruct (JS.truthy_value _) in H); try discriminate;
    try (injection H as <-; discriminate).
  - destruct b; [discriminate | injection H as <-; discriminate].
  - destruct (negb (z =? 0)); [discriminate | injection H as <-; discriminate].
  - injection H as <-. exists s. auto.
Qed.

Lemma trimmed_text (s : string) : JS.trimmed (JS.Text s) = Some (JS.trim s).
Proof. reflexivity. Qed.

(** The outcomes of the create operation on a parsed body. *)
Lemma post_outcome isAuthenticated env config now d :
  let r := onRequestPost isAuthenticated env config now d in
  (snd r = d
   /\ (status (fst r) = 401 \/ status (fst r) = 400 \/ status (fst r) = 409
       \/ status (fst r) = 500))
  \/ (status (fst r) = 201
      /\ isAuthenticated = true
      /\ exists name url catelogId categoryResult,
           b_name config = JS.Text name /\ JS.trim name <> ""
           /\ b_url config = JS.Text url /\ JS.trim url <> ""
           /\ find_by_url (JS.trim url) (sites d) = None
           /\ b_catelogId config = Some catelogId
           /\ catelogId <> 0
           /\ find_category catelogId (categories d) = Some categoryResult
           /\ snd r
              = {| sites :=
                     (sites d
                      ++ [created_row env config name url now d catelogId
                            categoryResult])%list;
                   categories := categories d;
                   settings := settings d |}).
Proof.
  cbn zeta. unfold onRequestPost.
  destruct isAuthenticated; cbn [negb]; [| left; simpl; auto].
  destruct (JS.trimmed (b_name config)) as [sanitizedName|] eqn:Hn;
    [| left; simpl; auto 6].
  destruct (JS.trimmed (b_url config)) as [sanitizedUrl|] eqn:Hu;
    [| left; simpl; auto 6].
  destruct (JS.trimmed (b_logo config)) as [trimmedLogo|] eqn:Hl;
    [| left; simpl; auto 6].
  destruct (JS.trimmed (b_desc config)) as [trimmedDesc|] eqn:Hd;
    [| left; simpl; auto 6].
  destruct (JS.truthy sanitizedName) eqn:Hname; cbn [negb orb]; [| left; simpl; auto].
  destruct (JS.truthy sanitizedUrl) eqn:Hurl; cbn [negb orb]; [| left; simpl; auto].
  destruct (b_catelogId config) as [catelogId|] eqn:Hid; [| left; simpl; auto].
  destruct (Z.eqb_spec catelogId 0) as [Hz | Hnz]; [left; simpl; auto |].
  destruct (find_by_url sanitizedUrl (sites d)) eqn:Hdup; [left; simpl; auto |].
  destruct (find_category catelogId (categories d)) as [categoryResult|] eqn:Hcat;
    [| left; simpl; auto].
  destruct (trimmed_truthy _ _ Hn Hname) as (name & Hbn & ->).
  destruct (trimmed_truthy _ _ Hu Hurl) as (url & Hbu & ->).
  right. cbn [fst snd]. split; [reflexivity |]. split; [reflexivity |].
  exists name, url, catelogId, categoryResult.
  split; [exact Hbn |].
  split; [intros E; rewrite E in Hname; discriminate |].
  split; [exact Hbu |].
  split; [intros E; rewrite E in Hurl; discriminate |].
  split; [exact Hdup |]. split; [first [reflexivity | exact Hid] |].
  split; [exact Hnz |]. split; [first [reflexivity | exact Hcat] |].
  unfold created_row, requested_private. rewrite Hbu, Hl, Hd. reflexivity.
Qed.

(** A request that passes the checks which precede the insertion is
    answered 201 and inserts its row. *)
Lemma post_created env config now d name url catelogId categoryResult :
  b_name config = JS.Text name -> JS.trim name <> "" ->
  b_url config = JS.Text url -> JS.trim url <> "" ->
  JS.trimmed (b_logo config) <> None -> JS.trimmed (b_desc config) <> None ->
  b_catelogId config = Some catelogId -> catelogId <> 0 ->
  find_by_url (JS.trim url) (sites d) = None ->
  find_category catelogId (categories d) = Some categoryResult ->
  onRequestPost true env config now d
  = (jsonResponse (CreatedBody 201 "Config created successfully") (Some 201),
     {| sites :=
          (sites d
           ++ [created_row env config name url now d catelogId categoryResult])%list;
        categories := categories d;
        settings := settings d |}).
Proof.
  intros Hbn Hname Hbu Hurl Hl Hd Hid Hnz Hfresh Hcat.
  unfold onRequestPost, created_row, requested_private. cbn [negb].
  rewrite Hbn, Hbu, !trimmed_text.
  destruct (JS.trimmed (b_logo config)) as [trimmedLogo|]; [| contradiction].
  destruct (JS.trimmed (b_desc config)) as [trimmedDesc|]; [| contradiction].
  rewrite (truthy_true _ Hname), (truthy_true _ Hurl), Hid. cbn [negb orb].
  destruct (Z.eqb_spec catelogId 0) as [|_]; [contradiction |].
  rewrite Hfresh, Hcat. reflexivity.
Qed.

(** A request that reaches the duplicate check with a stored url is
    answered 409. *)
Lemma post_conflict env config now d name url existingSite :
  b_name config = JS.Text name -> JS.trim name <> "" ->
  b_url config = JS.Text url -> JS.trim url <> "" ->
  JS.trimmed (b_logo config) <> None -> JS.trimmed (b_desc config) <> None ->
  (exists catelogId, b_catelogId config = Some catelogId /\ catelogId <> 0) ->
  find_by_url (JS.trim url) (sites d) = Some existingSite ->
  onRequestPost true env config now d
  = (errorResponse "该 URL 已存在，请勿重复添加" 409, d).
Proof.
  intros Hbn Hname Hbu Hurl Hl Hd (cid & Hid & Hnz) Hdup.
  unfold onRequestPost. cbn [negb].
  rewrite Hbn, Hbu, !trimmed_text.
  destruct (JS.trimmed (b_logo config)) as [trimmedLogo|]; [| contradiction].
  destruct (JS.trimmed (b_desc config)) as [trimmedDesc|]; [| contradiction].
  rewrite (truthy_true _ Hname), (truthy_true _ Hurl), Hid. cbn [negb orb].
  destruct (Z.eqb_spec cid 0) as [|_]; [contradiction |].
  rewrite Hdup. reflexivity.
Qed.

(** C3. Whenever the create operation inserts a row, the category that
    [catelogId] resolves to decides the stored flag: the row has
    [is_private = 1] when the category has [is_private = 1], whatever the
    body asks for ([false], [true], nothing or any other value), and
    otherwise 1 when the [is_private] of the body is truthy and 0 when it
    is falsy: 1 for [true], a number other than 0, a non-empty string, an
    object; 0 for [false], a missing property, [null], 0 and the empty
    string. A request by an admin with a non-blank name, a non-blank url
    that is not stored, and a logo and a description that are strings or
    falsy, naming an existing category, does insert that row, with status
    201. *)
Theorem private_category_forces_private
    (isAuthenticated : bool) (env : environment) (config : post_body) (now : Z)
    (d : db) (catelogId : Z) (categoryResult : category) :
  b_catelogId config = Some catelogId ->
  find_category catelogId (categories d) = Some categoryResult ->
  let resp := fst (onRequestPost isAuthenticated env config now d) in
  let d' := snd (onRequestPost isAuthenticated env config now d) in
  (status resp = 201 ->
     exists row,
       sites d' = (sites d ++ [row])%list
       /\ s_catelog_id row = catelogId
       /\ (c_is_private categoryResult = Some 1 -> s_is_private row = Some 1)
       /\ (c_is_private categoryResult <> Some 1 ->
             (b_is_private config = JS.Bool true -> s_is_private row = Some 1)
             /\ (b_is_private config = JS.Bool false
                 \/ b_is_private config = JS.Undefined
                 \/ b_is_private config = JS.Null
                 \/ b_is_private config = JS.Number 0
                 \/ b_is_private config = JS.Text "" ->
                 s_is_private row = Some 0)
             /\ (forall z, b_is_private config = JS.Number z -> z <> 0 ->
                   s_is_private row = Some 1)
             /\ (forall s, b_is_private config = JS.Text s -> s <> "" ->
                   s_is_private row = Some 1)
             /\ (b_is_private config = JS.Other -> s_is_private row = Some 1)))
  /\ (forall name url,
        isAuthenticated = true ->
        b_name config = JS.Text name -> JS.trim name <> "" ->
        b_url config = JS.Text url -> JS.trim url <> "" ->
        JS.trimmed (b_logo config) <> None -> JS.trimmed (b_desc config) <> None ->
        catelogId <> 0 ->
        find_by_url (JS.trim url) (sites d) = None ->
        status resp = 201).
Proof.
  intros Hid Hcat. cbn zeta. split.
  - intros H201.
    pose proof (post_outcome isAuthenticated env config now d) as Hcases.
    cbn zeta in Hcases.
    destruct Hcases as [[_ Hst] | (_ & _ & name & url & cid & c & _ & _ & _ & _ & _
                                   & Hid' & _ & Hcat' & Hd)]; [lia |].
    assert (cid = catelogId) by congruence. subst cid.
    assert (c = categoryResult) by congruence. subst c.
    eexists. split; [rewrite Hd; reflexivity |].
    split; [reflexivity |]. cbn [created_row s_is_private]. split.
    + intros Hpriv. rewrite Hpriv. reflexivity.
    + intros Hpub.
      assert (Hflag : match c_is_private categoryResult with
                      | Some 1 => 1
                      | _ => if JS.truthy_value (b_is_private config) then 1 else 0
                      end
                      = if JS.truthy_value (b_is_private config) then 1 else 0).
      { destruct (c_is_private categoryResult) as [[|[| |]|]|]; try reflexivity.
        contradiction. }
      rewrite Hflag. split; [| split; [| split; [| split]]].
      * intros ->. reflexivity.
      * intros [-> | [-> | [-> | [-> | ->]]]]; reflexivity.
      * intros z -> Hz. simpl. destruct (Z.eqb_spec z 0); [contradiction | reflexivity].
      * intros s0 -> Hs. simpl. rewrite (truthy_true _ Hs). reflexivity.
      * intros ->. reflexivity.
  - intros name url Hauth Hbn Hname Hbu Hurl Hl Hd Hnz Hfresh. subst isAuthenticated.
    rewrite (post_created env config now d name url catelogId categoryResult);
      try assumption.
    reflexivity.
Qed.

(** C4, as amended. When an admin posts a body whose name is a non-blank
    string, whose logo and description are strings or falsy, with a truthy
    category id and a url that is a string, not blank, which once trimmed a
    stored site already has, the answer is the 409 conflict and the store is
    unchanged. For every request whose trimmed url is already stored,
    whoever sends it and whatever else the body holds, the store is
    unchanged. *)
Theorem duplicate_url_conflict
    (isAuthenticated : bool) (env : environment) (config : post_body) (now : Z)
    (d : db) (url : string) (existingSite : site) :
  b_url config = JS.Text url ->
  find_by_url (JS.trim url) (sites d) = Some existingSite ->
  snd (onRequestPost isAuthenticated env config now d) = d
  /\ (forall name,
        isAuthenticated = true ->
        b_name config = JS.Text name -> JS.trim name <> "" ->
        JS.trim url <> "" ->
        JS.trimmed (b_logo config) <> None -> JS.trimmed (b_desc config) <> None ->
        (exists catelogId, b_catelogId config = Some catelogId /\ catelogId <> 0) ->
        fst (onRequestPost isAuthenticated env config now d)
        = errorResponse "该 URL 已存在，请勿重复添加" 409).
Proof.
  intros Hbu Hdup. split.
  - pose proof (post_outcome isAuthenticated env config now d) as Hcases.
    cbn zeta in Hcases.
    destruct Hcases as [[Hd _] | (_ & _ & name & url' & cid & c & _ & _ & Hbu' & _
                                   & Hfresh & _)]; [exact Hd |].
    assert (url' = url) by congruence. subst url'. congruence.
  - intros name Hauth Hbn Hname Hurl Hl Hd Hid. subst isAuthenticated.
    rewrite (post_conflict env config now d name url existingSite); auto.
Qed.

End CreateFacts.

(** ** The homepage: sanitised links, wallpaper rotation, catalog selection *)

Section HomeFacts.

Import Store Home.

Variable localeCompare : string -> string -> Z.
Variable fetch : string -> fetch_outcome.
Variable URL_parse : string -> option URL.
Variable toUpperCase : string -> string.

Lemma sanitizeUrl_rejects (url : string) :
  ~ well_formed_http URL_parse url ->
  http_prefix (JS.trim url) = false ->
  sanitizeUrl URL_parse url = "".
Proof.
  intros Hnot Hpre. unfold sanitizeUrl.
  destruct (JS.truthy url); [| reflexivity]. simpl.
  destruct (JS.truthy (JS.trim url)); [| reflexivity]. simpl.
  destruct (URL_parse (JS.trim url)) as [parsed|] eqn:Hparse.
  - destruct (String.eqb_spec (protocol parsed) "http:") as [Hp|_].
    { exfalso. apply Hnot. exists parsed. auto. }
    destruct (String.eqb_spec (protocol parsed) "https:") as [Hp|_].
    { exfalso. apply Hnot. exists parsed. auto. }
    reflexivity.
  - rewrite Hpre. reflexivity.
Qed.

(** What [sanitizeUrl] lets through when the constructor throws. *)
Lemma sanitizeUrl_unparsed_prefix (url : string) :
  url <> "" -> JS.trim url <> "" ->
  URL_parse (JS.trim url) = None ->
  http_prefix (JS.trim url) = true ->
  sanitizeUrl URL_parse url = JS.trim url.
Proof.
  intros Hu Ht Hparse Hpre. unfold sanitizeUrl.
  rewrite (truthy_true _ Hu), (truthy_true _ Ht), Hparse, Hpre. reflexivity.
Qed.

(** C8, as amended. A url that is not a well-formed absolute http or https
    URL and does not begin with [http://] or [https://] (in any letter case,
    once trimmed) is sanitised to the empty string, as [javascript:alert(1)]
    is. The card of a site with such a url has the href [#], no
    [target="_blank"], an empty [data-url], and its copy button (when the
    links are shown) is disabled; with such a logo the card shows the initial
    instead of an [img]. *)
Theorem unsafe_url_not_linked (l : layout) (site : row) :
  let card := render_card URL_parse toUpperCase l site in
  (~ well_formed_http URL_parse (s_url (r_site site)) ->
   http_prefix (JS.trim (s_url (r_site site))) = false ->
     sanitizeUrl URL_parse (s_url (r_site site)) = ""
     /\ hrefValue card = "#"
     /\ new_tab card = false
     /\ data_url card = ""
     /\ (linksHtml card = None
         \/ exists lk, linksHtml card = Some lk
              /\ copy_disabled lk = true /\ copy_data_url lk = ""))
  /\ (~ well_formed_http URL_parse (JS.js_or (s_logo (r_site site)) "") ->
      http_prefix (JS.trim (JS.js_or (s_logo (r_site site)) "")) = false ->
        sanitizeUrl URL_parse (JS.js_or (s_logo (r_site site)) "") = ""
        /\ exists cardInitial, card_icon card = IconInitial cardInitial).
Proof.
  cbn zeta. split.
  - intros Hnot Hpre.
    pose proof (sanitizeUrl_rejects _ Hnot Hpre) as Hs.
    unfold render_card. simpl. rewrite Hs. simpl.
    repeat split.
    destruct (layoutHideLinks l); [left; reflexivity |].
    right. eexists. split; [reflexivity |]. split; reflexivity.
  - intros Hnot Hpre.
    pose proof (sanitizeUrl_rejects _ Hnot Hpre) as Hs.
    split; [exact Hs |].
    unfold render_card. simpl. rewrite Hs. simpl. eexists. reflexivity.
Qed.

Lemma digits_value_nonneg (s : string) (acc : Z) :
  0 <= acc -> 0 <= JS.digits_value acc s.
Proof.
  revert acc. induction s as [|c s IH]; simpl; intros acc Hacc.
  - exact Hacc.
  - apply IH. lia.
Qed.

Lemma ws_len_digit (c : ascii) (r : string) :
  JS.is_digit c = true -> JS.ws_len (String c r) = 0%nat.
Proof.
  unfold JS.is_digit, JS.ws_len. intros H.
  apply andb_true_iff in H as [H1 H2]. apply N.leb_le in H1, H2.
  set (b := JS.byte c) in *.
  assert (E1 : ((9 <=? b) && (b <=? 13) || (b =? 32))%N = false).
  { destruct (N.leb_spec 9 b), (N.leb_spec b 13), (N.eqb_spec b 32); simpl;
      try reflexivity; lia. }
  rewrite E1. destruct r as [|c2 r]; [reflexivity |].
  assert (E2 : (b =? 194)%N = false) by (apply N.eqb_neq; lia).
  rewrite E2. cbn [andb]. destruct r as [|c3 r]; [reflexivity |].
  assert (E3 : (b =? 225)%N = false) by (apply N.eqb_neq; lia).
  assert (E4 : (b =? 226)%N = false) by (apply N.eqb_neq; lia).
  assert (E5 : (b =? 227)%N = false) by (apply N.eqb_neq; lia).
  assert (E6 : (b =? 239)%N = false) by (apply N.eqb_neq; lia).
  rewrite E3, E4, E5, E6. reflexivity.
Qed.

Lemma span_digits_head (s : string) (c : ascii) (d : string) :
  fst (JS.span_digits s) = String c d -> JS.is_digit c = true.
Proof.
  destruct s as [|c0 r]; [discriminate |]. cbn [JS.span_digits].
  destruct (JS.is_digit c0) eqn:E; [| discriminate].
  destruct (JS.span_digits r). simpl. intros H. injection H as <- _. exact E.
Qed.

Lemma span_digits_idem (s : string) :
  JS.span_digits (fst (JS.span_digits s)) = (fst (JS.span_digits s), "").
Proof.
  induction s as [|c r IH]; [reflexivity |]. cbn [JS.span_digits].
  destruct (JS.is_digit c) eqn:E; [| reflexivity].
  destruct (JS.span_digits r) as [d rest]. simpl in *.
  rewrite E, IH. reflexivity.
Qed.

(** [parseInt] on the run of digits that the pattern of the cookie
    captures. *)
Lemma parseInt_digits (s digits : string) :
  fst (JS.span_digits s) = digits -> digits <> "" ->
  JS.parseInt digits = JS.of_integer (JS.digits_value 0 digits).
Proof.
  intros Hs Hne. destruct digits as [|c d] eqn:Hd; [contradiction |].
  pose proof (span_digits_head _ _ _ Hs) as Hc.
  unfold JS.parseInt, JS.trimStart.
  cbn [String.length JS.strip]. rewrite (ws_len_digit c d Hc).
  assert (Hminus : (c =? "-")%char = false).
  { destruct (Ascii.eqb_spec c "-"); [subst c; discriminate | reflexivity]. }
  assert (Hplus : (c =? "+")%char = false).
  { destruct (Ascii.eqb_spec c "+"); [subst c; discriminate | reflexivity]. }
  rewrite Hminus, Hplus. rewrite <- Hs, span_digits_idem, Hs. reflexivity.
Qed.

Lemma round_to_53_nonneg (z : Z) : 0 <= z -> 0 <= JS.round_to_53 z.
Proof.
  intros Hz. unfold JS.round_to_53.
  destruct (Z.log2 z - 52 <=? 0); [exact Hz |].
  apply Z.shiftl_nonneg.
  assert (Hq : 0 <= Z.shiftr z (Z.log2 z - 52)) by (apply Z.shiftr_nonneg; exact Hz).
  destruct (_ <? _); [exact Hq |].
  destruct (_ <? _); [lia |].
  destruct (Z.even _); lia.
Qed.

Lemma of_integer_nonneg (z : Z) :
  0 <= z ->
  JS.of_integer z = JS.Infinity \/ exists m, 0 <= m /\ JS.of_integer z = JS.Num m.
Proof.
  intros Hz. unfold JS.of_integer.
  pose proof (round_to_53_nonneg (Z.abs z) (Z.abs_nonneg z)) as Hm.
  destruct (2 ^ 1024 <=? JS.round_to_53 (Z.abs z)).
  - left. destruct (Z.ltb_spec z 0); [lia | reflexivity].
  - right. eexists. split; [| reflexivity].
    apply Z.mul_nonneg_nonneg; [| exact Hm]. lia.
Qed.

Lemma cookie_match_step (c : ascii) (rest : string) :
  cookie_match (String c rest)
  = if JS.startsWith (String c rest) "wallpaper_index=" then
      match fst (JS.span_digits (JS.drop 16 (String c rest))) with
      | EmptyString => cookie_match rest
      | digits => Some digits
      end
    else cookie_match rest.
Proof. reflexivity. Qed.

Lemma cookie_match_digits (cookies digits : string) :
  cookie_match cookies = Some digits ->
  digits <> "" /\ exists s, fst (JS.span_digits s) = digits.
Proof.
  induction cookies as [|c rest IH]; [discriminate |].
  rewrite cookie_match_step.
  destruct (JS.startsWith (String c rest) "wallpaper_index="); [| exact IH].
  destruct (fst (JS.span_digits (JS.drop 16 (String c rest)))) as [|c' d'] eqn:E;
    [exact IH |].
  intros H. injection H as <-. split; [discriminate |]. eauto.
Qed.

(** The index read from the request: -1, or the double nearest to the
    value of the digits of the cookie. *)
Lemma current_index_cases (cookieHeader : option string) :
  (currentWallpaperIndex_of cookieHeader = JS.Num (-1)
   /\ cookie_match (JS.js_or cookieHeader "") = None)
  \/ exists digits,
       cookie_match (JS.js_or cookieHeader "") = Some digits
       /\ currentWallpaperIndex_of cookieHeader
          = JS.of_integer (JS.digits_value 0 digits).
Proof.
  unfold currentWallpaperIndex_of.
  destruct (cookie_match (JS.js_or cookieHeader "")) as [digits|] eqn:E; [| auto].
  right. exists digits. split; [reflexivity |].
  apply cookie_match_digits in E as (Hne & s & Hs).
  eapply parseInt_digits; eassumption.
Qed.

Lemma current_index_lower (cookieHeader : option string) (n : Z) :
  currentWallpaperIndex_of cookieHeader = JS.Num n -> -1 <= n.
Proof.
  intros H. destruct (current_index_cases cookieHeader) as [[E _] | (digits & _ & E)];
    rewrite E in H.
  - injection H as <-. lia.
  - destruct (of_integer_nonneg (JS.digits_value 0 digits)) as [Hinf | (m & Hm & Hnum)];
      [apply digits_value_nonneg; lia | congruence |].
    rewrite Hnum in H. injection H as <-. lia.
Qed.

(** The new index is [NaN] or a position of the feed. *)
Lemma next_index_cases (cookieHeader : option string) (len : Z) :
  0 < len ->
  let next :=
    JS.rem (JS.add (currentWallpaperIndex_of cookieHeader) (JS.Num 1)) (JS.Num len) in
  next = JS.NaN \/ exists i, 0 <= i < len /\ next = JS.Num i.
Proof.
  intros Hlen. cbn zeta.
  assert (Hrem : forall v, 0 <= v ->
            JS.rem (JS.of_integer v) (JS.Num len) = JS.NaN
            \/ exists i, 0 <= i < len /\ JS.rem (JS.of_integer v) (JS.Num len) = JS.Num i).
  { intros v Hv. destruct (of_integer_nonneg v Hv) as [-> | (m & Hm & ->)];
      [left; reflexivity |].
    right. exists (Z.rem m len). simpl.
    destruct (Z.eqb_spec len 0); [lia |].
    split; [| reflexivity]. rewrite Z.rem_mod_nonneg by lia.
    apply Z.mod_pos_bound, Hlen. }
  destruct (current_index_cases cookieHeader) as [[-> _] | (digits & _ & ->)].
  - apply (Hrem 0). lia.
  - pose proof (digits_value_nonneg digits 0 (Z.le_refl 0)) as Hv.
    destruct (of_integer_nonneg _ Hv) as [-> | (m & Hm & ->)]; [left; reflexivity |].
    apply (Hrem (m + 1)). lia.
Qed.

(** Up to [2 ^ 53] the new index is the integer [(n + 1) mod len]. *)
Lemma next_index_exact (n len : Z) :
  -1 <= n -> n + 1 <= 2 ^ 53 -> 0 < len ->
  JS.rem (JS.add (JS.Num n) (JS.Num 1)) (JS.Num len) = JS.Num ((n + 1) mod len).
Proof.
  intros Hn Hbound Hlen. rewrite add_exact by lia. simpl.
  destruct (Z.eqb_spec len 0); [lia |].
  rewrite Z.rem_mod_nonneg by lia. reflexivity.
Qed.

Lemma onRequest_wallpaper isAuthenticated env req d :
  let l := load_layout d in
  let rotated := rotate_wallpaper fetch l (Cookie req) in
  let resp := onRequest localeCompare fetch URL_parse toUpperCase
                isAuthenticated env req d in
  headers resp
  = content_type
    :: (if layoutRandomWallpaper l
        then [("Set-Cookie", wallpaper_cookie (fst rotated))] else [])
  /\ safeWallpaperUrl (html resp) = sanitizeUrl URL_parse (snd rotated)
  /\ isCustomWallpaper (html resp) = JS.truthy (snd rotated).
Proof.
  cbn zeta. unfold onRequest.
  destruct (rotate_wallpaper fetch (load_layout d) (Cookie req)) as [next custom].
  simpl. repeat split.
Qed.

Lemma rotate_with_feed (l : layout) (cookieHeader : option string)
    (data : list feed_item) :
  layoutRandomWallpaper l = true ->
  fetch (bingUrl_of (bingCountry l)) = FetchResponse true (BodyArray data) ->
  data <> [] ->
  let next :=
    JS.rem (JS.add (currentWallpaperIndex_of cookieHeader) (JS.Num 1))
      (JS.Num (Z.of_nat (length data))) in
  rotate_wallpaper fetch l cookieHeader
  = (next,
     match JS.at_index data next with
     | Some (ItemObject fullUrl url) =>
       if JS.truthy (JS.js_or fullUrl (JS.js_or url ""))
       then JS.js_or fullUrl (JS.js_or url "") else layoutCustomWallpaper l
     | _ => layoutCustomWallpaper l
     end).
Proof.
  intros Hon Hfetch Hdata. cbn zeta. unfold rotate_wallpaper. rewrite Hon, Hfetch.
  assert (Hlen : 0 < Z.of_nat (length data)).
  { destruct data; [contradiction | simpl; lia]. }
  destruct (Z.ltb_spec 0 (Z.of_nat (length data))) as [_|]; [| lia].
  destruct (JS.at_index data _) as [[|fullUrl url]|]; reflexivity.
Qed.

Lemma rotate_without_feed (l : layout) (cookieHeader : option string) :
  layoutRandomWallpaper l = true ->
  feed_unusable (fetch (bingUrl_of (bingCountry l))) = true ->
  rotate_wallpaper fetch l cookieHeader = (JS.Num 0, layoutCustomWallpaper l).
Proof.
  intros Hon Hfeed. unfold rotate_wallpaper. rewrite Hon.
  destruct (fetch (bingUrl_of (bingCountry l))) as [|[|] [| |[|item data]]];
    try reflexivity.
  discriminate.
Qed.

(** C7. With the random-wallpaper setting on and a feed that answers with a
    non-empty array: the index read from the [wallpaper_index] cookie (-1
    when the cookie is absent or holds no digits, else the number that its
    digits parse to) advances to (current + 1) % length in the arithmetic
    of the source, which is the integer (current + 1) modulo the length
    while current + 1 is at most [2 ^ 53]; when the new index [i] holds an
    entry with a url, that url is the custom wallpaper of the response, and
    the response sets [wallpaper_index] to [i] with [Max-Age=31536000].
    With the setting off, the response sets no cookie. *)
Theorem wallpaper_rotates_with_cookie
    (isAuthenticated : bool) (env : environment) (req : request) (d : db)
    (data : list feed_item) (fullUrl url : option string) (i : Z) :
  let l := load_layout d in
  let current := currentWallpaperIndex_of (Cookie req) in
  let next := JS.rem (JS.add current (JS.Num 1)) (JS.Num (Z.of_nat (length data))) in
  let targetUrl := JS.js_or fullUrl (JS.js_or url "") in
  let resp := onRequest localeCompare fetch URL_parse toUpperCase
                isAuthenticated env req d in
  (layoutRandomWallpaper l = true ->
   fetch (bingUrl_of (bingCountry l)) = FetchResponse true (BodyArray data) ->
   data <> [] ->
   next = JS.Num i ->
   nth_error data (Z.to_nat i) = Some (ItemObject fullUrl url) ->
   targetUrl <> "" ->
     0 <= i < Z.of_nat (length data)
     /\ headers resp
        = [content_type;
           ("Set-Cookie",
            "wallpaper_index=" ++ JS.toString i
              ++ "; Path=/; Max-Age=31536000; SameSite=Lax")]
     /\ isCustomWallpaper (html resp) = true
     /\ safeWallpaperUrl (html resp) = sanitizeUrl URL_parse targetUrl)
  /\ (forall n, current = JS.Num n -> n + 1 <= 2 ^ 53 -> data <> [] ->
        -1 <= n /\ next = JS.Num ((n + 1) mod Z.of_nat (length data)))
  /\ (Cookie req = None -> current = JS.Num (-1))
  /\ (forall cookies,
        Cookie req = Some cookies -> cookie_match cookies = None ->
        current = JS.Num (-1))
  /\ (forall cookies digits,
        Cookie req = Some cookies -> cookie_match cookies = Some digits ->
        current = JS.of_integer (JS.digits_value 0 digits))
  /\ (layoutRandomWallpaper l = false -> headers resp = [content_type]).
Proof.
  cbn zeta.
  pose proof (onRequest_wallpaper isAuthenticated env req d) as Hw.
  cbn zeta in Hw. destruct Hw as (Hh & Hs & Hc).
  assert (Hcookies : forall cookies,
            Cookie req = Some cookies -> cookie_match cookies <> None ->
            JS.js_or (Cookie req) "" = cookies).
  { intros cookies Hsome Hm. rewrite Hsome. unfold JS.js_or, JS.or_str.
    destruct (JS.truthy cookies) eqn:E; [reflexivity |].
    apply truthy_false in E. subst cookies. contradiction Hm. reflexivity. }
  split; [| split; [| split; [| split; [| split]]]].
  - intros Hon Hfetch Hdata Hnext Hitem Hurl.
    assert (Hlen : 0 < Z.of_nat (length data)).
    { destruct data; [contradiction | simpl; lia]. }
    assert (Hi : 0 <= i < Z.of_nat (length data)).
    { destruct (next_index_cases (Cookie req) _ Hlen) as [E | (j & Hj & E)];
        cbn zeta in E; rewrite Hnext in E; [discriminate |].
      injection E as ->. exact Hj. }
    rewrite (rotate_with_feed _ _ _ Hon Hfetch Hdata) in Hh, Hs, Hc.
    cbn zeta in Hh, Hs, Hc. rewrite Hnext in Hh, Hs, Hc.
    unfold JS.at_index in Hs, Hc.
    destruct (Z.ltb_spec i 0) as [|_]; [lia |].
    rewrite Hitem, (truthy_true _ Hurl) in Hs, Hc.
    simpl in Hh, Hs, Hc. rewrite Hon in Hh.
    split; [exact Hi |]. split; [exact Hh |]. split; [| exact Hs].
    rewrite Hc. apply truthy_true, Hurl.
  - intros n Hcur Hbound Hdata.
    pose proof (current_index_lower _ _ Hcur) as Hn.
    split; [exact Hn |]. rewrite Hcur. apply next_index_exact; try assumption.
    destruct data; [contradiction | simpl; lia].
  - intros Hnone. rewrite Hnone. reflexivity.
  - intros cookies Hsome Hidx. unfold currentWallpaperIndex_of.
    rewrite Hsome. unfold JS.js_or, JS.or_str.
    destruct (JS.truthy cookies) eqn:E.
    + rewrite Hidx. reflexivity.
    + reflexivity.
  - intros cookies digits Hsome Hm.
    destruct (current_index_cases (Cookie req)) as [[_ E] | (digits' & E & Hcur)];
      rewrite (Hcookies cookies Hsome) in E by congruence; [congruence |].
    rewrite Hcur. congruence.
  - intros Hoff. rewrite Hoff in Hh. exact Hh.
Qed.

(** C10. With the random-wallpaper setting on and no usable feed (the fetch
    rejects, the status is not ok, the body is not JSON, not an array or an
    empty array), the response sets [wallpaper_index=0] whatever the cookie
    of the request holds, and the custom wallpaper that the settings
    configure is the one that is rendered. *)
Theorem failed_feed_resets_index
    (isAuthenticated : bool) (env : environment) (req : request) (d : db) :
  let l := load_layout d in
  let resp := onRequest localeCompare fetch URL_parse toUpperCase
                isAuthenticated env req d in
  layoutRandomWallpaper l = true ->
  feed_unusable (fetch (bingUrl_of (bingCountry l))) = true ->
  headers resp
  = [content_type;
     ("Set-Cookie", "wallpaper_index=0; Path=/; Max-Age=31536000; SameSite=Lax")]
  /\ isCustomWallpaper (html resp) = JS.truthy (layoutCustomWallpaper l)
  /\ safeWallpaperUrl (html resp) = sanitizeUrl URL_parse (layoutCustomWallpaper l).
Proof.
  cbn zeta. intros Hon Hfeed.
  pose proof (onRequest_wallpaper isAuthenticated env req d) as Hw.
  cbn zeta in Hw. destruct Hw as (Hh & Hs & Hc).
  rewrite (rotate_without_feed _ _ Hon Hfeed) in Hh, Hs, Hc.
  rewrite Hon in Hh. simpl in Hh, Hs, Hc. auto.
Qed.

Lemma onRequest_page isAuthenticated env req d :
  let sel := selection_of localeCompare isAuthenticated env req d in
  let p := html (onRequest localeCompare fetch URL_parse toUpperCase
                   isAuthenticated env req d) in
  sitesGridMarkup p = map (render_card URL_parse toUpperCase
                             (load_layout d)) (currentSites sel)
  /\ catalogLinks p = map (link_of sel) (menu_of localeCompare isAuthenticated d)
  /\ allLinkActive p = negb (catalogExists sel)
  /\ headingText p
     = escapeHTML (headingPlainText sel (sites_of isAuthenticated d))
  /\ headingActiveAttr p
     = (if catalogExists sel
        then escapeHTML (JS.js_or (currentCatalog sel) "") else "")
  /\ CATALOG_EXISTS p = (if catalogExists sel then "true" else "false").
Proof.
  cbn zeta. unfold onRequest.
  destruct (rotate_wallpaper fetch (load_layout d) (Cookie req)) as [next custom].
  simpl. repeat split.
Qed.

Lemma select_missing (requestedCatalog : string) (catalogs : list string)
    (sites : list row) :
  JS.includes catalogs requestedCatalog = false ->
  select requestedCatalog catalogs sites
  = {| catalogExists := false;
       currentCatalog := head catalogs;
       currentSites := sites |}.
Proof.
  intros H. unfold select. rewrite H, andb_false_r. reflexivity.
Qed.

Lemma select_empty (catalogs : list string) (sites : list row) :
  select "" catalogs sites
  = {| catalogExists := false;
       currentCatalog := head catalogs;
       currentSites := sites |}.
Proof. reflexivity. Qed.

Lemma unselected_page isAuthenticated env req d :
  catalogExists (selection_of localeCompare isAuthenticated env req d) = false ->
  currentSites (selection_of localeCompare isAuthenticated env req d) = sites_of isAuthenticated d ->
  let p := html (onRequest localeCompare fetch URL_parse toUpperCase
                   isAuthenticated env req d) in
  sitesGridMarkup p
  = map (render_card URL_parse toUpperCase (load_layout d)) (sites_of isAuthenticated d)
  /\ headingText p
     = escapeHTML ("全部收藏 · "
         ++ JS.toString (Z.of_nat (length (sites_of isAuthenticated d)))
         ++ " 个网站")
  /\ allLinkActive p = true
  /\ Forall (fun lk => isActive lk = false) (catalogLinks p)
  /\ headingActiveAttr p = ""
  /\ CATALOG_EXISTS p = "false".
Proof.
  intros Hex Hsites. cbn zeta.
  pose proof (onRequest_page isAuthenticated env req d) as Hp. cbn zeta in Hp.
  destruct Hp as (Hg & Hl & Ha & Hh & Hact & Hce).
  rewrite Hg, Hl, Ha, Hh, Hact, Hce, Hsites.
  unfold headingPlainText. rewrite Hex. simpl.
  repeat split.
  apply List.Forall_forall. intros lk Hlk.
  apply in_map_iff in Hlk as (m & <- & _). unfold link_of. rewrite Hex. reflexivity.
Qed.

(** C1, as amended. When the catalog name that the request resolves to
    (after the DISPLAY_CATEGORY default) is not among the known catalog
    names, the page is the unfiltered listing: the grid holds the cards of
    all loaded sites, the heading is the one of the whole collection, the
    [全部] link is the active one and no catalog link is active. Only the
    variable [currentCatalog] takes the first catalog of the sorted list;
    nothing of the page is rendered from it. *)
Theorem unknown_catalog_lists_all
    (isAuthenticated : bool) (env : environment) (req : request) (d : db) :
  let catalogs := map name (menu_of localeCompare isAuthenticated d) in
  let sel := selection_of localeCompare isAuthenticated env req d in
  let p := html (onRequest localeCompare fetch URL_parse toUpperCase
                   isAuthenticated env req d) in
  JS.includes catalogs (resolved_of localeCompare isAuthenticated env req d) = false ->
  currentCatalog sel = head catalogs
  /\ sitesGridMarkup p
     = map (render_card URL_parse toUpperCase (load_layout d)) (sites_of isAuthenticated d)
  /\ headingText p
     = escapeHTML ("全部收藏 · "
         ++ JS.toString (Z.of_nat (length (sites_of isAuthenticated d)))
         ++ " 个网站")
  /\ allLinkActive p = true
  /\ Forall (fun lk => isActive lk = false) (catalogLinks p)
  /\ headingActiveAttr p = ""
  /\ CATALOG_EXISTS p = "false".
Proof.
  cbn zeta. intros Hmiss.
  assert (Hsel : selection_of localeCompare isAuthenticated env req d
                 = {| catalogExists := false;
                      currentCatalog := head (map name (menu_of localeCompare isAuthenticated d));
                      currentSites := sites_of isAuthenticated d |}).
  { unfold selection_of. apply select_missing, Hmiss. }
  split; [rewrite Hsel; reflexivity |].
  apply unselected_page; rewrite Hsel; reflexivity.
Qed.

Lemma requestedCatalog_all (env : environment) (catalogs : list string) :
  requestedCatalog_of (Some "all") env catalogs = "".
Proof. reflexivity. Qed.

(** C9. A request with [?catalog=all] is answered with the unfiltered
    listing of all categories, whatever DISPLAY_CATEGORY is configured: the
    name resolves to the empty one (the default is not consulted), the grid
    holds the cards of all loaded sites, the heading is the one of the whole
    collection, and the [全部] link is the active one. *)
Theorem explicit_all_overrides_default
    (isAuthenticated : bool) (env : environment) (cookie : option string) (d : db) :
  let req := {| catalog := Some "all"; Cookie := cookie |} in
  let p := html (onRequest localeCompare fetch URL_parse toUpperCase
                   isAuthenticated env req d) in
  resolved_of localeCompare isAuthenticated env req d = ""
  /\ sitesGridMarkup p
     = map (render_card URL_parse toUpperCase (load_layout d)) (sites_of isAuthenticated d)
  /\ headingText p
     = escapeHTML ("全部收藏 · "
         ++ JS.toString (Z.of_nat (length (sites_of isAuthenticated d)))
         ++ " 个网站")
  /\ allLinkActive p = true
  /\ Forall (fun lk => isActive lk = false) (catalogLinks p)
  /\ headingActiveAttr p = ""
  /\ CATALOG_EXISTS p = "false".
Proof.
  cbn zeta.
  assert (Hres : resolved_of localeCompare isAuthenticated env
                   {| catalog := Some "all"; Cookie := cookie |} d = "").
  { unfold resolved_of. simpl. apply requestedCatalog_all. }
  split; [exact Hres |].
  apply unselected_page; unfold selection_of; rewrite Hres; reflexivity.
Qed.

End HomeFacts.

(** ** The category menu *)

Section MenuFacts.

Import Store Home.

Lemma includes_In (l : list string) (x : string) :
  JS.includes l x = true <-> In x l.
Proof.
  unfold JS.includes. rewrite existsb_exists. split.
  - intros (y & Hy & He). apply String.eqb_eq in He. subst. exact Hy.
  - intros H. exists x. split; [exact H | apply String.eqb_refl].
Qed.

Lemma see_sites_snoc (l : list row) (x : row) :
  see_sites (l ++ [x]) = see_site (see_sites l) x.
Proof. unfold see_sites. rewrite fold_left_app. reflexivity. Qed.

Lemma categorySet_In (l : list row) (n : string) :
  In n (categorySet (see_sites l)) <-> exists s, In s l /\ categoryName_of s = n.
Proof.
  induction l as [|x l IH] using rev_ind.
  - simpl. split; [tauto | intros (s & [] & _)].
  - rewrite see_sites_snoc. simpl.
    destruct (JS.includes (categorySet (see_sites l)) (categoryName_of x)) eqn:E.
    + rewrite IH. split.
      * intros (s & Hs & Hn). exists s. split; [apply in_or_app; auto | exact Hn].
      * intros (s & Hs & Hn). apply in_app_or in Hs as [Hs | [<- | []]].
        -- exists s. auto.
        -- apply IH. rewrite <- Hn. apply includes_In, E.
    + rewrite in_app_iff, IH. simpl. split.
      * intros [(s & Hs & Hn) | [<- | []]].
        -- exists s. split; [apply in_or_app; auto | exact Hn].
        -- exists x. split; [apply in_or_app; simpl; auto | reflexivity].
      * intros (s & Hs & Hn). apply in_app_or in Hs as [Hs | [<- | []]].
        -- left. exists s. auto.
        -- right. left. exact Hn.
Qed.

Lemma categorySet_NoDup (l : list row) : List.NoDup (categorySet (see_sites l)).
Proof.
  induction l as [|x l IH] using rev_ind.
  - constructor.
  - rewrite see_sites_snoc. simpl.
    destruct (JS.includes (categorySet (see_sites l)) (categoryName_of x)) eqn:E.
    + exact IH.
    + apply NoDup_app_remove_l with (l := []). simpl.
      apply Permutation_NoDup with (categoryName_of x :: categorySet (see_sites l)).
      * apply Permutation_cons_append.
      * constructor; [| exact IH].
        intros Hin. apply includes_In in Hin. congruence.
Qed.


Variable localeCompare : string -> string -> Z.



Hypothesis localeCompare_consistent : JS.consistent localeCompare.


Lemma menu_names (sites : list row) (orderRows : list category) :
  Permutation (map name (catalogsWithMeta localeCompare sites orderRows))
    (categorySet (see_sites sites)).
Proof.
  unfold catalogsWithMeta, catalogsWithMeta_built.
  eapply perm_trans; [apply Permutation_map, sort_perm |].
  rewrite map_map. simpl. rewrite map_id. apply Permutation_refl.
Qed.



Lemma menu_names_NoDup (sites : list row) (orderRows : list category) :
  List.NoDup (map name (catalogsWithMeta localeCompare sites orderRows)).
Proof.
  eapply Permutation_NoDup; [apply Permutation_sym, menu_names |].
  apply categorySet_NoDup.
Qed.

Lemma menu_names_In (sites : list row) (orderRows : list category) (n : string) :
  In n (map name (catalogsWithMeta localeCompare sites orderRows))
  <-> exists s, In s sites /\ categoryName_of s = n.
Proof.
  rewrite <- categorySet_In. split; apply Permutation_in.
  - apply menu_names.
  - apply Permutation_sym, menu_names.
Qed.










End MenuFacts.


(** ** The statements on a concrete store *)

Section Instances.

Import Store Middleware Home.




(** The fourth page of pages of [2 ^ 53 - 1] rows: the offset is three
    times the page size rounded to a double, and so is the total. *)
Lemma total_beyond_safe_integers :
  exists resp,
    ConfigApi.onRequestGet Sample.sql_like Sample.sql_id_eq true
      (Cases.ask_page "4" "9007199254740991") Sample.store = Some resp
    /\ data_of resp = []
    /\ total_of resp = JS.Num 27021597764222972
    /\ 3 * 9007199254740991 = 27021597764222973.
Proof.
  assert (Hdata : ConfigApi.query Sample.sql_like Sample.sql_id_eq 1 None None None
                    9007199254740991 27021597764222972 Sample.store = []).
  { unfold ConfigApi.query, limit_offset.
    change (9007199254740991 <? 0) with false. cbv iota.
    rewrite skipn_all2; [apply firstn_nil |].
    unfold order_by. rewrite sort_length.
    pose proof (filter_length_le
                  (ConfigApi.queryBase Sample.sql_like Sample.sql_id_eq 1 None None None)
                  (sites Sample.store)) as Hle.
    change (length (sites Sample.store)) with 3%nat in Hle. lia. }
  eexists. split.
  - apply (onRequestGet_runs Sample.sql_like Sample.sql_id_eq true
             (Cases.ask_page "4" "9007199254740991") Sample.store
             4 9007199254740991 27021597764222972); vm_compute; reflexivity.
  - unfold ConfigApi.list_page, total_of, data_of, jsonResponse,
      ConfigApi.reported_total. cbn [payload Cases.ask_page ConfigApi.q_catalog
      ConfigApi.q_catalogId ConfigApi.q_keyword].
    rewrite Hdata. repeat split.
Qed.


(** The second page of 1000 rows on the sample store, which holds three
    sites: no row is returned and the total is the offset, 1000. *)
Lemma total_skips_count_from_1000_witness :
  JS.parseInt "2" = JS.Num 2
  /\ ConfigApi.countQuery Sample.sql_like Sample.sql_id_eq 1 None None None Sample.store
     = 3
  /\ exists resp,
       ConfigApi.onRequestGet Sample.sql_like Sample.sql_id_eq true
         Cases.ask_second_thousand Sample.store = Some resp
       /\ data_of resp = []
       /\ total_of resp = JS.Num 1000.
Proof.
  split; [reflexivity |]. split; [reflexivity |].
  destruct (total_skips_count_from_1000 Sample.sql_like Sample.sql_id_eq true
              Cases.ask_second_thousand Sample.store 2 1000 1000)
    as ((resp & Hresp & _ & Hdata & Hbig & _) & _);
    try (vm_compute; reflexivity).
  exists resp. split; [exact Hresp |].
  assert (Hnone : data_of resp = []) by (rewrite Hdata; reflexivity).
  split; [exact Hnone |].
  destruct Hbig as (_ & Hexact & _); [lia |].
  rewrite Hexact; rewrite Hnone; [reflexivity | vm_compute; discriminate].
Defined.

(** A public site asked for in the private category is stored private, and
    a site asked for with [is_private: "yes"] in a category that is not
    private is stored private too. *)
Lemma private_category_forces_private_witness :
  ConfigApi.b_is_private Sample.new_in_vault = JS.Bool false
  /\ c_is_private Sample.catVault = Some 1
  /\ (exists row,
        sites (snd (ConfigApi.onRequestPost true Sample.api_env Sample.new_in_vault
                      99 Sample.store))
        = (sites Sample.store ++ [row])%list
        /\ s_is_private row = Some 1)
  /\ c_is_private Sample.catA = Some 0
  /\ exists row,
       sites (snd (ConfigApi.onRequestPost true Sample.api_env Cases.new_private_in_A
                     99 Sample.store))
       = (sites Sample.store ++ [row])%list
       /\ s_is_private row = Some 1.
Proof.
  split; [reflexivity |]. split; [reflexivity |]. split; [| split; [reflexivity |]].
  - destruct (private_category_forces_private true Sample.api_env Sample.new_in_vault
                99 Sample.store 3 Sample.catVault eq_refl eq_refl) as [Hrow _].
    destruct (Hrow eq_refl) as (row & Hsites & _ & Hprivate & _).
    exists row. split; [exact Hsites | apply Hprivate; reflexivity].
  - destruct (private_category_forces_private true Sample.api_env
                Cases.new_private_in_A 99 Sample.store 1 Sample.catA eq_refl eq_refl)
      as [Hrow _].
    destruct (Hrow eq_refl) as (row & Hsites & _ & _ & Hpublic).
    exists row. split; [exact Hsites |].
    destruct Hpublic as (_ & _ & _ & Htext & _); [discriminate |].
    apply (Htext "yes"); [reflexivity | discriminate].
Defined.

(** An admin who posts the url of a stored site gets the conflict. *)
Lemma duplicate_url_conflict_witness :
  find_by_url "https://example.com" (sites Sample.store) = Some Sample.site1
  /\ snd (ConfigApi.onRequestPost true Sample.api_env Sample.duplicate_of_site1
            99 Sample.store) = Sample.store
  /\ Middleware.status (fst (ConfigApi.onRequestPost true Sample.api_env
                    Sample.duplicate_of_site1 99 Sample.store)) = 409.
Proof.
  split; [reflexivity |].
  destruct (duplicate_url_conflict true Sample.api_env Sample.duplicate_of_site1
              99 Sample.store " https://example.com " Sample.site1 eq_refl eq_refl)
    as [Hstore Hanswer].
  split; [exact Hstore |].
  rewrite (Hanswer "again").
  - reflexivity.
  - reflexivity.
  - reflexivity.
  - vm_compute. discriminate.
  - vm_compute. discriminate.
  - vm_compute. discriminate.
  - vm_compute. discriminate.
  - exists 1. split; [reflexivity | lia].
Defined.

(** C4, the claim as stated fails: the url of the body is the one of a
    stored site, and the answer is not the 409 conflict when the request is
    not authenticated (401), when an admin sends no name (400), and when an
    admin sends a name that is not a string (500). *)
Lemma duplicate_url_unauthenticated :
  find_by_url (JS.trim " https://example.com ") (sites Sample.store)
  = Some Sample.site1
  /\ ConfigApi.b_url Sample.duplicate_of_site1 = JS.Text " https://example.com "
  /\ ConfigApi.b_url Cases.duplicate_without_name = JS.Text " https://example.com "
  /\ ConfigApi.b_url Cases.duplicate_with_number_name = JS.Text " https://example.com "
  /\ Middleware.status (fst (ConfigApi.onRequestPost false Sample.api_env
                    Sample.duplicate_of_site1 99 Sample.store)) = 401
  /\ Middleware.status (fst (ConfigApi.onRequestPost true Sample.api_env
                    Cases.duplicate_without_name 99 Sample.store)) = 400
  /\ Middleware.status (fst (ConfigApi.onRequestPost true Sample.api_env
                    Cases.duplicate_with_number_name 99 Sample.store)) = 500.
Proof. repeat split. Qed.

Lemma javascript_not_well_formed :
  ~ well_formed_http Sample.URL_parse "javascript:alert(1)".
Proof.
  intros (parsed & Hparse & Hprotocol).
  vm_compute in Hparse. injection Hparse as <-.
  destruct Hprotocol; discriminate.
Qed.

(** The card of the site whose url and logo are [javascript:alert(1)]. *)
Lemma unsafe_url_not_linked_witness :
  sanitizeUrl Sample.URL_parse "javascript:alert(1)" = ""
  /\ hrefValue (render_card Sample.URL_parse Sample.toUpperCase
                  default_layout Sample.row2) = "#"
  /\ new_tab (render_card Sample.URL_parse Sample.toUpperCase
                default_layout Sample.row2) = false
  /\ exists cardInitial,
       card_icon (render_card Sample.URL_parse Sample.toUpperCase
                    default_layout Sample.row2)
       = IconInitial cardInitial.
Proof.
  destruct (unsafe_url_not_linked Sample.URL_parse Sample.toUpperCase
              default_layout Sample.row2)
    as [Hurl Hlogo].
  destruct Hurl as (Hempty & Hhref & Htab & _);
    [exact javascript_not_well_formed | reflexivity |].
  destruct Hlogo as (_ & Hicon);
    [exact javascript_not_well_formed | reflexivity |].
  repeat split; assumption.
Defined.

(** C8, the claim as stated fails: [http://] has no host, the constructor
    throws on it, and [sanitizeUrl] returns it as it is; the card links to
    it and its copy button is enabled. *)
Lemma hostless_http_url_is_linked :
  ~ well_formed_http Sample.URL_parse "http://"
  /\ sanitizeUrl Sample.URL_parse "http://" = "http://"
  /\ hrefValue (render_card Sample.URL_parse Sample.toUpperCase
                  default_layout Sample.row3) = "http://"
  /\ new_tab (render_card Sample.URL_parse Sample.toUpperCase
                default_layout Sample.row3) = true
  /\ linksHtml (render_card Sample.URL_parse Sample.toUpperCase default_layout Sample.row3)
     = Some {| safeDisplayUrl := "http://"; copy_data_url := "http://";
               copy_disabled := false |}.
Proof.
  split.
  - intros (parsed & Hparse & _). vm_compute in Hparse. discriminate.
  - repeat split.
Qed.

(** A returning visitor whose cookie holds 1 gets the third image of a feed
    of three, and the cookie 2. *)
Lemma wallpaper_rotates_with_cookie_witness :
  layoutRandomWallpaper (load_layout Sample.store) = true
  /\ currentWallpaperIndex_of (Cookie Sample.returning) = JS.Num 1
  /\ headers (onRequest Sample.localeCompare Sample.feed3 Sample.URL_parse Sample.toUpperCase
                false
                Sample.env Sample.returning Sample.store)
     = [content_type;
        ("Set-Cookie", "wallpaper_index=2; Path=/; Max-Age=31536000; SameSite=Lax")]
  /\ safeWallpaperUrl
       (html (onRequest Sample.localeCompare Sample.feed3 Sample.URL_parse Sample.toUpperCase
                false
                Sample.env Sample.returning Sample.store))
     = "https://img.example/2.jpg".
Proof.
  split; [reflexivity |]. split; [reflexivity |].
  destruct (wallpaper_rotates_with_cookie Sample.localeCompare Sample.feed3
              Sample.URL_parse Sample.toUpperCase
                  false Sample.env Sample.returning Sample.store
              [Sample.item "https://img.example/0.jpg";
               Sample.item "https://img.example/1.jpg";
               Sample.item "https://img.example/2.jpg"]
              (Some "https://img.example/2.jpg") None 2) as [Hrotate _].
  destruct Hrotate as (_ & Hheaders & _ & Hwallpaper).
  - reflexivity.
  - reflexivity.
  - discriminate.
  - reflexivity.
  - reflexivity.
  - vm_compute. discriminate.
  - split; [exact Hheaders | exact Hwallpaper].
Defined.

(** The same visitor when the feed is down: the cookie goes back to 0 and
    the configured wallpaper is rendered. *)
Lemma failed_feed_resets_index_witness :
  currentWallpaperIndex_of (Cookie Sample.returning) = JS.Num 1
  /\ headers (onRequest Sample.localeCompare Sample.feed_down Sample.URL_parse Sample.toUpperCase
                false
                Sample.env Sample.returning Sample.store)
     = [content_type;
        ("Set-Cookie", "wallpaper_index=0; Path=/; Max-Age=31536000; SameSite=Lax")]
  /\ safeWallpaperUrl
       (html (onRequest Sample.localeCompare Sample.feed_down Sample.URL_parse Sample.toUpperCase
                false
                Sample.env Sample.returning Sample.store))
     = "https://example.com/".
Proof.
  split; [reflexivity |].
  destruct (failed_feed_resets_index Sample.localeCompare Sample.feed_down
              Sample.URL_parse Sample.toUpperCase
                  false Sample.env Sample.returning Sample.store
              eq_refl eq_refl) as (Hheaders & _ & Hwallpaper).
  split; [exact Hheaders | exact Hwallpaper].
Defined.

(** A visitor who asks for the catalog [Zed], which does not exist, sees
    both public sites. *)
Lemma unknown_catalog_lists_all_witness :
  JS.includes (map name (menu_of Sample.localeCompare false Sample.store))
    (resolved_of Sample.localeCompare false Sample.env Sample.ask_unknown Sample.store)
  = false
  /\ map data_id
       (sitesGridMarkup
          (html (onRequest Sample.localeCompare Sample.feed3 Sample.URL_parse Sample.toUpperCase
                   false
                   Sample.env Sample.ask_unknown Sample.store)))
     = [2; 1]
  /\ allLinkActive
       (html (onRequest Sample.localeCompare Sample.feed3 Sample.URL_parse Sample.toUpperCase
                false
                Sample.env Sample.ask_unknown Sample.store))
     = true.
Proof.
  split; [reflexivity |].
  destruct (unknown_catalog_lists_all Sample.localeCompare Sample.feed3
              Sample.URL_parse Sample.toUpperCase
                  false Sample.env Sample.ask_unknown Sample.store
              eq_refl) as (_ & Hgrid & _ & Hall & _).
  split; [rewrite Hgrid; reflexivity | exact Hall].
Defined.

(** C1, the claim as stated fails: for the catalog [Zed] the first catalog
    of the sorted list is B, whose only site is the site 2, and the page
    lists the sites 2 and 1 under the heading of the whole collection. *)
Lemma unknown_catalog_is_not_first_catalog :
  let p := html (onRequest Sample.localeCompare Sample.feed3 Sample.URL_parse Sample.toUpperCase
                   false
                   Sample.env Sample.ask_unknown Sample.store) in
  let catalogs := map name (menu_of Sample.localeCompare false Sample.store) in
  JS.includes catalogs
    (resolved_of Sample.localeCompare false Sample.env Sample.ask_unknown Sample.store)
  = false
  /\ head catalogs = Some "B"
  /\ List.filter (fun s => (categoryName_of s =? "B")%string)
       (sites_of false Sample.store) = [Sample.row2]
  /\ sitesGridMarkup p
     = map (render_card Sample.URL_parse Sample.toUpperCase (load_layout Sample.store))
         [Sample.row2; Sample.row1]
  /\ sitesGridMarkup p
     <> map (render_card Sample.URL_parse Sample.toUpperCase
               (load_layout Sample.store)) [Sample.row2]
  /\ headingText p = "全部收藏 · 2 个网站"
  /\ headingActiveAttr p = ""
  /\ allLinkActive p = true.
Proof.
  cbn zeta. repeat split. vm_compute. discriminate.
Qed.



End Instances.

(** * Further properties of the handlers *)

(** ** Sorted lists and the stable sort *)

Section SortMore.

Context {A : Type}.
Variable cmp : A -> A -> Z.

Lemma insert_sorted_first (x : A) (l : list A) :
  Forall (fun z => cmp x z <= 0) l -> JS.insert_sorted cmp x l = x :: l.
Proof.
  intros H. destruct H as [|y l Hy _]; simpl; [reflexivity |].
  destruct (Z.leb_spec (cmp x y) 0); [reflexivity | lia].
Qed.

Lemma filter_insert_sorted (p : A -> bool) (x : A) (l : list A) :
  JS.consistent cmp -> StronglySorted (JS.before cmp) l ->
  List.filter p (JS.insert_sorted cmp x l)
  = if p x then JS.insert_sorted cmp x (List.filter p l) else List.filter p l.
Proof.
  intros [Htot Htrans] Hl. induction Hl as [|y l Hl IH Hy]; simpl.
  - destruct (p x); reflexivity.
  - destruct (Z.leb_spec (cmp x y) 0) as [Hle | Hgt]; simpl.
    + destruct (p x) eqn:Hpx; [| reflexivity].
      rewrite insert_sorted_first; [reflexivity |].
      assert (Hall : Forall (fun z => cmp x z <= 0) (y :: l)).
      { constructor; [exact Hle |].
        rewrite List.Forall_forall in *. intros z Hz.
        apply Htrans with y; [exact Hle | apply Hy, Hz]. }
      rewrite List.Forall_forall in *. intros z Hz.
      apply Hall. change (In z (List.filter p (y :: l))) in Hz.
      apply filter_In in Hz as [Hz _]. exact Hz.
    + rewrite IH. destruct (p y) eqn:Hpy, (p x) eqn:Hpx; simpl; try reflexivity.
      destruct (Z.leb_spec (cmp x y) 0); [lia | reflexivity].
Qed.

(** Filtering commutes with the stable sort on a consistent comparator. *)
Lemma filter_sort (p : A -> bool) (l : list A) :
  JS.consistent cmp ->
  List.filter p (JS.sort cmp l) = JS.sort cmp (List.filter p l).
Proof.
  intros Hc. induction l as [|x l IH]; simpl; [reflexivity |].
  rewrite filter_insert_sorted by (auto using sort_strongly).
  rewrite IH. destruct (p x); reflexivity.
Qed.

End SortMore.

(** ** The list operation: pages *)

Section ListMore.

Import Store Middleware ConfigApi.

Variable sql_like : string -> string -> bool.
Variable sql_id_eq : Z -> string -> bool.

Lemma by_sort_then_time_le (a b : site) :
  by_sort_then_time a b <= 0 <->
  order_rank (s_sort_order a) < order_rank (s_sort_order b)
  \/ (order_rank (s_sort_order a) = order_rank (s_sort_order b)
      /\ (order_num (s_sort_order a) < order_num (s_sort_order b)
          \/ (order_num (s_sort_order a) = order_num (s_sort_order b)
              /\ s_create_time b <= s_create_time a))).
Proof.
  unfold by_sort_then_time.
  destruct (Z.eqb_spec (order_rank (s_sort_order a)) (order_rank (s_sort_order b)));
    simpl; [| lia].
  destruct (Z.eqb_spec (order_num (s_sort_order a)) (order_num (s_sort_order b)));
    simpl; lia.
Qed.

Lemma by_sort_then_time_consistent : JS.consistent by_sort_then_time.
Proof.
  split.
  - intros a b Hab.
    destruct (Z.le_gt_cases (by_sort_then_time b a) 0) as [H | H]; [exact H |].
    exfalso.
    assert (Hnab : ~ by_sort_then_time a b <= 0) by lia.
    assert (Hnba : ~ by_sort_then_time b a <= 0) by lia.
    rewrite by_sort_then_time_le in Hnab, Hnba. lia.
  - intros a b c. rewrite !by_sort_then_time_le. lia.
Qed.


Import Invariants.

Lemma list_sites_page isAuthenticated catalog catalogId keyword page pageSize d :
  data_of (list_sites sql_like sql_id_eq isAuthenticated catalog catalogId keyword
             page pageSize d)
  = limit_offset pageSize ((page - 1) * pageSize)
      (matching sql_like sql_id_eq (if isAuthenticated then 1 else 0)
         catalogId catalog keyword d).
Proof. reflexivity. Qed.

Lemma limit_offset_length {B : Type} (limit offset : Z) (l : list B) :
  0 <= limit ->
  Z.of_nat (length (limit_offset limit offset l))
  = Z.min limit (Z.of_nat (length l - Z.to_nat offset)).
Proof.
  intros H. unfold limit_offset.
  destruct (Z.ltb_spec limit 0); [lia |].
  rewrite length_firstn, length_skipn. lia.
Qed.

(** X1. A page never holds more rows than [pageSize] (when it is not
    negative), nor more rows than satisfy the WHERE clause. *)
Theorem page_holds_at_most_pageSize
    (isAuthenticated : bool) (catalog catalogId keyword : option string)
    (page pageSize : Z) (d : db) :
  0 <= pageSize ->
  let data := data_of (list_sites sql_like sql_id_eq isAuthenticated catalog
                         catalogId keyword page pageSize d) in
  Z.of_nat (length data) <= pageSize
  /\ Z.of_nat (length data)
     <= countQuery sql_like sql_id_eq (if isAuthenticated then 1 else 0)
          catalogId catalog keyword d.
Proof.
  intros Hps. cbn zeta. rewrite list_sites_page, limit_offset_length by exact Hps.
  unfold matching, order_by, countQuery. rewrite sort_length. lia.
Qed.



(** X4. From a page size of 1000 on, the reported total is the real count
    only while the count lies within the page: it is the offset plus the
    page size when more rows follow, and the offset itself when the page is
    past the last row. This holds for the pages whose end
    [page * pageSize] is at most [2 ^ 53], where the arithmetic of the
    handler is exact. *)
Theorem total_from_1000_is_clamped
    (isAuthenticated : bool) (req : get_request) (d : db) (page pageSize : Z) :
  JS.parseInt (JS.js_or (q_page req) "1") = JS.Num page ->
  JS.parseInt (JS.js_or (q_pageSize req) "10") = JS.Num pageSize ->
  1000 <= pageSize -> 1 <= page -> page * pageSize <= 2 ^ 53 ->
  let offset := (page - 1) * pageSize in
  let count := countQuery sql_like sql_id_eq (if isAuthenticated then 1 else 0)
                 (q_catalogId req) (q_catalog req) (q_keyword req) d in
  exists resp,
    onRequestGet sql_like sql_id_eq isAuthenticated req d = Some resp
    /\ status resp = 200
    /\ total_of resp = JS.Num (Z.min (offset + pageSize) (Z.max offset count)).
Proof.
  intros Hpage Hsize Hps Hp Hend. cbn zeta.
  assert (H63 : 2 ^ 53 < 2 ^ 63) by (vm_compute; reflexivity).
  assert (Hoff : 0 <= (page - 1) * pageSize) by nia.
  assert (Hoff' : (page - 1) * pageSize + pageSize <= 2 ^ 53) by nia.
  assert (Hpage' : page - 1 <= 2 ^ 53) by nia.
  eexists. split.
  { apply (onRequestGet_exact sql_like sql_id_eq isAuthenticated req d page pageSize);
      try assumption; lia. }
  split; [reflexivity |].
  assert (Hge : (pageSize >=? 1000) = true) by (apply Z.geb_le; lia).
  unfold list_sites, list_page, total_of, jsonResponse, reported_total.
  cbn [payload]. rewrite Hge.
  unfold query. rewrite limit_offset_length by lia.
  unfold order_by, countQuery. rewrite sort_length.
  rewrite add_exact by lia. f_equal. lia.
Qed.

Lemma queryBase_public catalogId catalog keyword s :
  queryBase sql_like sql_id_eq 0 catalogId catalog keyword s
  = visible 0 s && queryBase sql_like sql_id_eq 1 catalogId catalog keyword s.
Proof.
  unfold queryBase. rewrite (visible_admin s). simpl.
  rewrite <- !andb_assoc. reflexivity.
Qed.

Lemma filter_filter {B : Type} (p q : B -> bool) (l : list B) :
  List.filter p (List.filter q l) = List.filter (fun x => p x && q x) l.
Proof.
  induction l as [|x l IH]; simpl; [reflexivity |].
  destruct (q x); simpl; rewrite ?andb_true_r, ?andb_false_r.
  - destruct (p x); rewrite IH; reflexivity.
  - exact IH.
Qed.

Lemma visitor_matching (catalog catalogId keyword : option string) (d : db) :
  matching sql_like sql_id_eq 0 catalogId catalog keyword d
  = List.filter (fun s => bool_decide (s_is_private s = Some 0))
      (matching sql_like sql_id_eq 1 catalogId catalog keyword d).
Proof.
  unfold matching, order_by.
  rewrite filter_sort by apply by_sort_then_time_consistent.
  f_equal. rewrite filter_filter.
  apply filter_ext. intros s. rewrite queryBase_public. f_equal.
  unfold visible. destruct (s_is_private s) as [[| |]|]; reflexivity.
Qed.

Lemma whole_page isAuthenticated catalog catalogId keyword pageSize d :
  Z.of_nat (length (sites d)) <= pageSize ->
  data_of (list_sites sql_like sql_id_eq isAuthenticated catalog catalogId keyword
             1 pageSize d)
  = matching sql_like sql_id_eq (if isAuthenticated then 1 else 0)
      catalogId catalog keyword d.
Proof.
  intros Hps. rewrite list_sites_page.
  replace ((1 - 1) * pageSize) with 0 by lia.
  apply limit_offset_all. unfold matching, order_by. rewrite sort_length.
  pose proof (filter_length_le
    (queryBase sql_like sql_id_eq (if isAuthenticated then 1 else 0)
       catalogId catalog keyword) (sites d)). lia.
Qed.

(** X5. With the same filters and a page that holds every row, what a
    visitor is listed is what an admin is listed with the rows that are not
    public taken out, in the same order. *)
Theorem visitor_list_is_public_part
    (catalog catalogId keyword : option string) (pageSize : Z) (d : db) :
  Z.of_nat (length (sites d)) <= pageSize ->
  data_of (list_sites sql_like sql_id_eq false catalog catalogId keyword
             1 pageSize d)
  = List.filter (fun s => bool_decide (s_is_private s = Some 0))
      (data_of (list_sites sql_like sql_id_eq true catalog catalogId keyword
                  1 pageSize d)).
Proof.
  intros Hps. rewrite !whole_page by exact Hps. apply visitor_matching.
Qed.

End ListMore.

(** ** The create operation: what it writes *)

Section CreateMore.

Import Store Middleware ConfigApi Invariants.

(** X6. The create operation answers 201, 400, 401, 409 or 500, whatever
    the request holds: a body that is not JSON, a name that is not a
    string. It leaves the store as it is unless it answers 201, which only
    an authenticated caller gets; then it has added one row at the end of
    [sites] and changed no other row, no category and no setting. A body
    that is not JSON, like a name, url, logo or description that is truthy
    and not a string, is answered 500 to an admin and 401 to anyone else. *)
Theorem create_only_appends
    (isAuthenticated : bool) (env : environment) (body : json_outcome) (now : Z)
    (d : db) :
  let resp := fst (onRequestPost_request isAuthenticated env body now d) in
  let d' := snd (onRequestPost_request isAuthenticated env body now d) in
  (status resp = 201 \/ status resp = 400 \/ status resp = 401
   \/ status resp = 409 \/ status resp = 500)
  /\ (status resp <> 201 -> d' = d)
  /\ (status resp = 201 ->
        isAuthenticated = true
        /\ categories d' = categories d
        /\ settings d' = settings d
        /\ exists row, sites d' = (sites d ++ [row])%list)
  /\ (body = JsonThrows
      \/ (exists config,
            body = JsonObject config
            /\ (JS.trimmed (b_name config) = None \/ JS.trimmed (b_url config) = None
                \/ JS.trimmed (b_logo config) = None
                \/ JS.trimmed (b_desc config) = None)) ->
      status resp = if isAuthenticated then 500 else 401).
Proof.
  cbn zeta. split; [| split; [| split]].
  - destruct body as [|config]; simpl.
    + destruct isAuthenticated; simpl; auto.
    + pose proof (post_outcome isAuthenticated env config now d) as H.
      cbn zeta in H. destruct H as [[_ Hst] | (H201 & _)]; tauto.
  - destruct body as [|config]; simpl.
    + destruct isAuthenticated; reflexivity.
    + pose proof (post_outcome isAuthenticated env config now d) as H.
      cbn zeta in H. destruct H as [[Hd _] | (H201 & _)]; [auto | contradiction].
  - destruct body as [|config]; simpl.
    + destruct isAuthenticated; simpl; discriminate.
    + pose proof (post_outcome isAuthenticated env config now d) as H.
      cbn zeta in H.
      destruct H as [[_ Hst] | (_ & Hauth & name & url & cid & c & _ & _ & _ & _ & _
                                & _ & _ & _ & Hd)]; [lia |].
      intros _. rewrite Hd. simpl. repeat split; [exact Hauth |].
      eexists. reflexivity.
  - intros [-> | (config & -> & Hthrows)]; simpl.
    + destruct isAuthenticated; reflexivity.
    + unfold onRequestPost. destruct isAuthenticated; [| reflexivity]. cbn [negb].
      destruct (JS.trimmed (b_name config)), (JS.trimmed (b_url config)),
               (JS.trimmed (b_logo config)), (JS.trimmed (b_desc config));
        try reflexivity.
      destruct Hthrows as [H | [H | [H | H]]]; discriminate.
Qed.

Lemma find_by_url_None u l : find_by_url u l = None -> ~ In u (map s_url l).
Proof.
  unfold find_by_url. intros Hnone Hin.
  apply in_map_iff in Hin as (s & <- & Hs).
  pose proof (find_none _ _ Hnone s Hs) as Hf. simpl in Hf.
  rewrite String.eqb_refl in Hf. discriminate.
Qed.

(** X7. The create operation keeps the urls of the stored sites distinct. *)
Theorem create_keeps_urls_unique
    (isAuthenticated : bool) (env : environment) (config : post_body) (now : Z)
    (d : db) :
  urls_unique d ->
  urls_unique (snd (onRequestPost isAuthenticated env config now d)).
Proof.
  intros Huniq. pose proof (post_outcome isAuthenticated env config now d) as H.
  cbn zeta in H.
  destruct H as [[-> _] | (_ & _ & name & url & cid & c & _ & _ & _ & _ & Hfresh
                           & _ & _ & _ & ->)];
    [exact Huniq |].
  unfold urls_unique in *. simpl. rewrite map_app. simpl.
  apply NoDup_app_remove_l with (l := []). simpl.
  eapply Permutation_NoDup; [apply Permutation_cons_append |].
  constructor; [apply find_by_url_None, Hfresh | exact Huniq].
Qed.

(** X8. The create operation keeps the rule that a site of a private
    category is private. *)
Theorem create_keeps_private_inherited
    (isAuthenticated : bool) (env : environment) (config : post_body) (now : Z)
    (d : db) :
  private_inherited d ->
  private_inherited (snd (onRequestPost isAuthenticated env config now d)).
Proof.
  intros Hinv. pose proof (post_outcome isAuthenticated env config now d) as H.
  cbn zeta in H.
  destruct H as [[-> _] | (_ & _ & name & url & cid & c & _ & _ & _ & _ & _
                           & _ & _ & Hcat & ->)];
    [exact Hinv |].
  unfold private_inherited in *. simpl. intros s c' Hs Hc' Hpriv.
  apply in_app_or in Hs as [Hs | [<- | []]]; [eapply Hinv; eauto |].
  simpl in *. rewrite Hcat in Hc'. injection Hc' as <-. rewrite Hpriv. reflexivity.
Qed.

(** X9. The create operation keeps [catelog_name] equal to the name of the
    category of the site: the new row copies the name of the category it
    resolves. *)
Theorem create_keeps_names_in_sync
    (isAuthenticated : bool) (env : environment) (config : post_body) (now : Z)
    (d : db) :
  names_in_sync d ->
  names_in_sync (snd (onRequestPost isAuthenticated env config now d)).
Proof.
  intros Hinv. pose proof (post_outcome isAuthenticated env config now d) as H.
  cbn zeta in H.
  destruct H as [[-> _] | (_ & _ & name & url & cid & c & _ & _ & _ & _ & _
                           & _ & _ & Hcat & ->)];
    [exact Hinv |].
  unfold names_in_sync in *. simpl. intros s c' Hs Hc'.
  apply in_app_or in Hs as [Hs | [<- | []]]; [eapply Hinv; eauto |].
  simpl in *. rewrite Hcat in Hc'. injection Hc' as <-. reflexivity.
Qed.

Lemma find_snoc {B : Type} (f : B -> bool) (l : list B) (x : B) :
  find f (l ++ [x])
  = match find f l with
    | Some y => Some y
    | None => if f x then Some x else None
    end.
Proof.
  induction l as [|y l IH]; simpl; [reflexivity |].
  destruct (f y); [reflexivity | exact IH].
Qed.

(** X10. A site that has been created blocks its url: after a create that
    answers 201 for the url [url], every further create by an admin whose
    url is the same once trimmed (with a name that is a non-blank string, a
    category id, and a logo and a description that are strings or falsy)
    answers 409 and changes nothing. *)
Theorem created_url_is_taken
    (isAuthenticated : bool) (env env' : environment) (config config' : post_body)
    (now now' : Z) (d : db) (url url' name' : string) :
  let d' := snd (onRequestPost isAuthenticated env config now d) in
  status (fst (onRequestPost isAuthenticated env config now d)) = 201 ->
  b_url config = JS.Text url ->
  b_url config' = JS.Text url' ->
  JS.trim url' = JS.trim url ->
  b_name config' = JS.Text name' -> JS.trim name' <> "" ->
  JS.trimmed (b_logo config') <> None -> JS.trimmed (b_desc config') <> None ->
  (exists catelogId, b_catelogId config' = Some catelogId /\ catelogId <> 0) ->
  onRequestPost true env' config' now' d'
  = (errorResponse "该 URL 已存在，请勿重复添加" 409, d').
Proof.
  cbn zeta. intros H201 Hbu Hbu' Hsame Hbn Hname Hl Hd' Hid.
  pose proof (post_outcome isAuthenticated env config now d) as H. cbn zeta in H.
  destruct H as [[_ Hst] | (_ & _ & name & url0 & cid & c & _ & _ & Hbu0 & Hurl
                            & Hfresh & _ & _ & _ & Hd)];
    [lia |].
  assert (url0 = url) by congruence. subst url0.
  apply post_conflict
    with (name := name') (url := url')
         (existingSite := created_row env config name url now d cid c);
    try assumption.
  - rewrite Hsame. exact Hurl.
  - rewrite Hd, Hsame. simpl. unfold find_by_url in *.
    rewrite find_snoc, Hfresh. simpl. rewrite String.eqb_refl. reflexivity.
Qed.

End CreateMore.

Section CreateThenList.

Import Store Middleware ConfigApi Invariants.

Variable sql_like : string -> string -> bool.
Variable sql_id_eq : Z -> string -> bool.



End CreateThenList.

(** ** The default logo *)

Section LogoMore.

Import Store ConfigApi Invariants.




End LogoMore.

(** ** The schema bootstrap *)

Section BootstrapMore.

Import Store Bootstrap Invariants.

Lemma create_index_has (n : string) (l : list string) :
  JS.includes (create_index n l) n = true.
Proof.
  unfold create_index. destruct (JS.includes l n) eqn:E; [exact E |].
  apply includes_In, in_or_app. right. simpl. auto.
Qed.

Lemma create_index_keeps (n m : string) (l : list string) :
  JS.includes l m = true -> JS.includes (create_index n l) m = true.
Proof.
  intros H. unfold create_index. destruct (JS.includes l n); [exact H |].
  apply includes_In, in_or_app. left. apply includes_In, H.
Qed.

Lemma create_index_again (n : string) (l : list string) :
  JS.includes l n = true -> create_index n l = l.
Proof. intros H. unfold create_index. rewrite H. reflexivity. Qed.

(** X13. The bootstrap can run again without effect: after one run the
    table has both columns and both indexes, and a second run, by the same
    instance or by a new one whose flag is still unset, leaves the schema
    and every row as they are. *)
Theorem bootstrap_is_idempotent (indexesChecked : bool) (sch : schema) (d : db) :
  let '(checked, sch', d') := ensure_schema false sch d in
  checked = true
  /\ has_is_private sch' = true
  /\ has_catelog_name sch' = true
  /\ JS.includes (indexes sch') "idx_sites_catelog_id" = true
  /\ JS.includes (indexes sch') "idx_sites_sort_order" = true
  /\ ensure_schema indexesChecked sch' d' = (true, sch', d').
Proof.
  unfold ensure_schema at 1. cbn iota.
  set (idx := create_index "idx_sites_sort_order"
                (create_index "idx_sites_catelog_id" (indexes sch))).
  assert (H1 : JS.includes idx "idx_sites_catelog_id" = true)
    by (apply create_index_keeps, create_index_has).
  assert (H2 : JS.includes idx "idx_sites_sort_order" = true)
    by apply create_index_has.
  repeat split; try assumption.
  unfold ensure_schema. destruct indexesChecked; [reflexivity |]. simpl.
  rewrite (create_index_again "idx_sites_catelog_id" idx H1).
  rewrite (create_index_again "idx_sites_sort_order" idx H2).
  reflexivity.
Qed.

Lemma backfill_fresh (cats : list category) (s : site) :
  s_catelog_name (backfill cats (add_catelog_name s))
  = match find_category (s_catelog_id s) cats with
    | Some c => Some (c_catelog c)
    | None => None
    end
  /\ s_catelog_id (backfill cats (add_catelog_name s)) = s_catelog_id s
  /\ s_id (backfill cats (add_catelog_name s)) = s_id s
  /\ s_url (backfill cats (add_catelog_name s)) = s_url s
  /\ s_is_private (backfill cats (add_catelog_name s)) = s_is_private s.
Proof. unfold backfill, add_catelog_name. simpl. repeat split. Qed.

(** X14. On a table without the column [catelog_name], the bootstrap adds
    it in sync: every site gets the name of its category, a site without a
    category gets NULL, and the ids and urls of the sites are as before. *)
Theorem bootstrap_backfills_names (sch : schema) (d : db) :
  has_catelog_name sch = false ->
  let d' := snd (ensure_schema false sch d) in
  names_in_sync d'
  /\ (forall s, In s (sites d') ->
        find_category (s_catelog_id s) (categories d') = None ->
        s_catelog_name s = None)
  /\ map s_id (sites d') = map s_id (sites d)
  /\ map s_url (sites d') = map s_url (sites d)
  /\ categories d' = categories d.
Proof.
  intros Hno. cbn zeta. unfold ensure_schema. rewrite Hno. simpl.
  set (d1 := if has_is_private sch then d else map_sites add_is_private d).
  assert (Hcats : categories d1 = categories d)
    by (unfold d1; destruct (has_is_private sch); reflexivity).
  assert (Hids : map s_id (sites d1) = map s_id (sites d)).
  { unfold d1. destruct (has_is_private sch); [reflexivity |].
    simpl. rewrite map_map. reflexivity. }
  assert (Hurls : map s_url (sites d1) = map s_url (sites d)).
  { unfold d1. destruct (has_is_private sch); [reflexivity |].
    simpl. rewrite map_map. reflexivity. }
  split; [| split; [| split; [| split]]].
  - unfold names_in_sync. simpl. intros s c Hs Hc.
    apply in_map_iff in Hs as (s1 & <- & Hs1).
    apply in_map_iff in Hs1 as (s0 & <- & _).
    destruct (backfill_fresh (categories d1) s0) as (Hn & Hcid & _).
    rewrite Hcid in Hc. rewrite Hn, Hc. reflexivity.
  - intros s Hs Hc.
    apply in_map_iff in Hs as (s1 & <- & Hs1).
    apply in_map_iff in Hs1 as (s0 & <- & _).
    destruct (backfill_fresh (categories d1) s0) as (Hn & Hcid & _).
    rewrite Hcid in Hc. rewrite Hn, Hc. reflexivity.
  - rewrite <- Hids, !map_map. apply map_ext. intros s. apply backfill_fresh.
  - rewrite <- Hurls, !map_map. apply map_ext. intros s. apply backfill_fresh.
  - exact Hcats.
Qed.

End BootstrapMore.

(** ** The homepage: what is loaded and what is selected *)

Section HomeMore.

Import Store Home Invariants.

Variable localeCompare : string -> string -> Z.
Variable fetch : string -> fetch_outcome.
Variable URL_parse : string -> option URL.
Variable toUpperCase : string -> string.
Variable sql_like : string -> string -> bool.
Variable sql_id_eq : Z -> string -> bool.


Lemma categoryName_of_nonempty (s : row) : categoryName_of s <> "".
Proof.
  unfold categoryName_of, JS.or_str at 1.
  destruct (JS.truthy (JS.trim (JS.or_str (Home.catelog s) ""))) eqn:E.
  - intros H. rewrite H in E. discriminate.
  - discriminate.
Qed.

Lemma same_category_test (s : row) (c : string) :
  bool_decide (Some (categoryName_of s) = Some c) = (categoryName_of s =? c)%string.
Proof.
  destruct (String.eqb_spec (categoryName_of s) c) as [-> | Hne].
  - apply bool_decide_eq_true_2. reflexivity.
  - apply bool_decide_eq_false_2. congruence.
Qed.

Lemma one_match (l : list string) (c : string) :
  List.NoDup l -> In c l -> length (List.filter (String.eqb c) l) = 1%nat.
Proof.
  intros Hnd. induction Hnd as [|x l Hx Hnd IH]; intros Hin; [destruct Hin |].
  simpl. destruct (String.eqb_spec c x) as [-> | Hne].
  - simpl. f_equal. apply length_zero_iff_nil.
    destruct (List.filter (String.eqb x) l) as [|y ys] eqn:E; [reflexivity |].
    exfalso. assert (Hy : In y (List.filter (String.eqb x) l)) by (rewrite E; simpl; auto).
    apply filter_In in Hy as [Hy Hxy]. apply String.eqb_eq in Hxy. subst y. auto.
  - apply IH. destruct Hin as [-> | Hin]; [contradiction | exact Hin].
Qed.

Lemma selected_page isAuthenticated env req d (c : string) :
  resolved_of localeCompare isAuthenticated env req d = c ->
  In c (map name (menu_of localeCompare isAuthenticated d)) ->
  let p := html (onRequest localeCompare fetch URL_parse toUpperCase
                   isAuthenticated env req d) in
  let shown :=
    List.filter (fun s => (categoryName_of s =? c)%string) (sites_of isAuthenticated d) in
  sitesGridMarkup p = map (render_card URL_parse toUpperCase (load_layout d)) shown
  /\ shown <> []
  /\ headingText p
     = escapeHTML (c ++ " · " ++ JS.toString (Z.of_nat (length shown)) ++ " 个网站")
  /\ headingActiveAttr p = escapeHTML c
  /\ CATALOG_EXISTS p = "true"
  /\ allLinkActive p = false
  /\ map isActive (catalogLinks p)
     = map (fun m => (c =? name m)%string) (menu_of localeCompare isAuthenticated d)
  /\ length (List.filter isActive (catalogLinks p)) = 1%nat.
Proof.
  intros Hres Hin. cbn zeta.
  assert (Hne : c <> "").
  { apply menu_names_In in Hin as (s & _ & <-). apply categoryName_of_nonempty. }
  pose proof (onRequest_page localeCompare fetch URL_parse toUpperCase
                isAuthenticated env req d)
    as Hp. cbn zeta in Hp.
  destruct Hp as (Hg & Hl & Ha & Hh & Hact & Hce).
  assert (Hsel : selection_of localeCompare isAuthenticated env req d
                 = {| catalogExists := true;
                      currentCatalog := Some c;
                      currentSites :=
                        List.filter (fun s => (categoryName_of s =? c)%string)
                          (sites_of isAuthenticated d) |}).
  { unfold selection_of. rewrite Hres. unfold select.
    rewrite (truthy_true _ Hne), (proj2 (includes_In _ _) Hin). simpl.
    f_equal. apply filter_ext. intros s. apply same_category_test. }
  assert (Hor : JS.js_or (Some c) "" = c).
  { unfold JS.js_or, JS.or_str. rewrite (truthy_true _ Hne). reflexivity. }
  unfold headingPlainText in Hh.
  rewrite Hsel in Hg, Hl, Ha, Hh, Hact, Hce.
  cbn [catalogExists currentCatalog currentSites negb] in Hg, Hl, Ha, Hh, Hact, Hce.
  rewrite Hor in Hh, Hact.
  assert (Hlinks : map isActive (catalogLinks
                     (html (onRequest localeCompare fetch URL_parse toUpperCase
                              isAuthenticated
                              env req d)))
                   = map (fun m => (c =? name m)%string)
                       (menu_of localeCompare isAuthenticated d)).
  { rewrite Hl, map_map. apply map_ext. intros m. unfold link_of. simpl.
    destruct (String.eqb_spec c (name m)) as [-> | Hn].
    - apply bool_decide_eq_true_2. reflexivity.
    - apply bool_decide_eq_false_2. congruence. }
  split; [exact Hg |]. split.
  { apply menu_names_In in Hin as (s & Hs & Hn).
    intros Hnil.
    assert (Hin' : In s (List.filter (fun s => (categoryName_of s =? c)%string)
                           (sites_of isAuthenticated d))).
    { apply filter_In. split; [exact Hs | apply String.eqb_eq, Hn]. }
    rewrite Hnil in Hin'. destruct Hin'. }
  split; [exact Hh |]. split; [exact Hact |]. split; [exact Hce |].
  split; [exact Ha |]. split; [exact Hlinks |].
  assert (Hlen : forall (A : Type) (f : A -> bool) (l : list A),
             length (List.filter f l)
             = length (List.filter (fun b : bool => b) (map f l))).
  { intros A f l. induction l as [|x l IH]; simpl; [reflexivity |].
    destruct (f x); simpl; rewrite IH; reflexivity. }
  rewrite Hlen, Hlinks, <- (map_map name (String.eqb c)), <- Hlen.
  apply one_match; [apply menu_names_NoDup | exact Hin].
Qed.

(** X16. A request for an existing catalog shows that catalog and nothing
    else: the grid holds the cards of the sites of that category, of which
    there is at least one, the heading names the catalog and counts these
    sites, the link of this catalog is the only active one of the menu and
    the [全部] link is not active. *)
Theorem existing_catalog_is_selected
    (isAuthenticated : bool) (env : environment) (req : request) (d : db)
    (c : string) :
  JS.trim (JS.js_or (Home.catalog req) "") = c ->
  JS.toLowerCase c <> "all" ->
  In c (map name (menu_of localeCompare isAuthenticated d)) ->
  let p := html (onRequest localeCompare fetch URL_parse toUpperCase
                   isAuthenticated env req d) in
  let shown :=
    List.filter (fun s => (categoryName_of s =? c)%string) (sites_of isAuthenticated d) in
  sitesGridMarkup p = map (render_card URL_parse toUpperCase (load_layout d)) shown
  /\ shown <> []
  /\ headingText p
     = escapeHTML (c ++ " · " ++ JS.toString (Z.of_nat (length shown)) ++ " 个网站")
  /\ headingActiveAttr p = escapeHTML c
  /\ CATALOG_EXISTS p = "true"
  /\ allLinkActive p = false
  /\ map isActive (catalogLinks p)
     = map (fun m => (c =? name m)%string) (menu_of localeCompare isAuthenticated d)
  /\ length (List.filter isActive (catalogLinks p)) = 1%nat.
Proof.
  intros Htrim Hall Hin. apply selected_page; [| exact Hin].
  assert (Hne : c <> "").
  { apply menu_names_In in Hin as (s & _ & <-). apply categoryName_of_nonempty. }
  unfold resolved_of, requestedCatalog_of. rewrite Htrim.
  destruct (String.eqb_spec (JS.toLowerCase c) "all") as [|_]; [contradiction |].
  rewrite (truthy_true _ Hne). reflexivity.
Qed.

(** X17. Without a catalog in the request (none, or a blank one), a
    configured DISPLAY_CATEGORY that names an existing catalog selects that
    catalog; one that names no existing catalog, like none at all, gives
    the unfiltered listing. *)
Theorem default_category_applies
    (isAuthenticated : bool) (env : environment) (req : request) (d : db) :
  JS.trim (JS.js_or (Home.catalog req) "") = "" ->
  let defaultCat := JS.trim (JS.js_or (DISPLAY_CATEGORY env) "") in
  let p := html (onRequest localeCompare fetch URL_parse toUpperCase
                   isAuthenticated env req d) in
  (In defaultCat (map name (menu_of localeCompare isAuthenticated d)) ->
     sitesGridMarkup p
     = map (render_card URL_parse toUpperCase (load_layout d))
         (List.filter (fun s => (categoryName_of s =? defaultCat)%string)
            (sites_of isAuthenticated d))
     /\ headingActiveAttr p = escapeHTML defaultCat
     /\ allLinkActive p = false)
  /\ (~ In defaultCat (map name (menu_of localeCompare isAuthenticated d)) ->
        sitesGridMarkup p
        = map (render_card URL_parse toUpperCase
                 (load_layout d)) (sites_of isAuthenticated d)
        /\ headingActiveAttr p = ""
        /\ allLinkActive p = true).
Proof.
  intros Hblank. cbn zeta.
  assert (Hres : resolved_of localeCompare isAuthenticated env req d
                 = if JS.includes (map name (menu_of localeCompare isAuthenticated d))
                        (JS.trim (JS.js_or (DISPLAY_CATEGORY env) ""))
                   then JS.trim (JS.js_or (DISPLAY_CATEGORY env) "") else "").
  { unfold resolved_of, requestedCatalog_of. rewrite Hblank. simpl.
    unfold given.
    destruct (JS.truthy (JS.js_or (DISPLAY_CATEGORY env) "")) eqn:E; [reflexivity |].
    apply truthy_false in E. rewrite E.
    match goal with |- context [if ?b then _ else _] => destruct b end;
      reflexivity. }
  split.
  - intros Hin. rewrite (proj2 (includes_In _ _) Hin) in Hres.
    destruct (selected_page isAuthenticated env req d _ Hres Hin)
      as (Hg & _ & _ & Hact & _ & Hall & _).
    auto.
  - intros Hnot.
    assert (Hinc : JS.includes (map name (menu_of localeCompare isAuthenticated d))
                     (JS.trim (JS.js_or (DISPLAY_CATEGORY env) "")) = false).
    { destruct (JS.includes _ _) eqn:E; [| reflexivity].
      apply includes_In in E. contradiction. }
    rewrite Hinc in Hres.
    destruct (unselected_page localeCompare fetch URL_parse toUpperCase
                isAuthenticated env req d)
      as (Hg & _ & Hall & _ & Hact & _);
      try (unfold selection_of; rewrite Hres; reflexivity).
    auto.
Qed.

(** X18. A catalog given in the request wins over DISPLAY_CATEGORY: a name
    that is not [all] resolves to itself whatever the default is, so an
    unknown name gives the unfiltered listing and not the default catalog;
    and [all] in any letter case, with white space around it, gives the
    unfiltered listing even when a category of that name exists. *)
Theorem explicit_catalog_beats_default
    (isAuthenticated : bool) (env : environment) (req : request) (d : db)
    (c : string) :
  JS.trim (JS.js_or (Home.catalog req) "") = c ->
  c <> "" ->
  let p := html (onRequest localeCompare fetch URL_parse toUpperCase
                   isAuthenticated env req d) in
  let all_listed :=
    sitesGridMarkup p
    = map (render_card URL_parse toUpperCase (load_layout d)) (sites_of isAuthenticated d)
    /\ headingActiveAttr p = ""
    /\ allLinkActive p = true in
  (JS.toLowerCase c <> "all" ->
     resolved_of localeCompare isAuthenticated env req d = c
     /\ (~ In c (map name (menu_of localeCompare isAuthenticated d)) -> all_listed))
  /\ (JS.toLowerCase c = "all" -> all_listed).
Proof.
  intros Htrim Hne. cbn zeta.
  assert (Hunsel : resolved_of localeCompare isAuthenticated env req d = ""
                   \/ ~ In (resolved_of localeCompare isAuthenticated env req d)
                          (map name (menu_of localeCompare isAuthenticated d)) ->
                   sitesGridMarkup
                     (html (onRequest localeCompare fetch URL_parse toUpperCase
                              isAuthenticated
                              env req d))
                   = map (render_card URL_parse toUpperCase (load_layout d))
                       (sites_of isAuthenticated d)
                   /\ headingActiveAttr
                        (html (onRequest localeCompare fetch URL_parse toUpperCase
                                 isAuthenticated env req d)) = ""
                   /\ allLinkActive
                        (html (onRequest localeCompare fetch URL_parse toUpperCase
                                 isAuthenticated env req d)) = true).
  { intros Hcase.
    assert (Hsel : selection_of localeCompare isAuthenticated env req d
                   = {| catalogExists := false;
                        currentCatalog :=
                          head (map name (menu_of localeCompare isAuthenticated d));
                        currentSites := sites_of isAuthenticated d |}).
    { unfold selection_of. destruct Hcase as [-> | Hnot]; [reflexivity |].
      apply select_missing.
      destruct (JS.includes _ _) eqn:E; [| reflexivity].
      apply includes_In in E. contradiction. }
    destruct (unselected_page localeCompare fetch URL_parse toUpperCase
                isAuthenticated env req d)
      as (Hg & _ & Hall & _ & Hact & _); try (rewrite Hsel; reflexivity).
    auto. }
  split.
  - intros Hnotall.
    assert (Hres : resolved_of localeCompare isAuthenticated env req d = c).
    { unfold resolved_of, requestedCatalog_of. rewrite Htrim.
      destruct (String.eqb_spec (JS.toLowerCase c) "all") as [|_]; [contradiction |].
      rewrite (truthy_true _ Hne). reflexivity. }
    split; [exact Hres |]. intros Hnot. apply Hunsel. right. rewrite Hres. exact Hnot.
  - intros Hall. apply Hunsel. left.
    unfold resolved_of, requestedCatalog_of. rewrite Htrim, Hall. reflexivity.
Qed.

End HomeMore.

(** ** Escaping and sanitising *)

Section EscapeMore.

Import Store Home Invariants.

Lemma free_of_app (p : ascii -> bool) (a b : string) :
  free_of p (a ++ b) = free_of p a && free_of p b.
Proof.
  induction a as [|c a IH]; [reflexivity |].
  change (free_of p (String c (a ++ b)) = free_of p (String c a) && free_of p b).
  simpl. rewrite IH, andb_assoc. reflexivity.
Qed.

Lemma free_of_never (p : ascii -> bool) (s : string) :
  (forall c, p c = false) -> free_of p s = true.
Proof.
  intros H. induction s as [|c s IH]; simpl; [reflexivity |]. rewrite H, IH. reflexivity.
Qed.

Lemma replaceAll_free (p : ascii -> bool) (c : ascii) (r s : string) :
  free_of p r = true ->
  free_of (fun d => negb (Ascii.eqb d c) && p d) s = true ->
  free_of p (JS.replaceAll c r s) = true.
Proof.
  intros Hr. induction s as [|d s IH]; simpl; [reflexivity |].
  intros H. apply andb_true_iff in H as [Hd Hs].
  destruct (Ascii.eqb d c); simpl in *.
  - rewrite free_of_app, Hr, (IH Hs). reflexivity.
  - rewrite Hd, (IH Hs). reflexivity.
Qed.

Lemma replaceAll_absent (c : ascii) (r s : string) :
  free_of (fun d => Ascii.eqb d c) s = true -> JS.replaceAll c r s = s.
Proof.
  induction s as [|d s IH]; simpl; [reflexivity |].
  intros H. apply andb_true_iff in H as [Hd Hs].
  destruct (Ascii.eqb d c); [discriminate |]. rewrite (IH Hs). reflexivity.
Qed.

Lemma free_of_weaken (p q : ascii -> bool) (s : string) :
  (forall c, q c = true -> p c = true) -> free_of p s = true -> free_of q s = true.
Proof.
  intros Hpq. induction s as [|c s IH]; simpl; [reflexivity |].
  intros H. apply andb_true_iff in H as [Hc Hs]. rewrite (IH Hs), andb_true_r.
  destruct (q c) eqn:E; [| reflexivity]. rewrite (Hpq c E) in Hc. discriminate.
Qed.

Lemma escapeHTML_free (s : string) : free_of markup_char (escapeHTML s) = true.
Proof.
  unfold escapeHTML. destruct (JS.truthy s); [| reflexivity]. simpl.
  apply replaceAll_free; [reflexivity |].
  apply replaceAll_free; [reflexivity |].
  apply replaceAll_free; [reflexivity |].
  apply replaceAll_free; [reflexivity |].
  apply replaceAll_free; [reflexivity |].
  apply free_of_never. intros c. unfold markup_char.
  destruct (Ascii.eqb_spec c "&"), (Ascii.eqb_spec c "<"), (Ascii.eqb_spec c ">"),
           (Ascii.eqb_spec c quot), (Ascii.eqb_spec c apos); reflexivity.
Qed.

(** X19. [escapeHTML] leaves no markup character: its result holds no [<],
    no [>] and no single or double quote, whatever the text; and a text
    without these characters and without [&] is returned as it is. *)
Theorem escapeHTML_removes_markup (s : string) :
  free_of markup_char (escapeHTML s) = true
  /\ (free_of escaped_char s = true -> escapeHTML s = s).
Proof.
  split; [apply escapeHTML_free |].
  intros H. unfold escapeHTML.
  destruct (JS.truthy s) eqn:E; simpl; [| symmetry; apply truthy_false, E].
  assert (Hc : forall c, free_of (fun d => Ascii.eqb d c) s = true ->
                 forall r, JS.replaceAll c r s = s)
    by (intros c Hc r; apply replaceAll_absent, Hc).
  assert (Habsent : forall c, escaped_char c = true ->
                      free_of (fun d => Ascii.eqb d c) s = true).
  { intros c Hesc. apply (free_of_weaken escaped_char); [| exact H].
    intros d Hd. apply Ascii.eqb_eq in Hd. subst d. exact Hesc. }
  rewrite (Hc "&"%char) by (apply Habsent; reflexivity).
  rewrite (Hc "<"%char) by (apply Habsent; reflexivity).
  rewrite (Hc ">"%char) by (apply Habsent; reflexivity).
  rewrite (Hc quot) by (apply Habsent; reflexivity).
  rewrite (Hc apos) by (apply Habsent; reflexivity).
  reflexivity.
Qed.

Variable URL_parse : string -> option URL.
Variable toUpperCase : string -> string.

(** X20. Every text that a site card interpolates is free of markup
    characters, whatever the stored name, url, logo, description and
    category hold and whatever the URL constructor answers. *)
Theorem card_texts_are_escaped (l : layout) (site : row) :
  Forall (fun t => free_of markup_char t = true)
    (card_texts (render_card URL_parse toUpperCase l site)).
Proof.
  unfold card_texts, render_card. cbn [data_name data_url data_catalog hrefValue
    safeName card_icon categoryHtml descHtml linksHtml].
  repeat constructor; try apply escapeHTML_free.
  - destruct (JS.truthy _); [| apply escapeHTML_free].
    rewrite free_of_app, !escapeHTML_free. reflexivity.
  - destruct (layoutHideCategory l); [reflexivity | apply escapeHTML_free].
  - destruct (layoutHideDesc l); [reflexivity | apply escapeHTML_free].
  - destruct (layoutHideLinks l); [reflexivity |].
    cbn [safeDisplayUrl copy_data_url]. rewrite free_of_app, escapeHTML_free, andb_true_r.
    destruct (JS.truthy _); [apply escapeHTML_free | reflexivity].
Qed.

(** X21. What [sanitizeUrl] lets through is either the [href] of a url that
    the constructor accepts with the protocol [http:] or [https:], or a
    trimmed text that the constructor rejects and that starts with
    [http://] or [https://]. A url that the constructor gives any other
    protocol is never let through. *)
Theorem sanitizeUrl_lets_only_http (url : string) :
  sanitizeUrl URL_parse url <> "" ->
  (exists parsed,
     URL_parse (JS.trim url) = Some parsed
     /\ (protocol parsed = "http:" \/ protocol parsed = "https:")
     /\ sanitizeUrl URL_parse url = href parsed)
  \/ (URL_parse (JS.trim url) = None
      /\ http_prefix (JS.trim url) = true
      /\ sanitizeUrl URL_parse url = JS.trim url).
Proof.
  unfold sanitizeUrl.
  destruct (JS.truthy url); simpl; [| congruence].
  destruct (JS.truthy (JS.trim url)); simpl; [| congruence].
  destruct (URL_parse (JS.trim url)) as [parsed|].
  - destruct (String.eqb_spec (protocol parsed) "http:") as [Hp | _]; simpl.
    + intros _. left. exists parsed. auto.
    + destruct (String.eqb_spec (protocol parsed) "https:") as [Hp | _]; simpl.
      * intros _. left. exists parsed. auto.
      * congruence.
  - destruct (http_prefix (JS.trim url)); [| congruence].
    intros _. right. auto.
Qed.

End EscapeMore.

(** ** The wallpaper cookie *)

Section CookieMore.

Import Store Home Invariants.









Variable fetch : string -> fetch_outcome.


(** X23. When the new index holds no entry of the feed (it is [NaN]), or
    the entry there is null or has neither [fullUrl] nor [url], the new
    index is still the one that the response writes, it is [NaN] or a
    position of the feed, and the wallpaper that the settings configure is
    kept. *)
Theorem entry_without_url_keeps_wallpaper
    (l : layout) (cookieHeader : option string) (data : list feed_item) :
  let next :=
    JS.rem (JS.add (currentWallpaperIndex_of cookieHeader) (JS.Num 1))
      (JS.Num (Z.of_nat (length data))) in
  layoutRandomWallpaper l = true ->
  fetch (bingUrl_of (bingCountry l)) = FetchResponse true (BodyArray data) ->
  data <> [] ->
  (JS.at_index data next = None
   \/ JS.at_index data next = Some ItemNullish
   \/ exists fullUrl url,
        JS.at_index data next = Some (ItemObject fullUrl url)
        /\ JS.js_or fullUrl (JS.js_or url "") = "") ->
  (next = JS.NaN \/ exists i, 0 <= i < Z.of_nat (length data) /\ next = JS.Num i)
  /\ rotate_wallpaper fetch l cookieHeader = (next, layoutCustomWallpaper l).
Proof.
  cbn zeta. intros Hon Hfetch Hdata Hentry.
  assert (Hlen : 0 < Z.of_nat (length data)).
  { destruct data; [contradiction | simpl; lia]. }
  split; [apply (next_index_cases cookieHeader _ Hlen) |].
  rewrite (rotate_with_feed fetch _ _ _ Hon Hfetch Hdata). cbn zeta.
  destruct Hentry as [-> | [-> | (fullUrl & url & -> & Hnone)]]; try reflexivity.
  rewrite Hnone. reflexivity.
Qed.

End CookieMore.

(** ** The layout settings *)

Section SettingsMore.

Import Store Home Invariants.

Lemma apply_setting_unknown (l : layout) (row : setting) :
  JS.includes recognized_keys (key row) = false -> apply_setting l row = l.
Proof.
  unfold JS.includes, recognized_keys. simpl. intros H.
  repeat (apply orb_false_elim in H as [?E H]).
  unfold apply_setting. rewrite E, E0, E1, E2, E3, E4, E5, E6, E7, E8, E9, E10, E11, E12.
  destruct l. reflexivity.
Qed.

(** X24. The settings are read key by key: a row whose key is not one of
    the fourteen recognised keys changes nothing, so the layout is the one
    of the recognised rows alone (the defaults when there is none), and of
    two rows with the same key the later one decides. *)
Theorem settings_use_recognized_keys_last_wins (d : db) (l : layout) (r1 r2 : setting) :
  load_layout d
  = fold_left apply_setting
      (List.filter (fun row => JS.includes recognized_keys (key row)) (settings d))
      default_layout
  /\ (key r1 = key r2 ->
      apply_setting (apply_setting l r1) r2 = apply_setting l r2).
Proof.
  split.
  - unfold load_layout. generalize default_layout.
    induction (settings d) as [|row rows IH]; intros l0; [reflexivity |].
    cbn [fold_left List.filter].
    destruct (JS.includes recognized_keys (key row)) eqn:E; cbn [fold_left].
    + apply IH.
    + rewrite (apply_setting_unknown l0 row E). apply IH.
  - intros Hkey. unfold apply_setting. rewrite Hkey. simpl.
    f_equal;
      match goal with |- context [String.eqb ?a ?b] => destruct (String.eqb a b) end;
      reflexivity.
Qed.

End SettingsMore.

(** ** Private categories on the homepage, and the first request on an old table *)

Section PrivacyMore.

Import Store Home Invariants.

Lemma find_category_unique (l : list category) (c : category) :
  List.NoDup (map c_id l) -> In c l -> find_category (c_id c) l = Some c.
Proof.
  unfold find_category. intros Hnd. induction l as [|x l IH]; intros Hin;
    [destruct Hin |].
  simpl in *. inversion Hnd as [|? ? Hx Hnd']; subst.
  destruct Hin as [-> | Hin]; [rewrite Z.eqb_refl; reflexivity |].
  destruct (Z.eqb_spec (c_id x) (c_id c)) as [Heq | _]; [| apply IH; assumption].
  exfalso. apply Hx. rewrite Heq. apply in_map, Hin.
Qed.

(** X25. On a store where the sites of private categories are private and
    the category ids are distinct, no site of a private category is in the
    data load of a visitor's homepage. *)
Theorem visitor_sees_no_private_category (d : db) (c : category) (r : row) :
  private_inherited d -> category_ids_unique d ->
  In c (categories d) -> c_is_private c = Some 1 ->
  In r (load_sites 0 d) ->
  s_catelog_id (r_site r) <> c_id c.
Proof.
  intros Hinv Hids Hc Hpriv Hr Hjoin.
  apply load_sites_In in Hr as (Hs & Hvis & _).
  apply visible_public in Hvis.
  assert (Hfind : find_category (s_catelog_id (r_site r)) (categories d) = Some c).
  { rewrite Hjoin. apply find_category_unique; assumption. }
  rewrite (Hinv _ _ Hs Hfind Hpriv) in Hvis. discriminate.
Qed.

Variable sql_like : string -> string -> bool.
Variable sql_id_eq : Z -> string -> bool.

(** X26. The request that runs the bootstrap on a table without the column
    [is_private] already answers from the patched table: every site has
    become public, and a visitor who asks for one page that holds them all
    (of a size that the store takes) is listed as many rows as there are
    sites. *)
Theorem first_request_on_old_table
    (sch : Bootstrap.schema) (req : ConfigApi.get_request) (d : db)
    (pageSize : Z) :
  Bootstrap.has_is_private sch = false ->
  ConfigApi.q_catalog req = None -> ConfigApi.q_catalogId req = None ->
  ConfigApi.q_keyword req = None ->
  JS.parseInt (JS.js_or (ConfigApi.q_page req) "1") = JS.Num 1 ->
  JS.parseInt (JS.js_or (ConfigApi.q_pageSize req) "10") = JS.Num pageSize ->
  Z.of_nat (length (sites d)) <= pageSize -> pageSize < 2 ^ 63 ->
  let '(answer, (checked, sch', d')) :=
    Bootstrap.onRequestGet_on_instance sql_like sql_id_eq false sch false req d in
  checked = true
  /\ Forall (fun s => s_is_private s = Some 0) (sites d')
  /\ exists resp,
       answer = Some resp
       /\ length (Middleware.data_of resp) = length (sites d).
Proof.
  intros Hold Hcat Hcid Hkw Hpage Hsize Hfit Hstore.
  unfold Bootstrap.onRequestGet_on_instance, Bootstrap.ensure_schema. rewrite Hold.
  cbn iota beta zeta.
  set (d1 := Bootstrap.map_sites Bootstrap.add_is_private d).
  set (d2 := if Bootstrap.has_catelog_name sch then d1
             else Bootstrap.map_sites (Bootstrap.backfill (categories d1))
                    (Bootstrap.map_sites Bootstrap.add_catelog_name d1)).
  assert (Hpub : Forall (fun s => s_is_private s = Some 0) (sites d2)).
  { apply List.Forall_forall. intros s Hs. unfold d2, d1 in Hs.
    destruct (Bootstrap.has_catelog_name sch); simpl in Hs.
    - apply in_map_iff in Hs as (s0 & <- & _). reflexivity.
    - rewrite !map_map in Hs. apply in_map_iff in Hs as (s0 & <- & _).
      unfold Bootstrap.backfill, Bootstrap.add_catelog_name. reflexivity. }
  assert (Hlen : length (sites d2) = length (sites d)).
  { unfold d2, d1. destruct (Bootstrap.has_catelog_name sch); simpl;
      rewrite ?length_map; reflexivity. }
  split; [reflexivity |]. split; [exact Hpub |].
  assert (Hget : ConfigApi.onRequestGet sql_like sql_id_eq false req d2
                 = Some (ConfigApi.list_sites sql_like sql_id_eq false
                           (ConfigApi.q_catalog req) (ConfigApi.q_catalogId req)
                           (ConfigApi.q_keyword req) 1 pageSize d2)).
  { apply onRequestGet_exact; try assumption.
    - vm_compute. discriminate.
    - replace ((1 - 1) * pageSize) with 0 by lia. vm_compute. discriminate.
    - rewrite Z.abs_eq by lia. exact Hstore. }
  rewrite Hget, Hcat, Hcid, Hkw.
  eexists. split; [reflexivity |].
  rewrite whole_page by (rewrite Hlen; exact Hfit).
  unfold matching, order_by. rewrite sort_length.
  rewrite <- Hlen. f_equal.
  apply forallb_filter_id. apply forallb_forall. intros s Hs.
  rewrite List.Forall_forall in Hpub.
  unfold ConfigApi.queryBase, visible. rewrite (Hpub s Hs). reflexivity.
Qed.

End PrivacyMore.

(** ** The menu ids and the overview numbers *)

Section MenuMore.

Import Store Home Invariants.

Lemma categoryIdMap_first (l : list row) (n : string) :
  match categoryIdMap (see_sites l) !! n with
  | Some i =>
    i <> 0
    /\ exists s, In s l /\ categoryName_of s = n /\ s_catelog_id (r_site s) = i
  | None =>
    forall s, In s l -> categoryName_of s = n -> s_catelog_id (r_site s) = 0
  end.
Proof.
  induction l as [|x l IH] using rev_ind.
  - simpl. rewrite lookup_empty. intros s [].
  - rewrite see_sites_snoc. cbn [see_site categoryIdMap].
    destruct (decide (categoryName_of x = n)) as [Hx | Hx].
    + subst n.
      destruct (categoryIdMap (see_sites l) !! categoryName_of x) as [i|] eqn:Hi.
      * assert (Hkeep : bool_decide (is_Some (Some i)) = true)
          by (apply bool_decide_eq_true_2; eauto).
        rewrite Hkeep, andb_false_r, Hi.
        destruct IH as (Hnz & s & Hs & Hn & Hid). split; [exact Hnz |].
        exists s. split; [apply in_or_app; auto | auto].
      * assert (Hnone : bool_decide (is_Some (@None Z)) = false)
          by (apply bool_decide_eq_false_2; intros [? ?]; discriminate).
        rewrite Hnone, andb_true_r.
        destruct (Z.eqb_spec (s_catelog_id (r_site x)) 0) as [Hz | Hnz]; simpl.
        -- rewrite Hi. intros s Hs Hn.
           apply in_app_or in Hs as [Hs | [<- | []]]; [apply IH; assumption | exact Hz].
        -- rewrite lookup_insert_eq. split; [exact Hnz |].
           exists x. split; [apply in_or_app; simpl; auto | auto].
    + assert (Hsame :
        (if negb (s_catelog_id (r_site x) =? 0)
            && negb (bool_decide
                       (is_Some (categoryIdMap (see_sites l) !! categoryName_of x)))
         then <[categoryName_of x := s_catelog_id (r_site x)]>
                (categoryIdMap (see_sites l))
         else categoryIdMap (see_sites l)) !! n
        = categoryIdMap (see_sites l) !! n).
      { destruct (_ && _); [apply lookup_insert_ne, Hx | reflexivity]. }
      rewrite Hsame.
      destruct (categoryIdMap (see_sites l) !! n) as [i|].
      * destruct IH as (Hnz & s & Hs & Hn & Hid). split; [exact Hnz |].
        exists s. split; [apply in_or_app; auto | auto].
      * intros s Hs Hn. apply in_app_or in Hs as [Hs | [<- | []]];
          [apply IH; assumption | contradiction].
Qed.

Variable localeCompare : string -> string -> Z.
Variable fetch : string -> fetch_outcome.
Variable URL_parse : string -> option URL.
Variable toUpperCase : string -> string.

(** X27. The id that a menu entry carries is the id of a category row:
    it is not 0, and some category row has this id and the (trimmed) name
    of the entry. An entry carries no id only when every loaded site of
    its category has the [catelog_id] 0. *)
Theorem menu_id_is_a_category_id (isAuthenticated : bool) (d : db) (m : catalog_meta) :
  In m (menu_of localeCompare isAuthenticated d) ->
  match id m with
  | Some i =>
    i <> 0
    /\ exists c,
         In c (categories d) /\ c_id c = i
         /\ JS.or_str (JS.trim (JS.or_str (c_catelog c) "")) "未分类" = name m
  | None =>
    forall r, In r (sites_of isAuthenticated d) ->
      categoryName_of r = name m -> s_catelog_id (r_site r) = 0
  end.
Proof.
  unfold menu_of, catalogsWithMeta, catalogsWithMeta_built.
  rewrite sort_In, in_map_iff. intros (n & <- & _). simpl.
  pose proof (categoryIdMap_first (sites_of isAuthenticated d) n) as H.
  destruct (categoryIdMap (see_sites (sites_of isAuthenticated d)) !! n) as [i|];
    [| exact H].
  destruct H as (Hnz & r & Hr & Hn & Hid). split; [exact Hnz |].
  apply load_sites_In in Hr as (_ & _ & c & Hc & Hjoin & Hname).
  exists c. split; [exact Hc |]. split; [congruence |].
  rewrite <- Hn. unfold categoryName_of. rewrite Hname. reflexivity.
Qed.

Lemma onRequest_counts isAuthenticated env req d :
  let p := html (onRequest localeCompare fetch URL_parse toUpperCase
                   isAuthenticated env req d) in
  TOTAL_SITES p = Z.of_nat (length (sites_of isAuthenticated d))
  /\ CATALOG_COUNT p = Z.of_nat (length (menu_of localeCompare isAuthenticated d))
  /\ length (datalistOptions p) = length (menu_of localeCompare isAuthenticated d).
Proof.
  cbn zeta. unfold onRequest.
  destruct (rotate_wallpaper fetch (load_layout d) (Cookie req)) as [next custom].
  simpl. rewrite !length_map. repeat split.
Qed.

Lemma select_incl (requestedCatalog : string) (catalogs : list string) (sites : list row) :
  (length (currentSites (select requestedCatalog catalogs sites)) <= length sites)%nat.
Proof.
  unfold select. simpl. destruct (_ && _); [apply filter_length_le | lia].
Qed.

(** X28. The overview numbers of the page do not depend on the catalog
    that is selected: TOTAL_SITES counts every loaded site and
    CATALOG_COUNT every menu entry, for each request to the same store by
    the same kind of caller, and the grid never holds more cards than
    TOTAL_SITES. *)
Theorem overview_counts_ignore_selection
    (isAuthenticated : bool) (env env' : environment) (req req' : request) (d : db) :
  let p := html (onRequest localeCompare fetch URL_parse toUpperCase
                   isAuthenticated env req d) in
  let p' := html (onRequest localeCompare fetch URL_parse toUpperCase
                    isAuthenticated env' req' d) in
  TOTAL_SITES p = TOTAL_SITES p'
  /\ CATALOG_COUNT p = CATALOG_COUNT p'
  /\ CATALOG_COUNT p = Z.of_nat (length (catalogLinks p))
  /\ Z.of_nat (length (sitesGridMarkup p)) <= TOTAL_SITES p.
Proof.
  cbn zeta.
  destruct (onRequest_counts isAuthenticated env req d) as (Ht & Hc & _).
  destruct (onRequest_counts isAuthenticated env' req' d) as (Ht' & Hc' & _).
  destruct (onRequest_page localeCompare fetch URL_parse toUpperCase
              isAuthenticated env req d)
    as (Hg & Hl & _).
  rewrite Ht, Ht', Hc, Hc', Hg, Hl, !length_map.
  repeat split.
  pose proof (select_incl (resolved_of localeCompare isAuthenticated env req d)
                (map name (menu_of localeCompare isAuthenticated d))
                (sites_of isAuthenticated d)) as Hle.
  unfold selection_of. lia.
Qed.

End MenuMore.

(** ** The further properties on concrete inputs *)

Section MoreInstances.

Import Store Middleware Home Invariants.

Lemma page_holds_at_most_pageSize_witness :
  0 <= 2
  /\ Z.of_nat (length (data_of (ConfigApi.list_sites Sample.sql_like Sample.sql_id_eq
                                   true None None None 1 2 Sample.store))) <= 2.
Proof.
  split; [lia |].
  destruct (page_holds_at_most_pageSize Sample.sql_like Sample.sql_id_eq true
              None None None 1 2 Sample.store) as [Hsize _]; [lia | exact Hsize].
Defined.


Lemma total_from_1000_is_clamped_witness :
  ConfigApi.countQuery Sample.sql_like Sample.sql_id_eq 1 None None None Sample.store = 3
  /\ exists resp,
       ConfigApi.onRequestGet Sample.sql_like Sample.sql_id_eq true
         Cases.ask_second_thousand Sample.store = Some resp
       /\ total_of resp = JS.Num 1000.
Proof.
  split; [reflexivity |].
  destruct (total_from_1000_is_clamped Sample.sql_like Sample.sql_id_eq true
              Cases.ask_second_thousand Sample.store 2 1000)
    as (resp & Hresp & _ & Htotal).
  - reflexivity.
  - reflexivity.
  - lia.
  - lia.
  - vm_compute. discriminate.
  - exists resp. split; [exact Hresp | exact Htotal].
Defined.

Lemma visitor_list_is_public_part_witness :
  data_of (ConfigApi.list_sites Sample.sql_like Sample.sql_id_eq false
             None None None 1 10 Sample.store)
  = [Sample.site2; Sample.site1]
  /\ data_of (ConfigApi.list_sites Sample.sql_like Sample.sql_id_eq true
                None None None 1 10 Sample.store)
     = [Sample.site3; Sample.site2; Sample.site1].
Proof.
  assert (Hadmin : data_of (ConfigApi.list_sites Sample.sql_like Sample.sql_id_eq true
                              None None None 1 10 Sample.store)
                   = [Sample.site3; Sample.site2; Sample.site1]) by reflexivity.
  split; [| exact Hadmin].
  rewrite (visitor_list_is_public_part Sample.sql_like Sample.sql_id_eq
             None None None 10 Sample.store) by (simpl; lia).
  rewrite Hadmin. reflexivity.
Defined.

Lemma create_only_appends_witness :
  JS.trimmed (ConfigApi.b_name Cases.duplicate_with_number_name) = None
  /\ Middleware.status
       (fst (ConfigApi.onRequestPost_request true Sample.api_env
               (ConfigApi.JsonObject Cases.duplicate_with_number_name) 99 Sample.store))
     = 500
  /\ Middleware.status
       (fst (ConfigApi.onRequestPost_request true Sample.api_env ConfigApi.JsonThrows
               99 Sample.store)) = 500
  /\ snd (ConfigApi.onRequestPost_request true Sample.api_env ConfigApi.JsonThrows
            99 Sample.store) = Sample.store.
Proof.
  split; [reflexivity |].
  destruct (create_only_appends true Sample.api_env
              (ConfigApi.JsonObject Cases.duplicate_with_number_name) 99 Sample.store)
    as (_ & _ & _ & Hthrown).
  destruct (create_only_appends true Sample.api_env ConfigApi.JsonThrows 99
              Sample.store) as (_ & Hsame & _ & Hnotjson).
  split; [| split].
  - apply Hthrown. right. eexists. split; [reflexivity |]. left. reflexivity.
  - apply Hnotjson. left. reflexivity.
  - apply Hsame. rewrite Hnotjson by (left; reflexivity). discriminate.
Defined.

Lemma sample_urls_unique : urls_unique Sample.store.
Proof.
  unfold urls_unique. simpl.
  repeat constructor; simpl; intuition discriminate.
Qed.

Lemma sample_private_inherited : private_inherited Sample.store.
Proof.
  intros s c Hs Hc Hp. simpl in Hs.
  destruct Hs as [<- | [<- | [<- | []]]]; vm_compute in Hc; injection Hc as <-;
    discriminate.
Qed.

Lemma sample_names_in_sync : names_in_sync Sample.store.
Proof.
  intros s c Hs Hc. simpl in Hs.
  destruct Hs as [<- | [<- | [<- | []]]]; vm_compute in Hc; injection Hc as <-;
    reflexivity.
Qed.

Lemma create_keeps_urls_unique_witness :
  urls_unique Sample.store
  /\ urls_unique (snd (ConfigApi.onRequestPost true Sample.api_env Sample.new_in_vault
                         99 Sample.store)).
Proof.
  split; [exact sample_urls_unique |].
  apply create_keeps_urls_unique, sample_urls_unique.
Defined.

Lemma create_keeps_private_inherited_witness :
  private_inherited Sample.store
  /\ private_inherited (snd (ConfigApi.onRequestPost true Sample.api_env
                               Sample.new_in_vault 99 Sample.store)).
Proof.
  split; [exact sample_private_inherited |].
  apply create_keeps_private_inherited, sample_private_inherited.
Defined.

Lemma create_keeps_names_in_sync_witness :
  names_in_sync Sample.store
  /\ names_in_sync (snd (ConfigApi.onRequestPost true Sample.api_env
                           Sample.new_in_vault 99 Sample.store)).
Proof.
  split; [exact sample_names_in_sync |].
  apply create_keeps_names_in_sync, sample_names_in_sync.
Defined.

Lemma created_url_is_taken_witness :
  Middleware.status (fst (ConfigApi.onRequestPost true Sample.api_env Sample.new_in_vault
                 99 Sample.store)) = 201
  /\ Middleware.status (fst (ConfigApi.onRequestPost true Sample.api_env Sample.new_in_vault 100
                    (snd (ConfigApi.onRequestPost true Sample.api_env
                            Sample.new_in_vault 99 Sample.store)))) = 409.
Proof.
  split; [reflexivity |].
  rewrite (created_url_is_taken true Sample.api_env Sample.api_env
             Sample.new_in_vault Sample.new_in_vault 99 100 Sample.store
             "https://four.example/x" "https://four.example/x" " four ").
  - reflexivity.
  - reflexivity.
  - reflexivity.
  - reflexivity.
  - reflexivity.
  - reflexivity.
  - vm_compute. discriminate.
  - vm_compute. discriminate.
  - vm_compute. discriminate.
  - exists 3. split; [reflexivity | lia].
Defined.



Lemma bootstrap_backfills_names_witness :
  Bootstrap.has_catelog_name Cases.legacy_schema = false
  /\ names_in_sync (snd (Bootstrap.ensure_schema false Cases.legacy_schema
                           Cases.store_with_orphan))
  /\ map s_catelog_name
       (sites (snd (Bootstrap.ensure_schema false Cases.legacy_schema
                      Cases.store_with_orphan)))
     = [Some "A"; Some "B"; Some "A"; None].
Proof.
  split; [reflexivity |].
  destruct (bootstrap_backfills_names Cases.legacy_schema Cases.store_with_orphan
              eq_refl) as (Hsync & _).
  split; [exact Hsync | reflexivity].
Defined.


Lemma existing_catalog_is_selected_witness :
  map data_id
    (sitesGridMarkup
       (html (onRequest Sample.localeCompare Sample.feed3 Sample.URL_parse Sample.toUpperCase
                false
                Sample.env Cases.ask_B Sample.store))) = [2]
  /\ headingText
       (html (onRequest Sample.localeCompare Sample.feed3 Sample.URL_parse Sample.toUpperCase
                false
                Sample.env Cases.ask_B Sample.store)) = "B · 1 个网站"
  /\ map isActive
       (catalogLinks
          (html (onRequest Sample.localeCompare Sample.feed3 Sample.URL_parse Sample.toUpperCase
                   false
                   Sample.env Cases.ask_B Sample.store))) = [true; false].
Proof.
  destruct (existing_catalog_is_selected Sample.localeCompare Sample.feed3
              Sample.URL_parse Sample.toUpperCase
                  false Sample.env Cases.ask_B Sample.store "B")
    as (Hgrid & _ & Hheading & _ & _ & _ & Hlinks & _).
  - reflexivity.
  - vm_compute. discriminate.
  - vm_compute. auto.
  - rewrite Hgrid, Hheading, Hlinks. repeat split.
Defined.

Lemma default_category_applies_witness :
  DISPLAY_CATEGORY Sample.env = Some "A"
  /\ map data_id
       (sitesGridMarkup
          (html (onRequest Sample.localeCompare Sample.feed3 Sample.URL_parse Sample.toUpperCase
                   false
                   Sample.env Cases.ask_nothing Sample.store))) = [1]
  /\ allLinkActive
       (html (onRequest Sample.localeCompare Sample.feed3 Sample.URL_parse Sample.toUpperCase
                false
                Sample.env Cases.ask_nothing Sample.store)) = false.
Proof.
  split; [reflexivity |].
  destruct (default_category_applies Sample.localeCompare Sample.feed3
              Sample.URL_parse Sample.toUpperCase
                  false Sample.env Cases.ask_nothing Sample.store
              eq_refl) as [Hdefault _].
  destruct Hdefault as (Hgrid & _ & Hall); [vm_compute; auto |].
  rewrite Hgrid. split; [reflexivity | exact Hall].
Defined.

Lemma explicit_catalog_beats_default_witness :
  DISPLAY_CATEGORY Sample.env = Some "A"
  /\ map data_id
       (sitesGridMarkup
          (html (onRequest Sample.localeCompare Sample.feed3 Sample.URL_parse Sample.toUpperCase
                   false
                   Sample.env Cases.ask_ALL Sample.store))) = [2; 1]
  /\ resolved_of Sample.localeCompare false Sample.env Sample.ask_unknown Sample.store
     = "Zed".
Proof.
  split; [reflexivity |].
  destruct (explicit_catalog_beats_default Sample.localeCompare Sample.feed3
              Sample.URL_parse Sample.toUpperCase
                  false Sample.env Cases.ask_ALL Sample.store "ALL")
    as [_ Hall]; [reflexivity | discriminate |].
  destruct (Hall eq_refl) as (Hgrid & _).
  destruct (explicit_catalog_beats_default Sample.localeCompare Sample.feed3
              Sample.URL_parse Sample.toUpperCase
                  false Sample.env Sample.ask_unknown Sample.store "Zed")
    as [Hzed _]; [reflexivity | discriminate |].
  destruct Hzed as [Hres _]; [vm_compute; discriminate |].
  rewrite Hgrid. split; [reflexivity | exact Hres].
Defined.

Lemma escapeHTML_removes_markup_witness :
  free_of escaped_char "plain text" = true
  /\ escapeHTML "plain text" = "plain text"
  /\ free_of markup_char (escapeHTML "<b onclick='x'>") = true.
Proof.
  split; [reflexivity |].
  destruct (escapeHTML_removes_markup "plain text") as [_ Hsame].
  destruct (escapeHTML_removes_markup "<b onclick='x'>") as [Hfree _].
  split; [apply Hsame; reflexivity | exact Hfree].
Defined.

Lemma sanitizeUrl_lets_only_http_witness :
  sanitizeUrl Sample.URL_parse " https://example.com " = "https://example.com/"
  /\ exists parsed,
       Sample.URL_parse "https://example.com" = Some parsed
       /\ protocol parsed = "https:".
Proof.
  split; [reflexivity |].
  destruct (sanitizeUrl_lets_only_http Sample.URL_parse " https://example.com ")
    as [(parsed & Hparse & Hprotocol & _) | (Hparse & _)].
  - vm_compute. discriminate.
  - exists parsed. split; [exact Hparse |].
    vm_compute in Hparse. injection Hparse as <-. reflexivity.
  - vm_compute in Hparse. discriminate.
Defined.


Lemma entry_without_url_keeps_wallpaper_witness :
  rotate_wallpaper Cases.feed_with_gaps (load_layout Sample.store)
    (Some "wallpaper_index=0")
  = (JS.Num 1, "https://example.com").
Proof.
  destruct (entry_without_url_keeps_wallpaper Cases.feed_with_gaps
              (load_layout Sample.store) (Some "wallpaper_index=0")
              [Sample.item "https://img.example/0.jpg"; ItemNullish;
               ItemObject None None]) as [_ Hkept].
  - reflexivity.
  - reflexivity.
  - discriminate.
  - right. left. reflexivity.
  - exact Hkept.
Defined.

Lemma settings_use_recognized_keys_last_wins_witness :
  key Cases.hide_desc_on = key Cases.hide_desc_off
  /\ layoutHideDesc
       (apply_setting (apply_setting default_layout Cases.hide_desc_on)
          Cases.hide_desc_off) = false.
Proof.
  split; [reflexivity |].
  destruct (settings_use_recognized_keys_last_wins Sample.store default_layout
              Cases.hide_desc_on Cases.hide_desc_off) as [_ Hlast].
  rewrite (Hlast eq_refl). reflexivity.
Defined.

Lemma vault_store_private_inherited : private_inherited Cases.store_with_vault_site.
Proof.
  intros s c Hs Hc Hp. vm_compute in Hs.
  destruct Hs as [<- | [<- | [<- | [<- | []]]]]; vm_compute in Hc;
    injection Hc as <-; try discriminate; reflexivity.
Qed.

Lemma visitor_sees_no_private_category_witness :
  In Sample.catVault (categories Cases.store_with_vault_site)
  /\ c_is_private Sample.catVault = Some 1
  /\ map (fun r => s_catelog_id (r_site r)) (load_sites 0 Cases.store_with_vault_site)
     = [2; 1]
  /\ (forall r, In r (load_sites 0 Cases.store_with_vault_site) ->
        s_catelog_id (r_site r) <> c_id Sample.catVault).
Proof.
  assert (Hin : In Sample.catVault (categories Cases.store_with_vault_site))
    by (vm_compute; auto).
  split; [exact Hin |]. split; [reflexivity |]. split; [reflexivity |].
  intros r Hr.
  apply (visitor_sees_no_private_category Cases.store_with_vault_site Sample.catVault r);
    [exact vault_store_private_inherited | | exact Hin | reflexivity | exact Hr].
  unfold category_ids_unique. vm_compute.
  repeat constructor; simpl; intuition discriminate.
Defined.

Lemma first_request_on_old_table_witness :
  Bootstrap.has_is_private Cases.legacy_schema = false
  /\ s_is_private Sample.site3 = Some 1
  /\ exists resp,
       fst (Bootstrap.onRequestGet_on_instance Sample.sql_like Sample.sql_id_eq false
              Cases.legacy_schema false Cases.ask_everything Sample.store)
       = Some resp
       /\ length (data_of resp) = 3%nat.
Proof.
  split; [reflexivity |]. split; [reflexivity |].
  pose proof (first_request_on_old_table Sample.sql_like Sample.sql_id_eq
                Cases.legacy_schema Cases.ask_everything Sample.store 50
                eq_refl eq_refl eq_refl eq_refl eq_refl eq_refl) as H.
  assert (Hstore : 50 < 2 ^ 63) by (vm_compute; reflexivity).
  destruct (Bootstrap.onRequestGet_on_instance Sample.sql_like Sample.sql_id_eq false
              Cases.legacy_schema false Cases.ask_everything Sample.store)
    as [answer [[checked sch'] d']].
  destruct H as (_ & _ & resp & Hanswer & Hlen); [simpl; lia | exact Hstore |].
  exists resp. split; [exact Hanswer | exact Hlen].
Defined.

Lemma menu_id_is_a_category_id_witness :
  map id (menu_of Sample.localeCompare false Sample.store) = [Some 2; Some 1]
  /\ exists c, In c (categories Sample.store) /\ c_id c = 2 /\ c_catelog c = "B".
Proof.
  split; [reflexivity |].
  pose proof (menu_id_is_a_category_id Sample.localeCompare false Sample.store
                {| name := "B"; order := 1; fallback := 3; id := Some 2 |}) as H.
  destruct H as (_ & c & Hc & Hid & Hname); [vm_compute; auto |].
  exists c. split; [exact Hc |]. split; [exact Hid |].
  simpl in Hc. destruct Hc as [<- | [<- | [<- | []]]]; try discriminate. reflexivity.
Defined.

End MoreInstances.
